(* ===== verification/_CoqProject ===== *)
-Q . S2P
Prelude.v
QtModel.v
Settings.v
TkGeometry.v
Dialogs.v
ClockFace.v
Overlay.v
Picker.v
App.v
MainLoops.v
TopLevel.v
