(* ===== verification/Prelude.v ===== *)
(** * A verification development of dhonvtool (src/dhonvtool.py)

    ** The program
    [src/dhonvtool.py] is a Windows overlay tool written against tkinter,
    PyQt6 and pywin32.  Its parts and how they interact:
    - the module globals (lines 10-20): the selected rectangle and the
      overlay settings (aim colour, point colour, opacities, the twelve
      point-visibility flags, point size, aim length and thickness);
    - the window locator [get_window_rect] (lines 24-29), a wrapper around
      [win32gui.GetWindowRect] that turns an exception into [None];
    - the hover picker [draw_window_border] (lines 287-335) with its timer
      callback [update_hover] and its click handler [on_click]: a Tk
      window that follows the window under the pointer every 50 ms and,
      on a click, stores the hovered window's rectangle in the global
      [selected_rect] and hands it to [create_red_border_with_buttons];
    - the overlay renderer [PyQtOverlayWithAim] (lines 33-90): a Qt window
      placed on the selected rectangle whose [paintEvent] draws a red
      border, a crosshair and up to twelve clock-position points, reading
      the globals (and writing one of them, see [Overlay.v]);
    - the settings handlers [change_*] and [toggle_point_visibility]
      (lines 217-270), which write one global and call
      [red_border.update()]; the dialogs [open_*] (lines 94-214) create
      the sliders and check boxes that call them;
    - the control panel [create_red_border_with_buttons] and
      [restart_selection] (lines 339-361), which build the Qt application,
      the overlay and a Tk panel with "reselect" and "settings" buttons;
    - the top level: the imports (lines 2-8), the assignments of the
      globals, the [def] and [class] statements in order (among them a
      first [draw_window_border], lines 274-285, which the second one
      rebinds) and the guard of lines 365-366 that starts the picker.

    ** The library (files in dependency order)
    - [Prelude.v] (this file): the Python semantics the model needs: the
      exceptions, a state-and-exception monad [PyM] with its notation in
      [py_scope], Python indexing and item assignment on lists (raising
      [IndexError] out of range), floor division, truthiness of the values
      the code tests, the [dhon] hint database and the shared tactics.
    - [QtModel.v]: the parts of Qt and Tk that the program's behaviour
      depends on: [QColor] with [setAlpha], [QPen] and brushes, a
      [QPainter] that records what it is asked to draw, and [QSlider]'s
      clamping and [valueChanged] emission; what Qt's types require of
      the colours, pens and ellipses a painter receives ([drawcmd_ok]).
    - [Settings.v]: the globals as a record [Globals] and their initial
      values; every handler of lines 217-270 as a [PyM] program over the
      globals and the overlay widget, [red_border.update()] going through
      the interface [Class Repaintable] that [Overlay.v] implements; the
      wiring of the dialogs' controls to the handlers ([dispatch]) and the
      well-formedness invariant [wf_globals].
    - [TkGeometry.v]: the geometry strings of lines 313 and 349:
      Python's [str()] of an int, the f-string, and Tk's
      [ParseGeometry] ([strtoul]/[strtol] after its [isdigit] checks,
      [TclError] on a bad specifier), written from Tk's C source.  The
      picker's [overlay.geometry(...)] and the control panel's geometry
      go through it.
    - [Dialogs.v]: the settings dialogs of lines 92-214: the main dialog
      and its three nested modal dialogs as a stack, each built from the
      current globals ([open_aim_settings], [open_point_settings],
      [open_point_arrangement]); a user input moves a slider, clicks a
      check box or picks a colour, and the widget's signal runs the
      handler of [Settings.v] ([dialog_step]); the sessions of the
      dialogs ([session_reach]) and their invariant.
    - [ClockFace.v]: the clock-position arithmetic of [paintEvent]
      (lines 78-85) on IEEE binary64 numbers: [math.radians], the
      multiplication by 100 and Python's [int] truncation, computed with
      Rocq's primitive floats; [math.cos]/[math.sin] are the interface
      [Class Libm].
    - [Overlay.v]: [PyQtOverlayWithAim.__init__] (geometry, the
      click-through style bits as [Z.lor]), [show]/[close]/[update], and
      the whole [paintEvent] as a [PyM] program over a recording painter
      and the globals; beside it the abstract frame [frame_spec] that the
      refinement theorem relates it to, and the reference loop that
      paints from a copy of the point colour instead of the alias.
    - [Picker.v]: the hover picker ([update_hover], [on_click]) over an
      abstract window manager ([Class WindowManager] for [WindowFromPoint]
      and [GetWindowRect], with the law that rectangles have non-negative
      size), the picker's own topmost Tk window taking part in
      [WindowFromPoint]; the sessions it goes through as the inductive
      reachability [picker_reach]; [eventually] over the timer's ticks
      for liveness; a ghost counter of outlines drawn; a
      concrete desktop [demo_wm] (windows 10 and 20, picker handle 99)
      on which the witnesses run.
    - [App.v]: the whole program as a step relation [app_step] over the
      phases "picking", "overlay shown" and "exited", with abstract
      in-range settings events, repaint, reselect and the QApplication
      singleton; ghost fields count the overlays built and keep the last
      painted frame.  [sys_step] is the program with its dialogs: while a
      modal dialog runs, Tk's loop is blocked and only repaints and
      dialog input happen.
    - [MainLoops.v]: the process under [sys_step]: the Python frames the
      nested Tk main loops keep suspended ([on_click] calls the panel's
      [mainloop] from inside the picker's loop, "reselect" a new picker
      loop from inside the panel's) and the count of live Tk main
      windows, on which tkinter's [mainloop] returns; the frames unwind
      when the last Tk window is gone, and an exception out of a Qt slot
      aborts the process.
    - [TopLevel.v]: the module's top-level statements run over a
      namespace ([gmap string PyObj]): imports that raise
      [ModuleNotFoundError] when a module is missing, the assignments of
      lines 11-20 evaluated ([QColor(...)], [[True] * 12]), the [def]s
      binding function objects (both [draw_window_border]s), the class
      statement reading its base, and the [__main__] guard; the global
      names each function body reads and rebinds; [main_start], the
      state of [App.v] the run hands over to; [ns_reach], the
      namespaces of a whole run.

    ** What the theorems show (see each file)
    - overlay (C1, C12, C13, C14, C15, C27, C28, C37): [paintEvent] refines [frame_spec]:
      it never raises on settings with twelve flags and draws the border,
      the crosshair and one ellipse per visible flag in index order,
      writing the point opacity into the global point colour through the
      alias [point_color_with_opacity]; hiding a point removes exactly its
      ellipse; the opacity sliders reach the frame's alpha; the style
      bits are set and the others kept; the alias is equivalent, for
      what is drawn, to painting from a copy; every drawn command is
      well typed for Qt; a second repaint draws the same frame; the
      style written back stays a signed 32-bit [LONG];
    - picker (C2, C8, C10, C19, C26, C30, C32): the invariant of every reachable
      picker state (rule induction on [picker_reach]): the Tk window and
      its outline show the tracked window's rectangle, so a click selects
      what is highlighted; a click with nothing tracked keeps a stale
      selection; redraw counts over a trace of answers; polling stops
      after a click; the picker's own window captures the pointer; the
      timer is always armed, so the highlight eventually (after at most
      one tick) reaches the window under a resting pointer; the
      [except] of [update_hover] is never taken, since the geometry
      string of a window's rectangle always parses;
    - Tk geometry (C11): the f-string of a size and a position parses
      back to exactly those numbers, negative coordinates included; a
      negative size is a [TclError];
    - top level (C16, C17, C18, C20): running the file as [__main__]
      yields exactly [App.v]'s initial state [app_init] (the settings of
      lines 11-20, the second [draw_window_border] in its main loop);
      the run reaches its call, and no name a function reads is unbound
      at that call or later in the run; the first
      [draw_window_border] is held by no global and every call of the
      name reaches the second; a missing module stops the run at its
      import, before any global or window exists;
    - main loops (C21, C22): the process refines the program with its
      dialogs, and its suspended frames follow the phase: the panel's
      loop runs nested in the picker's (the spec has them one after the
      other) and every "reselect" nests the new picker's loop in the
      panel's, so the nesting is unbounded; the process ends exactly
      when the program exits and the last Tk window is gone;
    - application (C3, C4, C7, C29, C31): the program with its
      dialogs refines [app_step] (every state it reaches is reachable
      there); [app_inv] holds in every reachable state (a QApplication
      alive exactly once an overlay was built, the settings well
      formed); the first click places the overlay and the panel; a click
      after "reselect" makes a second QApplication while the first is
      alive and places a new overlay; a settings change is repainted
      with the new settings;
    - dialogs (C6, C9, C25, C33): every dialog input is no change
      or one in-range settings event; the open dialog's controls show
      the settings; the aim-opacity slider reopens at 255 and cannot
      restore full opacity in one move; check box [i] toggles flag [i];
      beside them, a lemma on the arrangement dialog's [range(12)]
      loop;
    - settings (C5, C24, C35, C36): [dispatch] preserves
      [wf_globals] for every value a control can deliver; the
      aim-opacity handler changes the aim colour's alpha and not
      [aim_opacity], and that alpha is lost on a colour pick; toggling
      on each branch, errors included (a lemma does colour picking);
    - clock face (C23, C34): the twelve offsets the float code
      computes (index 0 at 60 degrees, i.e. 1 o'clock) and the three
      points nearer than 99 px; beside them, lemmas that every distance
      lies in [98.98, 100] and that the face is not symmetric.

    ** Bounds, fuel and what is not modelled
    Pixel coordinates and colour channels are Python ints, modelled as [Z]
    (no overflow exists in Python; Tk's [strtol] would saturate beyond
    32 bits, which no screen coordinate reaches and which is not
    modelled); Qt's 8-bit alpha clamp and slider
    bounding are written out; Python's [int()] on a float raises on
    infinities and NaN as the model's [py_int] does.
    The trigonometric functions of the C library are not modelled: their
    results at the twelve arguments the code uses are given as the
    correctly rounded binary64 values (checked against a 60-digit series
    evaluation; both glibc and the Windows CRT return these values).
    Nothing needs fuel: the poll loop is one step of a relation per timer
    tick, the paint loop runs over the twelve angles, and traces are
    finite lists of events.
    Not modelled: widget layout, titles and label strings, the colour
    dialog itself (its result is an input), Tk's placement for a
    geometry measured from the far screen edges or without a size (the
    program's strings never have those forms, theorem C11), Qt's event dispatch beyond
    "an update request leads to one paint", what importing tkinter,
    PyQt6 and pywin32 does beyond binding the names (the names
    imported from a module are taken to exist in it), and attribute
    lookups on modules and objects ([tk.Tk], [win32con.GWL_EXSTYLE]),
    which the top level does not resolve, and the picker's last armed
    timer after the click: tkinter deletes its Tcl command when the
    window is destroyed, so when it fires in the panel's loop Tcl only
    reports "invalid command name" and nothing of the program changes
    (the model fires it at most once, to the same effect, C30). *)

From Stdlib Require Import ZArith Lia.
From stdpp Require Import base list decidable.

Declare Scope py_scope.
Delimit Scope py_scope with py.
Open Scope Z_scope.

Create HintDb dhon.
Create Rewrite HintDb dhon_rw.

(** ** Python exceptions and results *)

(** The exceptions the modelled code can raise. *)
Inductive exn : Type :=
| IndexError
| RuntimeError
| TclError
| ValueError
| OverflowError
| NameError              (** a global name that is not bound *)
| TypeError              (** a call of an object that is not callable *)
| ModuleNotFoundError.   (** an [import] of a module that is not installed *)

#[export] Instance exn_eq_dec : EqDecision exn.
Proof. solve_decision. Defined.

(** A Python computation either returns a value or raises. *)
Inductive res (A : Type) : Type :=
| Ok (a : A)
| Raise (e : exn).
Arguments Ok {A} a.
Arguments Raise {A} e.

(** ** The state-and-exception monad

    A statement of Python mutates state and may raise; mutations made
    before the raise persist, so the state is returned in both cases. *)
Definition PyM (S A : Type) : Type := S -> res A * S.

Definition py_ret {S A} (a : A) : PyM S A := fun s => (Ok a, s).

Definition py_bind {S A B} (m : PyM S A) (k : A -> PyM S B) : PyM S B :=
  fun s => match m s with
           | (Ok a, s') => k a s'
           | (Raise e, s') => (Raise e, s')
           end.

Definition py_get {S} : PyM S S := fun s => (Ok s, s).
Definition py_put {S} (s : S) : PyM S unit := fun _ => (Ok tt, s).
Definition py_modify {S} (f : S -> S) : PyM S unit := fun s => (Ok tt, f s).
Definition py_raise {S A} (e : exn) : PyM S A := fun s => (Raise e, s).

(** Lifting a pure result into the monad. *)
Definition py_lift {S A} (r : res A) : PyM S A := fun s => (r, s).

(** [try: m  except Exception: handler]: the state reached at the raise
    is kept. *)
Definition py_try {S A} (m : PyM S A) (handler : exn -> PyM S A) : PyM S A :=
  fun s => match m s with
           | (Ok a, s') => (Ok a, s')
           | (Raise e, s') => handler e s'
           end.

(** [for x in l: body x], threading the state, stopping at a raise. *)
Fixpoint py_for {S A} (l : list A) (body : A -> PyM S unit) : PyM S unit :=
  match l with
  | [] => py_ret tt
  | x :: l' => py_bind (body x) (fun _ => py_for l' body)
  end.

Notation "x <- m ;; k" := (py_bind m (fun x => k))
  (at level 100, m at next level, right associativity) : py_scope.
Notation "m ;; k" := (py_bind m (fun _ => k))
  (at level 100, right associativity) : py_scope.

(** ** Python values and operators *)

(** [a // b] on ints: floor division. *)
Definition py_floordiv (a b : Z) : Z := Z.div a b.

(** [l[i]] on a list, negative indices counting from the end. *)
Definition py_getitem {A} (l : list A) (i : Z) : res A :=
  let n := Z.of_nat (length l) in
  let j := if Z.ltb i 0 then i + n else i in
  if Z.ltb j 0 then Raise IndexError
  else match l !! Z.to_nat j with
       | Some x => Ok x
       | None => Raise IndexError
       end.

(** [l[i] = v] on a list: in place, [IndexError] out of range (Python
    does not extend the list, unlike stdpp's insert which ignores it). *)
Definition py_setitem {A} (l : list A) (i : Z) (v : A) : res (list A) :=
  let n := Z.of_nat (length l) in
  let j := if Z.ltb i 0 then i + n else i in
  if Z.ltb j 0 then Raise IndexError
  else if Z.ltb j n then Ok (<[Z.to_nat j := v]> l)
  else Raise IndexError.

(** [[x] * n] *)
Definition py_repeat {A} (x : A) (n : nat) : list A := replicate n x.

(** [enumerate(l)] as a list of (index, element) pairs. *)
Definition py_enumerate {A} (l : list A) : list (Z * A) :=
  zip (map Z.of_nat (seq 0 (length l))) l.

(** ** Shared lemmas *)

Lemma py_bind_ret_l {S A B} (a : A) (k : A -> PyM S B) s :
  py_bind (py_ret a) k s = k a s.
Proof. reflexivity. Qed.

Lemma py_bind_ok {S A B} (m : PyM S A) (k : A -> PyM S B) s a s' :
  m s = (Ok a, s') -> py_bind m k s = k a s'.
Proof. intros H. unfold py_bind. by rewrite H. Qed.

Lemma py_bind_raise {S A B} (m : PyM S A) (k : A -> PyM S B) s e s' :
  m s = (Raise e, s') -> py_bind m k s = (Raise e, s').
Proof. intros H. unfold py_bind. by rewrite H. Qed.

Lemma py_for_app {S A} (l1 l2 : list A) (body : A -> PyM S unit) s :
  py_for (l1 ++ l2) body s = py_bind (py_for l1 body) (fun _ => py_for l2 body) s.
Proof.
  revert s. induction l1 as [|x l1 IH]; intros s; [reflexivity|].
  simpl. unfold py_bind at 1 2 3.
  destruct (body x s) as [[a|e] s'] eqn:E; [apply IH|reflexivity].
Qed.

(** Two loops whose bodies agree on related states (same result,
    related states afterwards) agree: a simulation for [py_for]. *)
Section ForSimulation.
Context {S1 S2 A : Type} (R : S1 -> S2 -> Prop).
Context (body1 : A -> PyM S1 unit) (body2 : A -> PyM S2 unit).
Hypothesis body_sim : forall x s1 s2, R s1 s2 ->
  fst (body1 x s1) = fst (body2 x s2) /\ R (snd (body1 x s1)) (snd (body2 x s2)).

Lemma py_for_sim (l : list A) s1 s2 :
  R s1 s2 ->
  fst (py_for l body1 s1) = fst (py_for l body2 s2) /\
  R (snd (py_for l body1 s1)) (snd (py_for l body2 s2)).
Proof.
  revert s1 s2. induction l as [|x l IH]; intros s1 s2 Hr; [split; [reflexivity|exact Hr]|].
  simpl. unfold py_bind.
  destruct (body_sim x s1 s2 Hr) as [Hres Hr'].
  destruct (body1 x s1) as [[a1|e1] s1'], (body2 x s2) as [[a2|e2] s2'];
    simpl in *; try discriminate.
  - by apply IH.
  - split; congruence.
Qed.
End ForSimulation.

(** A loop whose bodies agree on the loop's elements is the same loop. *)
Lemma py_for_ext {S A} (l : list A) (f g : A -> PyM S unit) :
  (forall x, In x l -> f x = g x) -> py_for l f = py_for l g.
Proof.
  induction l as [|x l IH]; intros Hfg; [reflexivity|].
  simpl. rewrite (Hfg x (or_introl eq_refl)), IH; [reflexivity|].
  intros y Hy. apply Hfg. by right.
Qed.

(** A property of the state that every body keeps, whether it returns
    or raises, holds after the loop. *)
Lemma py_for_inv {S A} (P : S -> Prop) (l : list A) (body : A -> PyM S unit) s :
  (forall x s, In x l -> P s -> P (snd (body x s))) -> P s -> P (snd (py_for l body s)).
Proof.
  revert s. induction l as [|x l IH]; intros s Hb Hs; [exact Hs|].
  simpl. unfold py_bind.
  pose proof (Hb x s (or_introl eq_refl) Hs) as Hs'.
  destruct (body x s) as [[a|e] s'] eqn:E; [|exact Hs'].
  apply IH; [intros y t Hy; apply Hb; by right|exact Hs'].
Qed.

(** A loop whose bodies never raise never raises. *)
Lemma py_for_ok {S A} (l : list A) (body : A -> PyM S unit) s :
  (forall x s, In x l -> fst (body x s) = Ok tt) -> fst (py_for l body s) = Ok tt.
Proof.
  revert s. induction l as [|x l IH]; intros s Hb; [reflexivity|].
  simpl. unfold py_bind.
  pose proof (Hb x s (or_introl eq_refl)) as Hx.
  destruct (body x s) as [[[]|e] s'] eqn:E; simpl in Hx; [|discriminate].
  apply IH. intros y t Hy. apply Hb. by right.
Qed.

Lemma py_getitem_nat {A} (l : list A) (i : nat) :
  py_getitem l (Z.of_nat i) = match l !! i with Some x => Ok x | None => Raise IndexError end.
Proof.
  unfold py_getitem.
  destruct (Z.ltb_spec (Z.of_nat i) 0); [lia|].
  destruct (Z.ltb_spec (Z.of_nat i) 0); [lia|]. by rewrite Nat2Z.id.
Qed.

Lemma py_getitem_lt {A} (l : list A) (i : nat) :
  (i < length l)%nat -> exists x, l !! i = Some x /\ py_getitem l (Z.of_nat i) = Ok x.
Proof.
  intros Hi. rewrite py_getitem_nat.
  destruct (lookup_lt_is_Some_2 l i Hi) as [x Hx]. exists x. by rewrite Hx.
Qed.

Lemma py_setitem_nat {A} (l : list A) (i : nat) (v : A) :
  (i < length l)%nat -> py_setitem l (Z.of_nat i) v = Ok (<[i := v]> l).
Proof.
  intros Hi. unfold py_setitem.
  destruct (Z.ltb_spec (Z.of_nat i) 0); [lia|].
  destruct (Z.ltb_spec (Z.of_nat i) 0); [lia|].
  destruct (Z.ltb_spec (Z.of_nat i) (Z.of_nat (length l))); [|lia].
  by rewrite Nat2Z.id.
Qed.

Lemma py_setitem_ge {A} (l : list A) (i : Z) (v : A) :
  Z.of_nat (length l) <= i -> py_setitem l i v = Raise IndexError.
Proof.
  intros Hi. unfold py_setitem.
  destruct (Z.ltb_spec i 0); [lia|].
  destruct (Z.ltb_spec i 0); [lia|].
  destruct (Z.ltb_spec i (Z.of_nat (length l))); [lia|done].
Qed.

Lemma py_setitem_length {A} (l l' : list A) (i : Z) (v : A) :
  py_setitem l i v = Ok l' -> length l' = length l.
Proof.
  unfold py_setitem. intros H.
  repeat case_match; simplify_eq; by rewrite length_insert.
Qed.

Lemma omap_filter {A B} (P : A -> Prop) `{forall x, Decision (P x)} (f : A -> option B) (l : list A) :
  omap f (filter P l) = omap (fun x => if decide (P x) then f x else None) l.
Proof.
  induction l as [|x l IH]; [done|]. rewrite filter_cons.
  change (x :: l) with ([x] ++ l). rewrite omap_app, <- IH. cbn [omap list_omap].
  destruct (decide (P x)); [|done].
  change (x :: filter P l) with ([x] ++ filter P l). by rewrite omap_app.
Qed.

#[export] Hint Resolve py_setitem_length : dhon.
#[export] Hint Rewrite @py_bind_ret_l @py_getitem_nat : dhon_rw.

(** [simp_py] unfolds the monad's plumbing on a concrete program. *)
Ltac simp_py :=
  repeat (unfold py_bind, py_ret, py_get, py_put, py_modify, py_raise, py_lift in *; simpl in *).

(** [range_lia] closes the interval goals of the slider ranges. *)
Ltac range_lia := repeat match goal with H : _ /\ _ |- _ => destruct H end; lia.
