(* ===== verification/QtModel.v ===== *)
(** * The Qt and Tk behaviour dhonvtool depends on

    [QColor] with [setAlpha] (which clamps to 0..255), pens and brushes,
    a [QPainter] that records the primitives it is asked to draw together
    with the pen and brush in force, [QSlider] (range clamping, and a
    [valueChanged] signal only when the value changes) and [QCheckBox]
    ([toggled] only on a change).  These are library semantics, written
    from Qt's documented behaviour, that the program's handlers and its
    [paintEvent] are composed of. *)

From Stdlib Require Import ZArith Lia.
From stdpp Require Import base list decidable.
From S2P Require Import Prelude.

Open Scope Z_scope.

(** ** Colours *)

(** A [QColor]: invalid (what [QColorDialog.getColor] returns on cancel)
    or an RGB colour with an alpha channel, each channel 0..255. *)
Inductive QColor : Type :=
| QInvalid
| QRgba (r g b a : Z).

#[export] Instance QColor_eq_dec : EqDecision QColor.
Proof. solve_decision. Defined.

(** [QColor(r, g, b)]: alpha defaults to 255. *)
Definition QColor_rgb (r g b : Z) : QColor := QRgba r g b 255.

Definition isValid (c : QColor) : bool :=
  match c with QInvalid => false | QRgba _ _ _ _ => true end.

(** Qt's range check: an out-of-range channel is clamped (with a warning). *)
Definition clamp8 (z : Z) : Z := Z.max 0 (Z.min z 255).

(** [QColor::alpha()]; an invalid colour reports 255. *)
Definition alpha (c : QColor) : Z :=
  match c with QInvalid => 255 | QRgba _ _ _ a => a end.

(** [QColor::setAlpha(a)], an in-place update of the colour object. *)
Definition setAlpha (c : QColor) (a : Z) : QColor :=
  match c with
  | QInvalid => QInvalid
  | QRgba r g b _ => QRgba r g b (clamp8 a)
  end.

(** The channels of a [QColor] object are always in 0..255. *)
Definition channels_ok (c : QColor) : Prop :=
  match c with
  | QInvalid => True
  | QRgba r g b a => 0 <= r <= 255 /\ 0 <= g <= 255 /\ 0 <= b <= 255 /\ 0 <= a <= 255
  end.

(** The colour without its alpha channel. *)
Definition rgb_of (c : QColor) : option (Z * Z * Z) :=
  match c with QInvalid => None | QRgba r g b _ => Some (r, g, b) end.

(** ** Pens, brushes and a recording painter *)

Inductive QPen : Type :=
| NoPen
| SolidPen (c : QColor) (width : Z).

#[export] Instance QPen_eq_dec : EqDecision QPen.
Proof. solve_decision. Defined.

(** [QPen(color)] has width 1; [pen.setWidth(w)]. *)
Definition QPen_of (c : QColor) : QPen := SolidPen c 1.
Definition pen_setWidth (p : QPen) (w : Z) : QPen :=
  match p with NoPen => NoPen | SolidPen c _ => SolidPen c w end.

Inductive QBrush : Type :=
| NoBrush
| SolidBrush (c : QColor).

#[export] Instance QBrush_eq_dec : EqDecision QBrush.
Proof. solve_decision. Defined.

(** A primitive as the painter receives it, with the pen and brush in
    force when it was drawn. *)
Inductive DrawCmd : Type :=
| DrawRect (p : QPen) (b : QBrush) (x y w h : Z)
| DrawLine (p : QPen) (x1 y1 x2 y2 : Z)
| DrawEllipse (p : QPen) (b : QBrush) (x y w h : Z).

#[export] Instance DrawCmd_eq_dec : EqDecision DrawCmd.
Proof. solve_decision. Defined.

Record QPainter : Type := mkPainter {
  cur_pen : QPen;
  cur_brush : QBrush;
  drawn : list DrawCmd
}.

(** A fresh [QPainter(widget)]: black pen of width 1, no brush. *)
Definition QPainter_new : QPainter :=
  mkPainter (QPen_of (QColor_rgb 0 0 0)) NoBrush [].

Definition setPen (p : QPen) (pt : QPainter) : QPainter :=
  mkPainter p (cur_brush pt) (drawn pt).
Definition setBrush (b : QBrush) (pt : QPainter) : QPainter :=
  mkPainter (cur_pen pt) b (drawn pt).
Definition emit (c : DrawCmd) (pt : QPainter) : QPainter :=
  mkPainter (cur_pen pt) (cur_brush pt) (drawn pt ++ [c]).
Definition drawRect (x y w h : Z) (pt : QPainter) : QPainter :=
  emit (DrawRect (cur_pen pt) (cur_brush pt) x y w h) pt.
Definition drawLine (x1 y1 x2 y2 : Z) (pt : QPainter) : QPainter :=
  emit (DrawLine (cur_pen pt) x1 y1 x2 y2) pt.
Definition drawEllipse (x y w h : Z) (pt : QPainter) : QPainter :=
  emit (DrawEllipse (cur_pen pt) (cur_brush pt) x y w h) pt.

(** What Qt's types require of the values a painter receives: a
    colour is a valid [QColor] with 8-bit channels, a pen width is not
    negative ([setWidth] of a negative width is undefined; 0 is the
    one-pixel cosmetic pen), and an ellipse to be seen has a positive
    size. *)
Definition color_ok (c : QColor) : Prop := isValid c = true /\ channels_ok c.

Definition pen_ok (p : QPen) : Prop :=
  match p with NoPen => True | SolidPen c w => color_ok c /\ 0 <= w end.

Definition brush_ok (b : QBrush) : Prop :=
  match b with NoBrush => True | SolidBrush c => color_ok c end.

Definition drawcmd_ok (cmd : DrawCmd) : Prop :=
  match cmd with
  | DrawRect p b _ _ _ _ => pen_ok p /\ brush_ok b
  | DrawLine p _ _ _ _ => pen_ok p
  | DrawEllipse p b _ _ w h => pen_ok p /\ brush_ok b /\ 0 < w /\ 0 < h
  end.

(** ** Sliders and check boxes *)

Record QSlider : Type := mkSlider {
  sl_min : Z;
  sl_max : Z;
  sl_value : Z
}.

(** [QSlider(orientation, parent)]: range 0..99, value 0. *)
Definition QSlider_new : QSlider := mkSlider 0 99 0.

Definition bound (lo hi v : Z) : Z := Z.max lo (Z.min v hi).

(** [setValue(v)]: the value is bounded to the range; [valueChanged] is
    emitted, with the new value, only if the value changed. *)
Definition slider_setValue (s : QSlider) (v : Z) : QSlider * option Z :=
  let v' := bound (sl_min s) (sl_max s) v in
  if Z.eqb v' (sl_value s) then (s, None)
  else (mkSlider (sl_min s) (sl_max s) v', Some v').

(** [setRange(lo, hi)]: the current value is moved into the range. *)
Definition slider_setRange (s : QSlider) (lo hi : Z) : QSlider * option Z :=
  let v' := bound lo hi (sl_value s) in
  if Z.eqb v' (sl_value s) then (mkSlider lo hi v', None)
  else (mkSlider lo hi v', Some v').

(** A slider built as in [open_aim_settings]: constructed, given its
    range, set to the current global; the signal is connected only
    afterwards, so these emissions reach no handler. *)
Definition slider_init (lo hi v : Z) : QSlider :=
  fst (slider_setValue (fst (slider_setRange QSlider_new lo hi)) v).

(** A check box: a click flips it and emits [toggled] with the new state. *)
Definition checkbox_click (checked : bool) : bool * bool :=
  (negb checked, negb checked).

(** ** Lemmas *)

Lemma clamp8_range z : 0 <= clamp8 z <= 255.
Proof. unfold clamp8. lia. Qed.

Lemma clamp8_id z : 0 <= z <= 255 -> clamp8 z = z.
Proof. unfold clamp8. lia. Qed.

Lemma alpha_setAlpha c a : isValid c = true -> alpha (setAlpha c a) = clamp8 a.
Proof. by destruct c. Qed.

Lemma rgb_of_setAlpha c a : rgb_of (setAlpha c a) = rgb_of c.
Proof. by destruct c. Qed.

Lemma isValid_setAlpha c a : isValid (setAlpha c a) = isValid c.
Proof. by destruct c. Qed.

Lemma channels_ok_setAlpha c a : channels_ok c -> channels_ok (setAlpha c a).
Proof. destruct c; simpl; [done|]. pose proof (clamp8_range a). lia. Qed.

Lemma alpha_range c : channels_ok c -> 0 <= alpha c <= 255.
Proof. destruct c; simpl; lia. Qed.

Lemma bound_range lo hi v : lo <= hi -> lo <= bound lo hi v <= hi.
Proof. unfold bound. lia. Qed.

Lemma bound_id lo hi v : lo <= v <= hi -> bound lo hi v = v.
Proof. unfold bound. lia. Qed.

(** Every value a slider emits lies in its range. *)
Lemma slider_setValue_emits_in_range s v v' s' :
  sl_min s <= sl_max s ->
  slider_setValue s v = (s', Some v') -> sl_min s <= v' <= sl_max s.
Proof.
  unfold slider_setValue. intros Hr H.
  case_match; simplify_eq. by apply bound_range.
Qed.

(** [setValue] as one equation: the value becomes the bounded one and
    is emitted exactly when it differs from the old value. *)
Lemma slider_setValue_eq s v :
  slider_setValue s v =
    (mkSlider (sl_min s) (sl_max s) (bound (sl_min s) (sl_max s) v),
     if Z.eqb (bound (sl_min s) (sl_max s) v) (sl_value s) then None
     else Some (bound (sl_min s) (sl_max s) v)).
Proof.
  destruct s as [lo hi cur]. unfold slider_setValue; simpl.
  by destruct (Z.eqb_spec (bound lo hi v) cur) as [->|].
Qed.

Lemma slider_setValue_range s v s' o :
  slider_setValue s v = (s', o) -> sl_min s' = sl_min s /\ sl_max s' = sl_max s.
Proof. unfold slider_setValue. intros H. case_match; by simplify_eq. Qed.

Lemma slider_init_value lo hi v :
  sl_value (slider_init lo hi v) = bound lo hi v.
Proof.
  unfold slider_init, slider_setRange, slider_setValue; simpl.
  destruct (Z.eqb_spec (bound lo hi 0) 0); simpl;
  destruct (Z.eqb_spec (bound lo hi v) (bound lo hi 0)); simpl; congruence.
Qed.

Lemma slider_init_range lo hi v :
  sl_min (slider_init lo hi v) = lo /\ sl_max (slider_init lo hi v) = hi.
Proof.
  unfold slider_init, slider_setRange, slider_setValue; simpl.
  repeat (case_match; simpl); split; congruence.
Qed.

Lemma drawn_emit c pt : drawn (emit c pt) = drawn pt ++ [c].
Proof. reflexivity. Qed.

#[export] Hint Resolve clamp8_range channels_ok_setAlpha alpha_range bound_range slider_setValue_emits_in_range : dhon.
#[export] Hint Rewrite alpha_setAlpha rgb_of_setAlpha isValid_setAlpha drawn_emit : dhon_rw.
