(* ===== verification/Settings.v ===== *)
(** * The settings store and its handlers (src/dhonvtool.py, lines 10-20, 217-270)

    The module globals become the record [Globals]; each handler
    [change_*] and [toggle_point_visibility] becomes a [PyM] program over
    the globals and the overlay widget [red_border].  The handlers only
    need one thing of the widget, [red_border.update()]: it is the
    interface [Repaintable], which [Overlay.v] implements.  The invariant
    [wf_globals] collects the ranges the sliders enforce and the length of
    the visibility list. *)

From Stdlib Require Import ZArith Lia.
From stdpp Require Import base list decidable.
From S2P Require Import Prelude QtModel.

Open Scope Z_scope.
Local Open Scope py_scope.

(** A window rectangle [(left, top, right, bottom)] as [GetWindowRect]
    returns it. *)
Record Rect : Type := mkRect {
  left : Z;
  top : Z;
  right : Z;
  bottom : Z
}.

#[export] Instance Rect_eq_dec : EqDecision Rect.
Proof. solve_decision. Defined.

(** The module globals of lines 10-20 ([overlay], the picker's Tk root,
    lives in the picker's state, see [Picker.v]). *)
Record Globals : Type := mkGlobals {
  selected_rect : option Rect;
  aim_color : QColor;
  point_color : QColor;
  point_opacity : Z;
  aim_opacity : Z;
  point_visibility : list bool;
  point_size : Z;
  aim_length : Z;
  aim_thickness : Z
}.

(** Their values at import time. *)
Definition init_globals : Globals := {|
  selected_rect := None;
  aim_color := QRgba 0 0 255 255;
  point_color := QRgba 0 255 0 255;
  point_opacity := 255;
  aim_opacity := 255;
  point_visibility := py_repeat true 12;
  point_size := 5;
  aim_length := 20;
  aim_thickness := 2
|}.

(** ** Field updates (a Python [global x; x = v]) *)

Definition set_selected_rect (r : option Rect) (g : Globals) : Globals :=
  mkGlobals r (aim_color g) (point_color g) (point_opacity g) (aim_opacity g)
    (point_visibility g) (point_size g) (aim_length g) (aim_thickness g).
Definition set_aim_color (c : QColor) (g : Globals) : Globals :=
  mkGlobals (selected_rect g) c (point_color g) (point_opacity g) (aim_opacity g)
    (point_visibility g) (point_size g) (aim_length g) (aim_thickness g).
Definition set_point_color (c : QColor) (g : Globals) : Globals :=
  mkGlobals (selected_rect g) (aim_color g) c (point_opacity g) (aim_opacity g)
    (point_visibility g) (point_size g) (aim_length g) (aim_thickness g).
Definition set_point_opacity (v : Z) (g : Globals) : Globals :=
  mkGlobals (selected_rect g) (aim_color g) (point_color g) v (aim_opacity g)
    (point_visibility g) (point_size g) (aim_length g) (aim_thickness g).
Definition set_point_visibility (l : list bool) (g : Globals) : Globals :=
  mkGlobals (selected_rect g) (aim_color g) (point_color g) (point_opacity g)
    (aim_opacity g) l (point_size g) (aim_length g) (aim_thickness g).
Definition set_point_size (v : Z) (g : Globals) : Globals :=
  mkGlobals (selected_rect g) (aim_color g) (point_color g) (point_opacity g)
    (aim_opacity g) (point_visibility g) v (aim_length g) (aim_thickness g).
Definition set_aim_length (v : Z) (g : Globals) : Globals :=
  mkGlobals (selected_rect g) (aim_color g) (point_color g) (point_opacity g)
    (aim_opacity g) (point_visibility g) (point_size g) v (aim_thickness g).
Definition set_aim_thickness (v : Z) (g : Globals) : Globals :=
  mkGlobals (selected_rect g) (aim_color g) (point_color g) (point_opacity g)
    (aim_opacity g) (point_visibility g) (point_size g) (aim_length g) v.

(** ** The widget interface the handlers use *)

(** [red_border.update()]: schedule a repaint of the overlay. *)
Class Repaintable (W : Type) := {
  update : W -> W
}.

Section Handlers.
Context {W : Type} `{Repaintable W}.

(** The handlers' state: the globals and the overlay widget. *)
Definition HState : Type := Globals * W.

Definition write_global (f : Globals -> Globals) : PyM HState unit :=
  py_modify (fun '(g, w) => (f g, w)).

Definition red_border_update : PyM HState unit :=
  py_modify (fun '(g, w) => (g, update w)).

Definition read_globals : PyM HState Globals :=
  py_bind py_get (fun s => py_ret (fst s)).

(** [change_aim_length(value, red_border)], lines 218-221. *)
Definition change_aim_length (value : Z) : PyM HState unit :=
  write_global (set_aim_length value) ;; red_border_update.

(** [change_aim_thickness], lines 224-227. *)
Definition change_aim_thickness (value : Z) : PyM HState unit :=
  write_global (set_aim_thickness value) ;; red_border_update.

(** [change_point_size], lines 230-233. *)
Definition change_point_size (value : Z) : PyM HState unit :=
  write_global (set_point_size value) ;; red_border_update.

(** [change_aim_color(settings, red_border)], lines 237-242: [chosen] is
    what [QColorDialog.getColor] returned (invalid on cancel). *)
Definition change_aim_color (chosen : QColor) : PyM HState unit :=
  if isValid chosen
  then write_global (set_aim_color chosen) ;; red_border_update
  else py_ret tt.

(** [change_point_color], lines 245-250. *)
Definition change_point_color (chosen : QColor) : PyM HState unit :=
  if isValid chosen
  then write_global (set_point_color chosen) ;; red_border_update
  else py_ret tt.

(** [change_aim_opacity], lines 254-257: [global aim_opacity] is declared
    but the body writes the alpha of the aim colour object in place. *)
Definition change_aim_opacity (value : Z) : PyM HState unit :=
  g <- read_globals ;;
  write_global (set_aim_color (setAlpha (aim_color g) value)) ;;
  red_border_update.

(** [change_point_opacity], lines 260-263. *)
Definition change_point_opacity (value : Z) : PyM HState unit :=
  write_global (set_point_opacity value) ;; red_border_update.

(** [toggle_point_visibility(index, state, red_border)], lines 267-270:
    the list is updated in place; an index out of range raises before
    the repaint request. *)
Definition toggle_point_visibility (index : Z) (state : bool) : PyM HState unit :=
  g <- read_globals ;;
  l <- py_lift (py_setitem (point_visibility g) index state) ;;
  write_global (set_point_visibility l) ;;
  red_border_update.
End Handlers.

(** ** The invariant *)

(** The ranges of the sliders of [open_aim_settings] and
    [open_point_settings], valid colours, and twelve visibility flags. *)
Definition wf_globals (g : Globals) : Prop :=
  length (point_visibility g) = 12%nat /\
  5 <= aim_length g <= 100 /\
  1 <= aim_thickness g <= 10 /\
  1 <= point_size g <= 20 /\
  0 <= point_opacity g <= 255 /\
  0 <= aim_opacity g <= 255 /\
  isValid (aim_color g) = true /\ channels_ok (aim_color g) /\
  isValid (point_color g) = true /\ channels_ok (point_color g).

(** The settings a handler may receive: each slider value in its range, a
    check box index in [range(12)]. *)
Inductive SettingsEvent : Type :=
| EvAimLength (v : Z)
| EvAimThickness (v : Z)
| EvAimOpacity (v : Z)
| EvPointSize (v : Z)
| EvPointOpacity (v : Z)
| EvAimColor (c : QColor)
| EvPointColor (c : QColor)
| EvToggle (i : Z) (b : bool).

(** The handler each control is connected to (lines 104-210). *)
Definition dispatch {W} `{Repaintable W} (ev : SettingsEvent) : PyM HState unit :=
  match ev with
  | EvAimLength v => change_aim_length v
  | EvAimThickness v => change_aim_thickness v
  | EvAimOpacity v => change_aim_opacity v
  | EvPointSize v => change_point_size v
  | EvPointOpacity v => change_point_opacity v
  | EvAimColor c => change_aim_color c
  | EvPointColor c => change_point_color c
  | EvToggle i b => toggle_point_visibility i b
  end.

(** The values the dialogs can deliver: the slider ranges of lines 137,
    145, 153, 179, 188 and the indices of the loop of line 207. *)
Definition event_in_range (ev : SettingsEvent) : Prop :=
  match ev with
  | EvAimLength v => 5 <= v <= 100
  | EvAimThickness v => 1 <= v <= 10
  | EvAimOpacity v => 0 <= v <= 255
  | EvPointSize v => 1 <= v <= 20
  | EvPointOpacity v => 0 <= v <= 255
  | EvAimColor c | EvPointColor c => channels_ok c
  | EvToggle i _ => 0 <= i < 12
  end.

(** ** Lemmas *)

Lemma py_setitem_in_range {A} (l : list A) (i : Z) (v : A) :
  0 <= i < Z.of_nat (length l) -> py_setitem l i v = Ok (<[Z.to_nat i := v]> l).
Proof.
  intros Hi. rewrite <- (Z2Nat.id i) at 1 by lia.
  apply py_setitem_nat. lia.
Qed.

(** [solve_wf] proves [wf_globals] of an updated record from the
    hypothesis [wf_globals] of the old one. *)
Ltac solve_wf :=
  match goal with
  | H : wf_globals _ |- wf_globals _ =>
      destruct H as (? & ? & ? & ? & ? & ? & ? & ? & ? & ?);
      repeat split; simpl; rewrite ?isValid_setAlpha; eauto with dhon; try lia
  end.

Lemma init_globals_wf : wf_globals init_globals.
Proof. repeat split; simpl; lia. Qed.

#[export] Hint Resolve init_globals_wf : dhon.

Section HandlerLemmas.
Context {W : Type} `{Repaintable W}.

(** A handler that writes [f] and requests a repaint. *)
Lemma write_update_run (f : Globals -> Globals) g (w : W) :
  (write_global f ;; red_border_update) (g, w) = (Ok tt, (f g, update w)).
Proof. reflexivity. Qed.

Lemma toggle_run (i : Z) (b : bool) g (w : W) :
  0 <= i < Z.of_nat (length (point_visibility g)) ->
  toggle_point_visibility i b (g, w) =
    (Ok tt, (set_point_visibility (<[Z.to_nat i := b]> (point_visibility g)) g, update w)).
Proof.
  intros Hi. unfold toggle_point_visibility; simp_py.
  by rewrite py_setitem_in_range.
Qed.

(** C24: [change_aim_opacity] writes the aim colour's alpha (clamped to 0..255
    by Qt) and leaves the global [aim_opacity], its declared target,
    unchanged; it requests a repaint. *)
Theorem change_aim_opacity_keeps_global (v : Z) g (w : W) :
  exists g', change_aim_opacity v (g, w) = (Ok tt, (g', update w)) /\
    aim_opacity g' = aim_opacity g /\
    aim_color g' = setAlpha (aim_color g) v /\
    (isValid (aim_color g) = true -> alpha (aim_color g') = clamp8 v).
Proof.
  eexists; split; [reflexivity|]. simpl.
  split; [done|]. split; [done|]. apply alpha_setAlpha.
Qed.

(** Cancelling a colour dialog changes nothing and requests no repaint;
    a valid choice replaces the whole colour, alpha included. *)
Theorem change_aim_color_spec (c : QColor) g (w : W) :
  change_aim_color c (g, w) =
    if isValid c then (Ok tt, (set_aim_color c g, update w)) else (Ok tt, (g, w)).
Proof. unfold change_aim_color. by destruct (isValid c). Qed.

(** C35: The opacity chosen with the aim-opacity slider is lost when a colour
    is then picked: the new alpha is the picked colour's. *)
Theorem aim_opacity_lost_on_color_pick (v : Z) (c : QColor) g (w : W) :
  isValid c = true ->
  exists w', (change_aim_opacity v ;; change_aim_color c) (g, w) =
    (Ok tt, (set_aim_color c (set_aim_color (setAlpha (aim_color g) v) g), w')) /\
    alpha (aim_color (set_aim_color c (set_aim_color (setAlpha (aim_color g) v) g))) = alpha c.
Proof.
  intros Hc. unfold change_aim_color. simp_py. rewrite Hc. simpl.
  eexists; split; reflexivity.
Qed.

(** C36: Toggling point [i] in range sets flag [i] to the new state and
    leaves the other flags; an index outside [range(len)] raises
    [IndexError] and requests no repaint. *)
Theorem toggle_point_visibility_spec (i : Z) (b : bool) g (w : W) :
  (0 <= i < Z.of_nat (length (point_visibility g)) ->
   exists g', toggle_point_visibility i b (g, w) = (Ok tt, (g', update w)) /\
     point_visibility g' !! Z.to_nat i = Some b /\
     (forall j, j <> Z.to_nat i -> point_visibility g' !! j = point_visibility g !! j) /\
     length (point_visibility g') = length (point_visibility g)) /\
  (Z.of_nat (length (point_visibility g)) <= i ->
   toggle_point_visibility i b (g, w) = (Raise IndexError, (g, w))).
Proof.
  split.
  - intros Hi. rewrite toggle_run by done. eexists; split; [reflexivity|]. simpl.
    split; [apply list_lookup_insert_eq; lia|].
    split; [intros j Hj; by apply list_lookup_insert_ne|].
    apply length_insert.
  - intros Hi. unfold toggle_point_visibility; simp_py. by rewrite py_setitem_ge.
Qed.

(** No handler touches [selected_rect] or [aim_opacity]. *)
Lemma dispatch_untouched (ev : SettingsEvent) g (w : W) r g' w' :
  dispatch ev (g, w) = (r, (g', w')) ->
  selected_rect g' = selected_rect g /\ aim_opacity g' = aim_opacity g.
Proof.
  destruct ev; unfold dispatch, change_aim_length, change_aim_thickness, change_point_size,
    change_aim_color, change_point_color, change_aim_opacity, change_point_opacity,
    toggle_point_visibility, red_border_update, write_global, read_globals;
    simp_py; intros Hd; repeat case_match; by simplify_eq.
Qed.

Lemma dispatch_selected_rect (ev : SettingsEvent) g (w : W) r g' w' :
  dispatch ev (g, w) = (r, (g', w')) -> selected_rect g' = selected_rect g.
Proof. intros Hd. apply (dispatch_untouched ev g w r g' w' Hd). Qed.

Lemma dispatch_wf (ev : SettingsEvent) g (w : W) :
  wf_globals g -> event_in_range ev ->
  exists g', wf_globals g' /\
    (dispatch ev (g, w) = (Ok tt, (g', update w)) \/
     (dispatch ev (g, w) = (Ok tt, (g, w)) /\ g' = g)).
Proof.
  intros Hwf Hev. destruct ev as [v|v|v|v|v|c|c|i b]; simpl in Hev |- *.
  1-5: eexists; split; [|left; reflexivity]; solve_wf.
  1-2: unfold change_aim_color, change_point_color; destruct (isValid c) eqn:Ec; eauto;
       eexists; split; [|left; reflexivity]; solve_wf.
  pose proof Hwf as (Hl & _). rewrite toggle_run by lia.
  eexists; split; [|left; reflexivity]. solve_wf. by rewrite length_insert.
Qed.

(** C5: every event a dialog can deliver to a well-formed store runs
    without an exception, keeps the store well formed, and either
    requests a repaint or (a cancelled colour dialog) changes nothing. *)
Theorem dispatch_preserves_wf (ev : SettingsEvent) g (w : W) :
  wf_globals g -> event_in_range ev ->
  exists g', wf_globals g' /\
    (dispatch ev (g, w) = (Ok tt, (g', update w)) \/
     (dispatch ev (g, w) = (Ok tt, (g, w)) /\ g' = g)).
Proof. apply dispatch_wf. Qed.
End HandlerLemmas.

(** ** Witnesses *)

(** A widget reduced to its pending-repaint flag. *)
#[local] Instance flag_repaintable : Repaintable bool := {| update _ := true |}.

Lemma dispatch_preserves_wf_witness :
  exists g', wf_globals g' /\
    (dispatch (EvAimLength 50) (init_globals, false) = (Ok tt, (g', update false)) \/
     (dispatch (EvAimLength 50) (init_globals, false) = (Ok tt, (init_globals, false)) /\ g' = init_globals)).
Proof. apply dispatch_preserves_wf; [repeat split; simpl; lia | simpl; lia]. Defined.

Lemma aim_opacity_lost_on_color_pick_witness :
  exists w', (change_aim_opacity 100 ;; change_aim_color (QRgba 255 0 0 255)) (init_globals, false) =
    (Ok tt, (set_aim_color (QRgba 255 0 0 255)
               (set_aim_color (setAlpha (aim_color init_globals) 100) init_globals), w')) /\
    alpha (aim_color (set_aim_color (QRgba 255 0 0 255)
                        (set_aim_color (setAlpha (aim_color init_globals) 100) init_globals))) =
    alpha (QRgba 255 0 0 255).
Proof. apply aim_opacity_lost_on_color_pick. reflexivity. Defined.
