(* ===== verification/TkGeometry.v ===== *)
(** * Tk geometry strings (src/dhonvtool.py, lines 313 and 349)

    The program places Tk windows with f-strings:
    [overlay.geometry(f"{right - left}x{bottom - top}+{left}+{top}")]
    (line 313) and [control_window.geometry(f"200x100+{right + 10}+{top}")]
    (line 349).  Python formats each int with [str()]; Tk parses the
    string back with [ParseGeometry] ([strtoul] for the size after an
    [isdigit] check, [strtol] for the coordinates after a check for a
    digit or a minus sign) and raises [TclError] ("bad geometry
    specifier") on anything else.  This file models both sides and proves
    the round trip: the string of a non-negative size and any position
    parses back to exactly those numbers, and a negative size is a
    [TclError].  Tk's parser is library code, written here from Tk's
    [ParseGeometry]. *)

From Stdlib Require Import ZArith Lia String Ascii Decimal DecimalString DecimalPos DecimalZ.
From S2P Require Import Prelude Settings.

Open Scope Z_scope.
Local Open Scope bool_scope.

(** ** Python: [str(n)] for an int *)

Definition py_str_int (z : Z) : string := NilEmpty.string_of_int (Z.to_int z).

(** The f-string [f"{w}x{h}+{x}+{y}"]. *)
Definition geometry_string (w h x y : Z) : string :=
  (py_str_int w ++ "x" ++ py_str_int h ++ "+" ++ py_str_int x ++ "+" ++ py_str_int y)%string.

(** ** Tk: [ParseGeometry] *)

(** A decimal digit, as the digit constructor it contributes. *)
Definition digit_of (c : ascii) : option (uint -> uint) :=
  match c with
  | "0" => Some D0 | "1" => Some D1 | "2" => Some D2 | "3" => Some D3 | "4" => Some D4
  | "5" => Some D5 | "6" => Some D6 | "7" => Some D7 | "8" => Some D8 | "9" => Some D9
  | _ => None
  end%char.

(** C's [isdigit]. *)
Definition is_digit (c : ascii) : bool := match digit_of c with Some _ => true | None => false end.

(** The longest prefix of digits, as a decimal number, and the rest. *)
Fixpoint span_digits (s : string) : uint * string :=
  match s with
  | String c s' =>
      match digit_of c with
      | Some d => let '(u, r) := span_digits s' in (d u, r)
      | None => (Nil, s)
      end
  | EmptyString => (Nil, EmptyString)
  end.

(** [strtoul(p, &end, 10)] where Tk has checked that [p] starts with a
    digit. *)
Definition strtoul (s : string) : Z * string :=
  let '(u, r) := span_digits s in (Z.of_uint u, r).

(** [strtol(p, &end, 10)]: an optional minus sign, then digits; with no
    digit nothing is converted and [end] is [p]. *)
Definition strtol (s : string) : Z * string :=
  match s with
  | String "-"%char s' =>
      match span_digits s' with
      | (Nil, _) => (0, s)
      | (u, r) => (- Z.of_uint u, r)
      end
  | _ =>
      match span_digits s with
      | (Nil, _) => (0, s)
      | (u, r) => (Z.of_uint u, r)
      end
  end.

Definition starts_digit (s : string) : bool :=
  match s with String c _ => is_digit c | EmptyString => false end.

Definition starts_digit_or_minus (s : string) : bool :=
  match s with String c _ => is_digit c || Ascii.eqb c "-" | EmptyString => false end.

Definition is_sign (c : ascii) : bool := Ascii.eqb c "+" || Ascii.eqb c "-".

(** What [ParseGeometry] accepts: a size [WxH], a position [±X±Y]
    (the flag is [true] for a minus: measured from the far screen edge),
    or both. *)
Record TkGeometry : Type := mkTkGeometry {
  tg_size : option (Z * Z);
  tg_pos : option (bool * Z * bool * Z)
}.

(** The position part (label [x:] of [ParseGeometry]). *)
Definition parse_position (p : string) : option (option (bool * Z * bool * Z)) :=
  match p with
  | EmptyString => Some None
  | String sx p1 =>
      if negb (is_sign sx) || negb (starts_digit_or_minus p1) then None
      else
        let '(x, p2) := strtol p1 in
        match p2 with
        | String sy p3 =>
            if negb (is_sign sy) || negb (starts_digit_or_minus p3) then None
            else
              let '(y, p4) := strtol p3 in
              match p4 with
              | EmptyString => Some (Some (Ascii.eqb sx "-", x, Ascii.eqb sy "-", y))
              | String _ _ => None
              end
        | EmptyString => None
        end
  end.

(** An optional leading ['='] is skipped. *)
Definition skip_equal (s : string) : string :=
  match s with String "="%char s' => s' | _ => s end.

(** [ParseGeometry]: [None] is the [TclError] "bad geometry specifier". *)
Definition tk_parse_geometry (s : string) : option TkGeometry :=
  let p := skip_equal s in
  if starts_digit p then
    let '(w, p1) := strtoul p in
    match p1 with
    | String "x"%char p2 =>
        if starts_digit p2 then
          let '(h, p3) := strtoul p2 in
          option_map (mkTkGeometry (Some (w, h))) (parse_position p3)
        else None
    | _ => None
    end
  else option_map (mkTkGeometry None) (parse_position p).

(** [window.geometry(s)]: a bad specifier raises [TclError]; a size with
    a position from the top-left corner gives the window's rectangle.
    The other forms (no size, or a coordinate from the far screen edge)
    depend on the screen and the window's requested size and are not
    modelled ([Ok None]); the program's strings never have them. *)
Definition tk_geometry_rect (s : string) : res (option Rect) :=
  match tk_parse_geometry s with
  | None => Raise TclError
  | Some (mkTkGeometry (Some (w, h)) (Some (false, x, false, y))) =>
      Ok (Some (mkRect x y (x + w) (y + h)))
  | Some _ => Ok None
  end.

(** ** The digits of an int *)

(** The decimal digits [str()] writes for [|z|]. *)
Definition digits_of (z : Z) : uint :=
  match Z.to_int z with Pos u | Neg u => u end.

(** ** Lemmas *)

Lemma digits_of_nonnil z : digits_of z <> Nil.
Proof. destruct z; [discriminate | apply Unsigned.to_uint_nonnil..]. Qed.

Lemma py_str_int_nonneg z :
  0 <= z -> py_str_int z = NilEmpty.string_of_uint (digits_of z) /\ Z.of_uint (digits_of z) = z.
Proof.
  intros Hz. pose proof (DecimalZ.of_to z) as E.
  unfold py_str_int, digits_of. destruct z; [split; [reflexivity|exact E]..|lia].
Qed.

Lemma py_str_int_neg z :
  z < 0 -> py_str_int z = String "-" (NilEmpty.string_of_uint (digits_of z)) /\
           - Z.of_uint (digits_of z) = z.
Proof.
  intros Hz. pose proof (DecimalZ.of_to z) as E.
  unfold py_str_int, digits_of. destruct z; [lia|lia|split; [reflexivity|exact E]].
Qed.

(** [strtoul]'s scan stops exactly after the digits [str()] wrote. *)
Lemma span_digits_app (u : uint) (r : string) :
  starts_digit r = false -> span_digits (NilEmpty.string_of_uint u ++ r) = (u, r).
Proof.
  intros Hr. induction u; simpl; rewrite ?IHu; try reflexivity.
  destruct r as [|c r]; [reflexivity|]. simpl in *. unfold is_digit in Hr.
  destruct (digit_of c); [discriminate|reflexivity].
Qed.

Lemma starts_digit_uint (u : uint) (r : string) :
  u <> Nil -> starts_digit (NilEmpty.string_of_uint u ++ r) = true.
Proof. destruct u; easy. Qed.

(** The leading ['='] test of [ParseGeometry] on a string of digits. *)
Lemma skip_equal_uint (u : uint) (r : string) :
  u <> Nil -> skip_equal (NilEmpty.string_of_uint u ++ r) = (NilEmpty.string_of_uint u ++ r)%string.
Proof. destruct u; easy. Qed.

Lemma strtoul_uint (u : uint) (r : string) :
  starts_digit r = false -> strtoul (NilEmpty.string_of_uint u ++ r) = (Z.of_uint u, r).
Proof. intros Hr. unfold strtoul. rewrite span_digits_app by exact Hr. reflexivity. Qed.

(** [strtol] reads back what [str()] wrote, sign included. *)
Lemma strtol_py_str_int (z : Z) (r : string) :
  starts_digit r = false -> strtol (py_str_int z ++ r) = (z, r).
Proof.
  intros Hr. pose proof (digits_of_nonnil z) as Hn.
  destruct (Z.ltb_spec z 0) as [Hz|Hz].
  - destruct (py_str_int_neg z Hz) as [-> Hv]. unfold strtol. simpl.
    rewrite span_digits_app by exact Hr.
    destruct (digits_of z); [now destruct Hn|..]; subst z; reflexivity.
  - destruct (py_str_int_nonneg z Hz) as [-> Hv].
    destruct (digits_of z); [now destruct Hn|..]; unfold strtol; simpl;
      rewrite span_digits_app by exact Hr; subst z; reflexivity.
Qed.

Lemma starts_digit_or_minus_py_str_int (z : Z) (r : string) :
  starts_digit_or_minus (py_str_int z ++ r) = true.
Proof.
  pose proof (digits_of_nonnil z) as Hn.
  destruct (Z.ltb_spec z 0) as [Hz|Hz].
  - destruct (py_str_int_neg z Hz) as [-> _]. reflexivity.
  - destruct (py_str_int_nonneg z Hz) as [-> _]. destruct (digits_of z); easy.
Qed.

Lemma append_empty_r (s : string) : (s ++ "")%string = s.
Proof. induction s as [|c s IH]; simpl; [reflexivity|rewrite IH; reflexivity]. Qed.

(** The string of a non-negative size parses back to its numbers. *)
Lemma parse_geometry_ok (w h x y : Z) :
  0 <= w -> 0 <= h ->
  tk_parse_geometry (geometry_string w h x y) =
    Some (mkTkGeometry (Some (w, h)) (Some (false, x, false, y))).
Proof.
  intros Hw Hh. pose proof (digits_of_nonnil w) as Nw. pose proof (digits_of_nonnil h) as Nh.
  destruct (py_str_int_nonneg w Hw) as [Ew Vw]. destruct (py_str_int_nonneg h Hh) as [Eh Vh].
  unfold tk_parse_geometry, geometry_string. rewrite Ew, Eh, <- (append_empty_r (py_str_int y)).
  rewrite skip_equal_uint, starts_digit_uint, strtoul_uint by (exact Nw || reflexivity).
  cbn -[py_str_int NilEmpty.string_of_uint].
  rewrite starts_digit_uint, strtoul_uint by (exact Nh || reflexivity).
  cbn -[py_str_int NilEmpty.string_of_uint].
  rewrite starts_digit_or_minus_py_str_int, strtol_py_str_int by reflexivity.
  cbn -[py_str_int NilEmpty.string_of_uint].
  rewrite starts_digit_or_minus_py_str_int, strtol_py_str_int by reflexivity.
  rewrite Vw, Vh. reflexivity.
Qed.

Lemma starts_digit_or_minus_uint (u : uint) (r : string) :
  u <> Nil -> starts_digit_or_minus (NilEmpty.string_of_uint u ++ r) = true.
Proof. destruct u; easy. Qed.

Lemma strtol_uint (u : uint) (r : string) :
  u <> Nil -> starts_digit r = false -> strtol (NilEmpty.string_of_uint u ++ r) = (Z.of_uint u, r).
Proof.
  intros Hn Hr. destruct u; [now destruct Hn|..]; unfold strtol; simpl;
    rewrite span_digits_app by exact Hr; reflexivity.
Qed.

(** A negative width: [str()] writes a minus sign where Tk expects a
    digit; Tk then reads the string as a position and fails at ['x']. *)
Lemma parse_geometry_neg_w (w h x y : Z) :
  w < 0 -> tk_parse_geometry (geometry_string w h x y) = None.
Proof.
  intros Hw. pose proof (digits_of_nonnil w) as Nw. destruct (py_str_int_neg w Hw) as [Ew _].
  unfold tk_parse_geometry, geometry_string. rewrite Ew.
  cbn -[py_str_int NilEmpty.string_of_uint].
  rewrite starts_digit_or_minus_uint, strtol_uint by (exact Nw || reflexivity).
  reflexivity.
Qed.

(** A negative height: Tk finds no digit after ['x']. *)
Lemma parse_geometry_neg_h (w h x y : Z) :
  0 <= w -> h < 0 -> tk_parse_geometry (geometry_string w h x y) = None.
Proof.
  intros Hw Hh. pose proof (digits_of_nonnil w) as Nw.
  destruct (py_str_int_nonneg w Hw) as [Ew _]. destruct (py_str_int_neg h Hh) as [Eh _].
  unfold tk_parse_geometry, geometry_string. rewrite Ew, Eh.
  rewrite skip_equal_uint, starts_digit_uint, strtoul_uint by (exact Nw || reflexivity).
  reflexivity.
Qed.

(** [window.geometry(f"{w}x{h}+{x}+{y}")] places the window on
    [(x, y, x + w, y + h)], and raises [TclError] for a negative size. *)
Lemma tk_geometry_rect_string (w h x y : Z) :
  tk_geometry_rect (geometry_string w h x y) =
    if (w <? 0) || (h <? 0) then Raise TclError else Ok (Some (mkRect x y (x + w) (y + h))).
Proof.
  unfold tk_geometry_rect.
  destruct (Z.ltb_spec w 0); [rewrite parse_geometry_neg_w by assumption; reflexivity|].
  destruct (Z.ltb_spec h 0); [rewrite parse_geometry_neg_h by assumption; reflexivity|].
  rewrite parse_geometry_ok by assumption. reflexivity.
Qed.

(** ** Theorems *)

(** C11: the geometry strings of lines 313 and 349 round-trip through
    Python's [str()] and Tk's [ParseGeometry]: a non-negative size with
    any position (negative coordinates included, written ["+-10"]) parses
    back to exactly those numbers with both coordinates measured from the
    top-left corner; a negative width or height is a bad specifier. *)
Theorem geometry_string_roundtrip (w h x y : Z) :
  tk_parse_geometry (geometry_string w h x y) =
    if (w <? 0) || (h <? 0) then None
    else Some (mkTkGeometry (Some (w, h)) (Some (false, x, false, y))).
Proof.
  destruct (Z.ltb_spec w 0); [apply parse_geometry_neg_w; assumption|].
  destruct (Z.ltb_spec h 0); [apply parse_geometry_neg_h; assumption|].
  apply parse_geometry_ok; assumption.
Qed.
