(* ===== verification/Dialogs.v ===== *)
(** * The settings dialogs (src/dhonvtool.py, lines 92-214)

    [open_settings] shows a modal [QDialog] with three buttons, each
    opening a nested modal dialog: [open_aim_settings] (a colour button
    and three sliders), [open_point_settings] (a colour button and two
    sliders) and [open_point_arrangement] (twelve check boxes).  Each
    control is built from the current globals and then connected to its
    handler of [Settings.v]: a slider's [valueChanged] calls the handler
    with the new value, a check box's [toggled] calls
    [toggle_point_visibility] with the index bound by [index=i].

    The open dialogs form a stack (each [exec()] runs inside the
    [clicked] slot of the dialog below it); only the top one gets input.
    A session of the dialogs is the settings store, the overlay widget
    and that stack; [dialog_step] is one user input.  The theorems show
    that every input the dialogs pass to the handlers is a
    [SettingsEvent] in the range [Settings.v] assumes, that the open
    dialog's controls show the current settings (all but the aim-opacity
    slider), and what the aim-opacity slider does. *)

From Stdlib Require Import ZArith Lia.
From stdpp Require Import base list decidable.
From S2P Require Import Prelude QtModel Settings.

Open Scope Z_scope.
Local Open Scope py_scope.

(** ** The dialogs' widgets *)

(** The sliders of [open_aim_settings], lines 134-155. *)
Record AimDialog : Type := mkAimDialog {
  aim_length_slider : QSlider;
  aim_thickness_slider : QSlider;
  aim_opacity_slider : QSlider
}.

(** The sliders of [open_point_settings], lines 176-191. *)
Record PointDialog : Type := mkPointDialog {
  point_size_slider : QSlider;
  point_opacity_slider : QSlider
}.

Inductive Dialog : Type :=
| MainDialog                        (** [open_settings]: three buttons *)
| AimSettings (d : AimDialog)
| PointSettings (d : PointDialog)
| PointArrangement (boxes : list bool). (** the check boxes' states *)

(** [open_aim_settings], lines 121-158: each slider gets its range and
    the current global before its signal is connected. *)
Definition open_aim_settings (g : Globals) : Dialog :=
  AimSettings (mkAimDialog (slider_init 5 100 (aim_length g))
                           (slider_init 1 10 (aim_thickness g))
                           (slider_init 0 255 (aim_opacity g))).

(** [open_point_settings], lines 162-194. *)
Definition open_point_settings (g : Globals) : Dialog :=
  PointSettings (mkPointDialog (slider_init 1 20 (point_size g))
                               (slider_init 0 255 (point_opacity g))).

(** [open_point_arrangement], lines 198-214: the loop over [range(12)]
    adds a check box set to [point_visibility[i]]; the indexing raises
    on a list shorter than twelve. *)
Definition open_point_arrangement (g : Globals) : res Dialog :=
  match py_for (seq 0 12)
          (fun i => b <- py_lift (py_getitem (point_visibility g) (Z.of_nat i)) ;;
                    py_modify (fun boxes => boxes ++ [b])) [] with
  | (Ok _, boxes) => Ok (PointArrangement boxes)
  | (Raise e, _) => Raise e
  end.

(** ** User input *)

Inductive DialogInput : Type :=
| OpenSettings                  (** the control panel's "settings" button *)
| ClickAimButton                (** the buttons of [open_settings] *)
| ClickPointButton
| ClickArrangementButton
| PickAimColor (c : QColor)     (** a colour button; [c] is what
                                    [QColorDialog.getColor] returns *)
| PickPointColor (c : QColor)
| MoveAimLength (v : Z)         (** the user moves a slider towards [v] *)
| MoveAimThickness (v : Z)
| MoveAimOpacity (v : Z)
| MovePointSize (v : Z)
| MovePointOpacity (v : Z)
| ClickCheckbox (i : nat)       (** the check box of index [i] *)
| CloseDialog.                  (** the top dialog is closed *)

Section Session.
Context {W : Type} `{Repaintable W}.

(** A [valueChanged] emission reaching its handler, or no emission. *)
Definition emit_to (o : option Z) (handler : Z -> PyM (@HState W) unit) : PyM (@HState W) unit :=
  match o with Some v => handler v | None => py_ret tt end.

(** One input to the dialog on top of the stack; [None] when the input
    is not one of that dialog's controls.  The stack only changes by a
    dialog opening or closing; an exception in a slot is returned. *)
Definition dialog_step (inp : DialogInput) (st : list Dialog) (hs : @HState W)
    : option (res unit * @HState W * list Dialog) :=
  match inp, st with
  | OpenSettings, [] => Some (Ok tt, hs, [MainDialog])
  | ClickAimButton, MainDialog :: _ => Some (Ok tt, hs, open_aim_settings (fst hs) :: st)
  | ClickPointButton, MainDialog :: _ => Some (Ok tt, hs, open_point_settings (fst hs) :: st)
  | ClickArrangementButton, MainDialog :: _ =>
      match open_point_arrangement (fst hs) with
      | Ok d => Some (Ok tt, hs, d :: st)
      | Raise e => Some (Raise e, hs, st)
      end
  | PickAimColor c, AimSettings _ :: _ =>
      let '(r, hs') := change_aim_color c hs in Some (r, hs', st)
  | PickPointColor c, PointSettings _ :: _ =>
      let '(r, hs') := change_point_color c hs in Some (r, hs', st)
  | MoveAimLength v, AimSettings d :: st' =>
      let '(s, o) := slider_setValue (aim_length_slider d) v in
      let '(r, hs') := emit_to o change_aim_length hs in
      Some (r, hs', AimSettings (mkAimDialog s (aim_thickness_slider d) (aim_opacity_slider d)) :: st')
  | MoveAimThickness v, AimSettings d :: st' =>
      let '(s, o) := slider_setValue (aim_thickness_slider d) v in
      let '(r, hs') := emit_to o change_aim_thickness hs in
      Some (r, hs', AimSettings (mkAimDialog (aim_length_slider d) s (aim_opacity_slider d)) :: st')
  | MoveAimOpacity v, AimSettings d :: st' =>
      let '(s, o) := slider_setValue (aim_opacity_slider d) v in
      let '(r, hs') := emit_to o change_aim_opacity hs in
      Some (r, hs', AimSettings (mkAimDialog (aim_length_slider d) (aim_thickness_slider d) s) :: st')
  | MovePointSize v, PointSettings d :: st' =>
      let '(s, o) := slider_setValue (point_size_slider d) v in
      let '(r, hs') := emit_to o change_point_size hs in
      Some (r, hs', PointSettings (mkPointDialog s (point_opacity_slider d)) :: st')
  | MovePointOpacity v, PointSettings d :: st' =>
      let '(s, o) := slider_setValue (point_opacity_slider d) v in
      let '(r, hs') := emit_to o change_point_opacity hs in
      Some (r, hs', PointSettings (mkPointDialog (point_size_slider d) s) :: st')
  | ClickCheckbox i, PointArrangement boxes :: st' =>
      match boxes !! i with
      | Some b =>
          let '(b', state) := checkbox_click b in
          let '(r, hs') := toggle_point_visibility (Z.of_nat i) state hs in
          Some (r, hs', PointArrangement (<[i := b']> boxes) :: st')
      | None => None
      end
  | CloseDialog, _ :: st' => Some (Ok tt, hs, st')
  | _, _ => None
  end.

(** A sequence of inputs, stopping at an exception. *)
Fixpoint dialog_run (l : list DialogInput) (st : list Dialog) (hs : @HState W)
    : option (res unit * @HState W * list Dialog) :=
  match l with
  | [] => Some (Ok tt, hs, st)
  | inp :: l' =>
      match dialog_step inp st hs with
      | Some (Ok _, hs', st') => dialog_run l' st' hs'
      | Some (Raise e, hs', st') => Some (Raise e, hs', st')
      | None => None
      end
  end.
End Session.

(** ** Sessions and their invariant *)

(** A colour returned by [QColorDialog.getColor] is a [QColor] object:
    its channels are in 0..255. *)
Definition input_ok (inp : DialogInput) : Prop :=
  match inp with PickAimColor c | PickPointColor c => channels_ok c | _ => True end.

(** A slider with range [lo..hi] showing [v]. *)
Definition slider_shows (lo hi v : Z) (s : QSlider) : Prop :=
  sl_min s = lo /\ sl_max s = hi /\ sl_value s = v.

(** The controls of an open dialog show the current settings; the
    aim-opacity slider only keeps its range, since its handler writes the
    aim colour's alpha and not [aim_opacity]. *)
Definition dialog_synced (g : Globals) (d : Dialog) : Prop :=
  match d with
  | MainDialog => True
  | AimSettings a =>
      slider_shows 5 100 (aim_length g) (aim_length_slider a) /\
      slider_shows 1 10 (aim_thickness g) (aim_thickness_slider a) /\
      sl_min (aim_opacity_slider a) = 0 /\ sl_max (aim_opacity_slider a) = 255
  | PointSettings p =>
      slider_shows 1 20 (point_size g) (point_size_slider p) /\
      slider_shows 0 255 (point_opacity g) (point_opacity_slider p)
  | PointArrangement boxes => boxes = point_visibility g
  end.

(** The stacks a session goes through: nothing, the main dialog, or one
    of its three dialogs above it; the settings are well formed. *)
Definition stack_inv (g : Globals) (st : list Dialog) : Prop :=
  wf_globals g /\
  match st with
  | [] | [MainDialog] => True
  | [MainDialog; MainDialog] => False
  | [d; MainDialog] => dialog_synced g d
  | _ => False
  end.

Section Sessions.
Context {W : Type} `{Repaintable W}.

(** The sessions from the settings [g0] and widget [w0] with no dialog
    open, through inputs that raise nothing. *)
Inductive session_reach (g0 : Globals) (w0 : W) : @HState W -> list Dialog -> Prop :=
| session_start : session_reach g0 w0 (g0, w0) []
| session_step hs st inp hs' st' :
    session_reach g0 w0 hs st -> input_ok inp ->
    dialog_step inp st hs = Some (Ok tt, hs', st') -> session_reach g0 w0 hs' st'.
End Sessions.

(** ** Lemmas *)

(** On twelve flags the arrangement dialog opens with the check boxes
    showing them. *)
Lemma open_point_arrangement_ok (g : Globals) :
  length (point_visibility g) = 12%nat ->
  open_point_arrangement g = Ok (PointArrangement (point_visibility g)).
Proof.
  unfold open_point_arrangement. destruct (point_visibility g) as [|b0 vis]; [discriminate|].
  do 11 (destruct vis as [|? vis]; [discriminate|]).
  destruct vis; [reflexivity | discriminate].
Qed.

(** A slider move to a slider of range [lo..hi] showing [cur]: either
    nothing is emitted and nothing changes, or the bounded value is
    emitted and shown. *)
Lemma slider_move (lo hi cur v : Z) (s : QSlider) :
  slider_shows lo hi cur s ->
  (bound lo hi v = cur /\ slider_setValue s v = (s, None)) \/
  (bound lo hi v <> cur /\
   slider_setValue s v = (mkSlider lo hi (bound lo hi v), Some (bound lo hi v))).
Proof.
  intros (Hlo & Hhi & Hv). rewrite slider_setValue_eq, Hlo, Hhi, Hv.
  destruct (Z.eqb_spec (bound lo hi v) cur) as [E|E]; [left|right]; split; try done.
  rewrite E, <- Hlo, <- Hhi, <- Hv. by destruct s.
Qed.

Section StepLemmas.
Context {W : Type} `{Repaintable W}.

(** What one step of a session must establish: no exception, the
    invariant, and either no change or the effect of one in-range
    settings event. *)
Definition step_ok (g : Globals) (w : W) (r : res unit) (hs' : @HState W) (st' : list Dialog) : Prop :=
  r = Ok tt /\ stack_inv (fst hs') st' /\
  (hs' = (g, w) \/ exists ev, event_in_range ev /\ dispatch ev (g, w) = (Ok tt, hs')).

(** Closing the result of a step: unchanged settings, or one
    dispatched event [ev]. *)
Ltac step_unchanged :=
  split; [done|]; split; [split; [done|]; simpl|left; reflexivity].
Ltac step_event ev :=
  split; [done|]; split;
  [split; [solve_wf|simpl]
  |right; exists ev; split;
   [simpl
   |simpl dispatch; unfold change_aim_color, change_point_color;
    try match goal with E : isValid _ = true |- _ => rewrite E end;
    first [reflexivity | rewrite toggle_run by lia; by rewrite Nat2Z.id]]].

(** The side conditions: ranges, emitted values, controls. *)
Ltac step_side :=
  simpl; unfold slider_shows in *; repeat split; simpl;
  try (apply bound_range; lia); try done; try lia.

(** A slider of the top dialog moved to [v]: split on the emission and
    run the connected handler. *)
Ltac slider_case Hs v Hstep :=
  destruct (slider_move _ _ _ v _ Hs) as [[? Hm]|[? Hm]]; rewrite Hm in Hstep;
  simpl in Hstep; injection Hstep as <- <- <-.

Lemma aim_step_inv (a : AimDialog) inp g (w : W) r hs' st' :
  wf_globals g -> dialog_synced g (AimSettings a) -> input_ok inp ->
  dialog_step inp [AimSettings a; MainDialog] (g, w) = Some (r, hs', st') ->
  step_ok g w r hs' st'.
Proof.
  intros Hwf Hs Hin Hstep. simpl in Hin. pose proof Hs as (Hl & Ht & Hmin & Hmax).
  pose proof Hl as (? & ? & ?). pose proof Ht as (? & ? & ?).
  destruct inp; simpl in Hstep; try discriminate.
  - unfold change_aim_color in Hstep. destruct (isValid c) eqn:Ec;
      simpl in Hstep; injection Hstep as <- <- <-.
    + step_event (EvAimColor c); step_side.
    + step_unchanged. exact Hs.
  - slider_case Hl v Hstep.
    + step_unchanged. exact Hs.
    + step_event (EvAimLength (bound 5 100 v)); step_side.
  - slider_case Ht v Hstep.
    + step_unchanged. exact Hs.
    + step_event (EvAimThickness (bound 1 10 v)); step_side.
  - rewrite slider_setValue_eq, Hmin, Hmax in Hstep.
    destruct (Z.eqb _ _); simpl in Hstep; injection Hstep as <- <- <-.
    + step_unchanged. step_side.
    + step_event (EvAimOpacity (bound 0 255 v)); step_side.
  - injection Hstep as <- <- <-. by step_unchanged.
Qed.

Lemma point_step_inv (p : PointDialog) inp g (w : W) r hs' st' :
  wf_globals g -> dialog_synced g (PointSettings p) -> input_ok inp ->
  dialog_step inp [PointSettings p; MainDialog] (g, w) = Some (r, hs', st') ->
  step_ok g w r hs' st'.
Proof.
  intros Hwf Hs Hin Hstep. simpl in Hin. pose proof Hs as (Hz & Ho).
  pose proof Hz as (? & ? & ?). pose proof Ho as (? & ? & ?).
  destruct inp; simpl in Hstep; try discriminate.
  - unfold change_point_color in Hstep. destruct (isValid c) eqn:Ec;
      simpl in Hstep; injection Hstep as <- <- <-.
    + step_event (EvPointColor c); step_side.
    + step_unchanged. exact Hs.
  - slider_case Hz v Hstep.
    + step_unchanged. exact Hs.
    + step_event (EvPointSize (bound 1 20 v)); step_side.
  - slider_case Ho v Hstep.
    + step_unchanged. exact Hs.
    + step_event (EvPointOpacity (bound 0 255 v)); step_side.
  - injection Hstep as <- <- <-. by step_unchanged.
Qed.

(** A click on check box [i] of a dialog showing the flags [vis]. *)
Lemma arrangement_step_inv inp g (w : W) r hs' st' :
  wf_globals g ->
  dialog_step inp [PointArrangement (point_visibility g); MainDialog] (g, w) = Some (r, hs', st') ->
  step_ok g w r hs' st'.
Proof.
  intros Hwf Hstep. pose proof Hwf as (Hlen & _).
  destruct inp; simpl in Hstep; try discriminate.
  - destruct (point_visibility g !! i) as [b|] eqn:Hb; [|discriminate].
    assert (Hi : (i < 12)%nat) by (rewrite <- Hlen; by apply lookup_lt_Some with b).
    rewrite toggle_run in Hstep by lia. rewrite ?Nat2Z.id in Hstep.
    simpl in Hstep. injection Hstep as <- <- <-.
    step_event (EvToggle (Z.of_nat i) (negb b)); rewrite ?length_insert; step_side.
  - injection Hstep as <- <- <-. by step_unchanged.
Qed.

(** A slider built with [setRange(lo, hi)] and [setValue(v)] for [v] in
    range shows [v]. *)
Lemma slider_init_shows (lo hi v : Z) :
  lo <= v <= hi -> slider_shows lo hi v (slider_init lo hi v).
Proof.
  intros Hv. destruct (slider_init_range lo hi v) as [Hlo Hhi].
  split; [done|]. split; [done|]. rewrite slider_init_value. by apply bound_id.
Qed.

(** The main dialog opens its three dialogs in sync with the settings. *)
Lemma main_step_inv inp g (w : W) r hs' st' :
  wf_globals g ->
  dialog_step inp [MainDialog] (g, w) = Some (r, hs', st') ->
  step_ok g w r hs' st'.
Proof.
  intros Hwf Hstep. pose proof Hwf as (Hlen & ? & ? & ? & ? & ? & _).
  destruct inp; simpl in Hstep; try discriminate.
  all: try rewrite open_point_arrangement_ok in Hstep by done.
  all: injection Hstep as <- <- <-; step_unchanged;
       repeat split; try apply slider_init_shows; try lia.
Qed.

(** The core of C6: every step of a session from a stack satisfying the
    invariant keeps it and is either no change or one in-range event. *)
Lemma dialog_step_ok inp st g (w : W) r hs' st' :
  stack_inv g st -> input_ok inp ->
  dialog_step inp st (g, w) = Some (r, hs', st') ->
  step_ok g w r hs' st'.
Proof.
  intros [Hwf Hst] Hin Hstep.
  destruct st as [|d [|d2 [|d3 st]]];
    [| | |by destruct d, d2].
  - destruct inp; simpl in Hstep; try discriminate.
    injection Hstep as <- <- <-. by step_unchanged.
  - destruct d; try (simpl in Hst; contradiction). by apply (main_step_inv inp g w).
  - destruct d2, d; try (simpl in Hst; contradiction).
    + by apply (aim_step_inv d inp g w).
    + by apply (point_step_inv d inp g w).
    + simpl in Hst. subst boxes. by apply (arrangement_step_inv inp g w).
Qed.
End StepLemmas.

Section SessionLemmas.
Context {W : Type} `{Repaintable W}.

(** The invariant of every session, with the [aim_opacity] global
    never written. *)
Lemma session_inv g0 (w0 : W) hs st :
  wf_globals g0 -> session_reach g0 w0 hs st ->
  stack_inv (fst hs) st /\ aim_opacity (fst hs) = aim_opacity g0.
Proof.
  intros Hwf0 Hr. induction Hr as [|[g w] st inp [g' w'] st' Hr IH Hin Hstep].
  - by split; [split|].
  - destruct IH as [Hinv Hop].
    destruct (dialog_step_ok inp st g w _ _ _ Hinv Hin Hstep) as (_ & Hinv' & [E|(ev & _ & Hd)]).
    + by simplify_eq.
    + split; [done|]. simpl in *. by rewrite (proj2 (dispatch_untouched ev g w _ g' w' Hd)).
Qed.

(** The invariant of a stack as a statement about each dialog. *)
Lemma stack_inv_synced g st : stack_inv g st -> Forall (dialog_synced g) st.
Proof.
  intros [_ Hst]. destruct st as [|d [|d2 [|d3 st]]]; [by constructor| | |by destruct d, d2].
  - destruct d; try contradiction. by apply Forall_singleton.
  - destruct d2, d; try (simpl in Hst; contradiction);
      (apply Forall_cons_2; [exact Hst|by apply Forall_singleton]).
Qed.
End SessionLemmas.

(** ** Theorems *)

Section DialogTheorems.
Context {W : Type} `{Repaintable W}.

(** C6: the dialogs implement the settings events of [Settings.v]:
    in every session from well-formed settings, an input raises nothing
    and either changes neither the settings nor the widget or has
    exactly the effect of [dispatch] on one event in the range of its
    control. *)
Theorem dialogs_refine_dispatch g0 (w0 : W) hs st inp r hs' st' :
  wf_globals g0 -> session_reach g0 w0 hs st -> input_ok inp ->
  dialog_step inp st hs = Some (r, hs', st') ->
  r = Ok tt /\ (hs' = hs \/ exists ev, event_in_range ev /\ dispatch ev hs = (Ok tt, hs')).
Proof.
  intros Hwf0 Hr Hin Hstep. destruct hs as [g w].
  destruct (session_inv g0 w0 _ _ Hwf0 Hr) as [Hinv _].
  destruct (dialog_step_ok inp st g w r hs' st' Hinv Hin Hstep) as (Hok & _ & Heff).
  by split.
Qed.

(** C9: in every session the settings stay well formed, the controls
    of every open dialog show the current settings (the aim-opacity
    slider only its range), and the global [aim_opacity] keeps its
    initial value. *)
Theorem open_dialogs_show_settings g0 (w0 : W) hs st :
  wf_globals g0 -> session_reach g0 w0 hs st ->
  wf_globals (fst hs) /\ Forall (dialog_synced (fst hs)) st /\ aim_opacity (fst hs) = aim_opacity g0.
Proof.
  intros Hwf0 Hr. destruct (session_inv g0 w0 hs st Hwf0 Hr) as [Hinv Hop].
  split; [apply Hinv|]. split; [by apply stack_inv_synced|done].
Qed.

(** C25: the aim-opacity slider opens at [aim_opacity] (255), not at
    the aim colour's alpha; when that alpha is below 255, no move of the
    reopened slider restores it to 255, and a move to 255 emits nothing
    and changes nothing. *)
Theorem reopened_opacity_slider_cannot_restore g (w : W) st v :
  aim_opacity g = 255 -> alpha (aim_color g) <> 255 ->
  exists hs' d,
    dialog_run [ClickAimButton; MoveAimOpacity v] (MainDialog :: st) (g, w) =
      Some (Ok tt, hs', AimSettings d :: MainDialog :: st) /\
    alpha (aim_color (fst hs')) <> 255 /\
    (bound 0 255 v = 255 -> hs' = (g, w)).
Proof.
  intros Hop Ha. unfold dialog_run, dialog_step, open_aim_settings. cbn [fst].
  rewrite Hop. change (slider_init 0 255 255) with (mkSlider 0 255 255).
  rewrite slider_setValue_eq. cbn [sl_min sl_max sl_value].
  simpl. destruct (Z.eqb (bound 0 255 v) 255) eqn:E;
    [apply Z.eqb_eq in E | apply Z.eqb_neq in E]; simpl.
  - do 2 eexists. split; [reflexivity|]. by split.
  - do 2 eexists. split; [reflexivity|]. split; [|done]. simpl.
    destruct (aim_color g); [done|]. simpl. pose proof (bound_range 0 255 v).
    rewrite clamp8_id by lia. done.
Qed.

(** C33: check box [i] of the arrangement dialog toggles flag [i] and
    no other (the slot binds [index=i] when it is created), requests a
    repaint, and the check boxes keep showing the flags. *)
Theorem checkbox_toggles_its_point g (w : W) st (i : nat) (b : bool) :
  point_visibility g !! i = Some b ->
  dialog_step (ClickCheckbox i) (PointArrangement (point_visibility g) :: st) (g, w) =
    Some (Ok tt, (set_point_visibility (<[i := negb b]> (point_visibility g)) g, update w),
          PointArrangement (<[i := negb b]> (point_visibility g)) :: st).
Proof.
  intros Hb. simpl. rewrite Hb. simpl.
  rewrite toggle_run by (apply lookup_lt_Some in Hb; lia). by rewrite Nat2Z.id.
Qed.

(** [open_point_arrangement] raises [IndexError] when fewer than
    twelve visibility flags exist, and otherwise shows the first twelve
    in its check boxes. *)
Theorem open_point_arrangement_spec (g : Globals) :
  open_point_arrangement g =
    if (length (point_visibility g) <? 12)%nat then Raise IndexError
    else Ok (PointArrangement (take 12 (point_visibility g))).
Proof.
  unfold open_point_arrangement. destruct (point_visibility g) as [|b0 vis]; [reflexivity|].
  do 11 (destruct vis as [|? vis]; [reflexivity|]). reflexivity.
Qed.
End DialogTheorems.

(** ** Witnesses *)

(** A widget reduced to its pending-repaint flag. *)
#[local] Instance dialog_flag_repaintable : Repaintable bool := {| update _ := true |}.

(** The session that opened the settings and the aim dialog. *)
Definition demo_stack : list Dialog := [open_aim_settings init_globals; MainDialog].

Lemma demo_session_reach : session_reach init_globals false (init_globals, false) demo_stack.
Proof.
  apply (session_step _ _ (init_globals, false) [MainDialog] ClickAimButton); [|exact I|reflexivity].
  apply (session_step _ _ (init_globals, false) [] OpenSettings); [apply session_start|exact I|reflexivity].
Qed.

Lemma dialogs_refine_dispatch_witness :
  @Ok unit tt = Ok tt /\
  ((set_aim_length 50 init_globals, true) = (init_globals, false) \/
   exists ev, event_in_range ev /\
     dispatch ev (init_globals, false) = (Ok tt, (set_aim_length 50 init_globals, true))).
Proof.
  apply (dialogs_refine_dispatch init_globals false (init_globals, false) demo_stack
           (MoveAimLength 50) _ _
           [AimSettings (mkAimDialog (mkSlider 5 100 50) (slider_init 1 10 2) (slider_init 0 255 255));
            MainDialog]);
    [apply init_globals_wf | apply demo_session_reach | exact I | reflexivity].
Defined.

Lemma open_dialogs_show_settings_witness :
  wf_globals init_globals /\ Forall (dialog_synced init_globals) demo_stack /\
  aim_opacity init_globals = aim_opacity init_globals.
Proof.
  apply (open_dialogs_show_settings init_globals false (init_globals, false) demo_stack);
    [apply init_globals_wf | apply demo_session_reach].
Defined.

Lemma reopened_opacity_slider_cannot_restore_witness :
  exists hs' d,
    dialog_run [ClickAimButton; MoveAimOpacity 255] [MainDialog]
      (set_aim_color (QRgba 0 0 255 100) init_globals, false) =
      Some (Ok tt, hs', [AimSettings d; MainDialog]) /\
    alpha (aim_color (fst hs')) <> 255 /\
    (bound 0 255 255 = 255 -> hs' = (set_aim_color (QRgba 0 0 255 100) init_globals, false)).
Proof.
  apply (reopened_opacity_slider_cannot_restore _ false [] 255); [reflexivity | discriminate].
Defined.

Lemma checkbox_toggles_its_point_witness :
  dialog_step (ClickCheckbox 3) [PointArrangement (point_visibility init_globals)] (init_globals, false) =
    Some (Ok tt, (set_point_visibility (<[3%nat := false]> (point_visibility init_globals)) init_globals, true),
          [PointArrangement (<[3%nat := false]> (point_visibility init_globals))]).
Proof. apply (@checkbox_toggles_its_point bool dialog_flag_repaintable init_globals false [] 3 true). reflexivity. Defined.
