(* ===== verification/ClockFace.v ===== *)
(** * The clock-face arithmetic of [paintEvent] (src/dhonvtool.py, lines 78-85)

    [paintEvent] places its twelve points with
<<
        circle_radius = 100
        angles = [60, 30, 0, 330, 300, 270, 240, 210, 180, 150, 120, 90]
        for i, angle in enumerate(angles):
            ...
            radian_angle = math.radians(angle)
            point_x = center_x + int(circle_radius * math.cos(radian_angle))
            point_y = center_y - int(circle_radius * math.sin(radian_angle))
>>
    on IEEE binary64 numbers.  This file computes it with Rocq's primitive
    floats: [math.radians] as CPython defines it ([x * degToRad] with
    [degToRad = Py_MATH_PI / 180.0]), the product by 100 rounded to
    nearest, and Python's [int] of a float (truncation toward zero, with
    [ValueError] on NaN and [OverflowError] on an infinity).  The C
    library's [cos] and [sin] are an interface [Libm]; the instance
    [crlibm] gives their correctly rounded values at the twelve arguments
    the code uses. *)

From Stdlib Require Import ZArith Lia Floats Uint63.
From stdpp Require Import base list.
From S2P Require Import Prelude.

Open Scope Z_scope.

(** ** Python floats *)

(** [float(z)] for an int of magnitude below 2^53 (exact). *)
Definition float_of_Z (z : Z) : float :=
  if Z.ltb z 0 then PrimFloat.opp (PrimFloat.of_uint63 (Uint63.of_Z (- z)))
  else PrimFloat.of_uint63 (Uint63.of_Z z).

(** [int(x)] for a float: truncation toward zero. *)
Definition py_int (x : float) : res Z :=
  match Prim2SF x with
  | S754_zero _ => Ok 0
  | S754_infinity _ => Raise OverflowError
  | S754_nan => Raise ValueError
  | S754_finite s m e =>
      let q := if Z.leb 0 e then Z.pos m * 2 ^ e else Z.pos m / 2 ^ (- e) in
      Ok (if s then - q else q)
  end.

(** [Py_MATH_PI] and CPython's [degToRad]. *)
Definition Py_MATH_PI : float := 0x1.921fb54442d18p+1%float.
Definition degToRad : float := (Py_MATH_PI / 180)%float.

(** [math.radians(x)] *)
Definition radians (x : float) : float := (x * degToRad)%float.

(** ** The C library's trigonometric functions *)

Class Libm := {
  libm_cos : float -> float;
  libm_sin : float -> float
}.

(** Argument, cosine, sine: the correctly rounded binary64 values at the
    twelve arguments [math.radians(angle)] of the angle list. *)
Definition trig_table : list (float * float * float) := [
  (0x1.0c152382d7365p+0, 0x1.0000000000001p-1, 0x1.bb67ae8584caap-1);
  (0x1.0c152382d7365p-1, 0x1.bb67ae8584cabp-1, 0x1.fffffffffffffp-2);
  (0x0p+0, 0x1p+0, 0x0p+0);
  (0x1.709d10d3e7eabp+2, 0x1.bb67ae8584ca8p-1, PrimFloat.opp 0x1.0000000000004p-1);
  (0x1.4f1a6c638d03fp+2, 0x1.0000000000001p-1, PrimFloat.opp 0x1.bb67ae8584caap-1);
  (0x1.2d97c7f3321d2p+2, PrimFloat.opp 0x1.a79394c9e8a0ap-53, PrimFloat.opp 0x1p+0);
  (0x1.0c152382d7365p+2, PrimFloat.opp 0x1.0000000000004p-1, PrimFloat.opp 0x1.bb67ae8584ca8p-1);
  (0x1.d524fe24f89f2p+1, PrimFloat.opp 0x1.bb67ae8584caap-1, PrimFloat.opp 0x1.0000000000001p-1);
  (0x1.921fb54442d18p+1, PrimFloat.opp 0x1p+0, 0x1.1a62633145c07p-53);
  (0x1.4f1a6c638d03fp+1, PrimFloat.opp 0x1.bb67ae8584cabp-1, 0x1.fffffffffffffp-2);
  (0x1.0c152382d7365p+1, PrimFloat.opp 0x1.ffffffffffffcp-2, 0x1.bb67ae8584cabp-1);
  (0x1.921fb54442d18p+0, 0x1.1a62633145c07p-54, 0x1p+0)
]%float.

Fixpoint trig_lookup (x : float) (t : list (float * float * float)) : option (float * float) :=
  match t with
  | [] => None
  | (a, c, s) :: t' => if PrimFloat.eqb x a then Some (c, s) else trig_lookup x t'
  end.

(** Outside the table the values are not given (NaN). *)
#[export] Instance crlibm : Libm := {|
  libm_cos x := match trig_lookup x trig_table with Some (c, _) => c | None => nan end;
  libm_sin x := match trig_lookup x trig_table with Some (_, s) => s | None => nan end
|}.

(** ** The clock positions *)

(** [circle_radius = 100] *)
Definition circle_radius : Z := 100.

(** [angles = [60, 30, 0, 330, ...]], line 79. *)
Definition angles : list Z := [60; 30; 0; 330; 300; 270; 240; 210; 180; 150; 120; 90].

Section Offsets.
Context `{Libm}.

(** The offsets [int(circle_radius * cos(radians(angle)))] and
    [int(circle_radius * sin(radians(angle)))] of lines 83-85. *)
Definition clock_offset (angle : Z) : res (Z * Z) :=
  let radian_angle := radians (float_of_Z angle) in
  match py_int (float_of_Z circle_radius * libm_cos radian_angle)%float,
        py_int (float_of_Z circle_radius * libm_sin radian_angle)%float with
  | Ok dx, Ok dy => Ok (dx, dy)
  | Raise e, _ => Raise e
  | Ok _, Raise e => Raise e
  end.

(** [(point_x, point_y)] for a centre: x grows right, y grows down. *)
Definition clock_point (center_x center_y angle : Z) : res (Z * Z) :=
  match clock_offset angle with
  | Ok (dx, dy) => Ok (center_x + dx, center_y - dy)
  | Raise e => Raise e
  end.
End Offsets.

(** ** What the code computes *)

(** The twelve offsets, in the order of [angles]. *)
Definition drawn_offsets : list (Z * Z) :=
  [(50, 86); (86, 49); (100, 0); (86, -50); (50, -86); (0, -100);
   (-50, -86); (-86, -50); (-100, 0); (-86, 49); (-49, 86); (0, 100)].

(** Squared distance of an offset to the centre. *)
Definition dist2 (p : Z * Z) : Z := fst p * fst p + snd p * snd p.

Lemma length_angles : length angles = 12%nat.
Proof. reflexivity. Qed.

Lemma clock_offsets_all : map (@clock_offset crlibm) angles = map Ok drawn_offsets.
Proof. vm_compute. reflexivity. Qed.

(** The offset at index [i] is the [i]-th entry of [drawn_offsets]. *)
Lemma clock_offset_at (i : nat) (a : Z) :
  angles !! i = Some a -> exists p, drawn_offsets !! i = Some p /\ @clock_offset crlibm a = Ok p.
Proof.
  intros Ha.
  assert (Hm : map (@clock_offset crlibm) angles !! i = Some (clock_offset a))
    by (rewrite list_lookup_fmap, Ha; reflexivity).
  rewrite clock_offsets_all, list_lookup_fmap in Hm.
  destruct (drawn_offsets !! i) as [p|] eqn:Hp; simpl in Hm; [|done].
  exists p. split; [done|]. by injection Hm.
Qed.

Lemma drawn_offsets_dist2 :
  Forall (fun p => 9797 <= dist2 p <= 10000) drawn_offsets.
Proof. repeat constructor; vm_compute; discriminate. Qed.

#[export] Hint Resolve clock_offset_at : dhon.

(** ** Theorems *)

(** C34: every clock point [paintEvent] computes for a centre
    [(cx, cy)] is the centre moved by the truncated offset, x to the
    right and y upwards on the screen; no [int] conversion raises. *)
Theorem clock_points_exact (cx cy : Z) :
  map (@clock_point crlibm cx cy) angles =
  map (fun p => Ok (cx + fst p, cy - snd p)) drawn_offsets.
Proof.
  apply list_eq. intros i. rewrite !list_lookup_fmap.
  destruct (angles !! i) as [a|] eqn:Ha; simpl.
  - destruct (clock_offset_at i a Ha) as ([dx dy] & -> & Hc). simpl.
    unfold clock_point. by rewrite Hc.
  - assert (length angles <= i)%nat as Hi by (by apply lookup_ge_None).
    rewrite lookup_ge_None_2; [done|]. rewrite length_angles in Hi. simpl. lia.
Qed.

(** The squared distance of every clock point to the centre lies between
    9797 and 10000: each point is within 1.02 pixel of the radius 100. *)
Theorem clock_distance_bounds (i : nat) (a dx dy : Z) :
  angles !! i = Some a -> @clock_offset crlibm a = Ok (dx, dy) ->
  9797 <= dx * dx + dy * dy <= 10000.
Proof.
  intros Ha Hc. destruct (clock_offset_at i a Ha) as (p & Hp & Hc').
  rewrite Hc in Hc'. injection Hc' as <-.
  exact (proj1 (Forall_lookup _ _) drawn_offsets_dist2 i _ Hp).
Qed.

(** C23: Exactly the points at indices 1, 9 and 10 (2, 10 and 11 o'clock) are
    nearer than 99 pixels to the centre: [int] truncates [100 * sin]
    of 30 and 150 degrees and [100 * cos] of 120 degrees, which the
    float computation puts just below 50, to 49. *)
Theorem clock_distance_below_99 (i : nat) (a : Z) (p : Z * Z) :
  angles !! i = Some a -> @clock_offset crlibm a = Ok p ->
  (dist2 p < 99 * 99 <-> i = 1%nat \/ i = 9%nat \/ i = 10%nat).
Proof.
  intros Ha Hc. destruct (clock_offset_at i a Ha) as (q & Hq & Hc').
  rewrite Hc in Hc'. injection Hc' as <-.
  do 12 (destruct i as [|i]; [injection Hq as <-; vm_compute; intuition (discriminate || lia)|]).
  done.
Qed.

(** The 2 o'clock and 4 o'clock points are not mirror images across the
    horizontal axis: 49 pixels above the centre against 50 below. *)
Theorem clock_not_symmetric :
  @clock_offset crlibm 30 = Ok (86, 49) /\ @clock_offset crlibm 330 = Ok (86, -50).
Proof. split; vm_compute; reflexivity. Qed.

(** ** Witnesses *)

Lemma clock_distance_bounds_witness : 9797 <= 86 * 86 + 49 * 49 <= 10000.
Proof. apply (clock_distance_bounds 1 30); vm_compute; reflexivity. Defined.

Lemma clock_distance_below_99_witness :
  dist2 (86, 49) < 99 * 99 <-> 1%nat = 1%nat \/ 1%nat = 9%nat \/ 1%nat = 10%nat.
Proof. apply (clock_distance_below_99 1 30); vm_compute; reflexivity. Defined.

