(* ===== verification/Overlay.v ===== *)
(** * The overlay renderer [PyQtOverlayWithAim] (src/dhonvtool.py, lines 33-90)

    The widget state [QtOverlay] (geometry, the Win32 extended style set
    by [make_window_click_through], visibility and the pending repaint),
    its constructor, [show], [close] and [update] (the [Repaintable]
    instance the settings handlers use), and [paintEvent] as a [PyM]
    program over the painter and the globals.  The abstract frame
    [frame_spec] says what a repaint draws; [paintEvent_refines] shows the
    program draws exactly it. *)

From Stdlib Require Import ZArith Lia Floats.
From stdpp Require Import base list decidable.
From S2P Require Import Prelude QtModel Settings ClockFace.

Open Scope Z_scope.
Local Open Scope py_scope.

(** ** The widget *)

(** [win32con.WS_EX_LAYERED] and [win32con.WS_EX_TRANSPARENT]. *)
Definition WS_EX_LAYERED : Z := 524288.
Definition WS_EX_TRANSPARENT : Z := 32.

Record QtOverlay : Type := mkOverlay {
  ov_x : Z;
  ov_y : Z;
  ov_width : Z;
  ov_height : Z;
  ex_style : Z;
  ov_visible : bool;
  paint_pending : bool
}.

(** [make_window_click_through] (lines 48-55): read the extended style
    and write it back with the two bits set. *)
Definition make_window_click_through (ex : Z) : Z :=
  Z.lor ex (Z.lor WS_EX_LAYERED WS_EX_TRANSPARENT).

(** [win32gui.GetWindowLong] returns, and [SetWindowLong] accepts, a C
    [LONG]: a signed 32-bit value (pywin32 raises [OverflowError]
    outside this range). *)
Definition int32_range (v : Z) : Prop := - 2 ^ 31 <= v < 2 ^ 31.

(** [PyQtOverlayWithAim(rect)] (lines 34-46) with [rect = (x, y, w, h)]
    and [ex0] the extended style Qt gave the native window. *)
Definition PyQtOverlayWithAim_init (x y w h ex0 : Z) : QtOverlay :=
  mkOverlay x y w h (make_window_click_through ex0) false false.

(** [show()]: the window appears and gets a first paint. *)
Definition ov_show (o : QtOverlay) : QtOverlay :=
  mkOverlay (ov_x o) (ov_y o) (ov_width o) (ov_height o) (ex_style o) true true.

(** [close()]: without [WA_DeleteOnClose] the widget is only hidden; a
    hidden widget has no pending paint. *)
Definition ov_close (o : QtOverlay) : QtOverlay :=
  mkOverlay (ov_x o) (ov_y o) (ov_width o) (ov_height o) (ex_style o) false false.

(** [update()]: a repaint is scheduled for a visible widget, ignored for
    a hidden one. *)
#[export] Instance QtOverlay_repaintable : Repaintable QtOverlay := {|
  update o := if ov_visible o
              then mkOverlay (ov_x o) (ov_y o) (ov_width o) (ov_height o) (ex_style o) true true
              else o
|}.

(** ** [paintEvent] *)

Definition PState : Type := QPainter * Globals.

Definition paint (f : QPainter -> QPainter) : PyM PState unit :=
  py_modify (fun '(p, g) => (f p, g)).
Definition paint_globals : PyM PState Globals := py_bind py_get (fun s => py_ret (snd s)).
Definition set_glob (f : Globals -> Globals) : PyM PState unit :=
  py_modify (fun '(p, g) => (p, f g)).

(** [QPen(QColor(255, 0, 0))] with [setWidth(5)]. *)
Definition border_pen : QPen := pen_setWidth (QPen_of (QColor_rgb 255 0 0)) 5.

Section Paint.
Context `{Libm}.

(** One iteration of the loop of lines 80-90. *)
Definition paint_point (center_x center_y : Z) (ia : Z * Z) : PyM PState unit :=
  let '(i, angle) := ia in
  g <- paint_globals ;;
  vis <- py_lift (py_getitem (point_visibility g) i) ;;
  if negb vis then py_ret tt else
  pt <- py_lift (clock_point center_x center_y angle) ;;
  let '(point_x, point_y) := pt in
  (* point_color_with_opacity = point_color; ...setAlpha(point_opacity) *)
  set_glob (fun g => set_point_color (setAlpha (point_color g) (point_opacity g)) g) ;;
  g <- paint_globals ;;
  paint (setBrush (SolidBrush (point_color g))) ;;
  paint (setPen NoPen) ;;
  paint (drawEllipse (point_x - point_size g) (point_y - point_size g)
                     (point_size g * 2) (point_size g * 2)).

(** [paintEvent(self, event)], lines 57-90, for a widget of size
    [width x height]. *)
Definition paintEvent (width height : Z) : PyM PState unit :=
  paint (setPen border_pen) ;;
  paint (setBrush NoBrush) ;;
  paint (drawRect 0 0 (width - 1) (height - 1)) ;;
  g <- paint_globals ;;
  paint (setPen (pen_setWidth (QPen_of (aim_color g)) (aim_thickness g))) ;;
  let center_x := py_floordiv width 2 in
  let center_y := py_floordiv height 2 in
  paint (drawLine (center_x - aim_length g) center_y (center_x + aim_length g) center_y) ;;
  paint (drawLine center_x (center_y - aim_length g) center_x (center_y + aim_length g)) ;;
  py_for (py_enumerate angles) (paint_point center_x center_y).

(** A repaint of the widget: a fresh painter, the frame it received and
    the globals afterwards. *)
Definition render (o : QtOverlay) (g : Globals) : res (list DrawCmd) * Globals :=
  let '(r, (p, g')) := paintEvent (ov_width o) (ov_height o) (QPainter_new, g) in
  (match r with Ok _ => Ok (drawn p) | Raise e => Raise e end, g').
(** ** The loop with a copy instead of the alias

    The reference the aliasing code is measured against: the colour is
    copied, [point_color_with_opacity = QColor(point_color)], so that
    [setAlpha] changes the copy and no global is written. *)
Definition paint_point_copy (center_x center_y : Z) (ia : Z * Z) : PyM PState unit :=
  let '(i, angle) := ia in
  g <- paint_globals ;;
  vis <- py_lift (py_getitem (point_visibility g) i) ;;
  if negb vis then py_ret tt else
  pt <- py_lift (clock_point center_x center_y angle) ;;
  let '(point_x, point_y) := pt in
  paint (setBrush (SolidBrush (setAlpha (point_color g) (point_opacity g)))) ;;
  paint (setPen NoPen) ;;
  paint (drawEllipse (point_x - point_size g) (point_y - point_size g)
                     (point_size g * 2) (point_size g * 2)).

Definition paintEvent_copy (width height : Z) : PyM PState unit :=
  paint (setPen border_pen) ;;
  paint (setBrush NoBrush) ;;
  paint (drawRect 0 0 (width - 1) (height - 1)) ;;
  g <- paint_globals ;;
  paint (setPen (pen_setWidth (QPen_of (aim_color g)) (aim_thickness g))) ;;
  let center_x := py_floordiv width 2 in
  let center_y := py_floordiv height 2 in
  paint (drawLine (center_x - aim_length g) center_y (center_x + aim_length g) center_y) ;;
  paint (drawLine center_x (center_y - aim_length g) center_x (center_y + aim_length g)) ;;
  py_for (py_enumerate angles) (paint_point_copy center_x center_y).

Definition render_copy (o : QtOverlay) (g : Globals) : res (list DrawCmd) * Globals :=
  let '(r, (p, g')) := paintEvent_copy (ov_width o) (ov_height o) (QPainter_new, g) in
  (match r with Ok _ => Ok (drawn p) | Raise e => Raise e end, g').
End Paint.

(** ** The abstract frame *)

(** The ellipse of point [i] (offset [(dx, dy)]) for a centre. *)
Definition point_cmd (g : Globals) (cx cy : Z) (d : Z * Z) : DrawCmd :=
  DrawEllipse NoPen (SolidBrush (setAlpha (point_color g) (point_opacity g)))
    (cx + fst d - point_size g) (cy - snd d - point_size g)
    (point_size g * 2) (point_size g * 2).

(** The indices whose flag is set. *)
Definition visible_indices (vis : list bool) : list nat :=
  filter (fun j => vis !! j = Some true) (seq 0 12).

(** The border, the crosshair and the ellipses of the given indices. *)
Definition frame_of_indices (w h : Z) (g : Globals) (idx : list nat) : list DrawCmd :=
  let cx := w `div` 2 in
  let cy := h `div` 2 in
  let ap := SolidPen (aim_color g) (aim_thickness g) in
  [DrawRect border_pen NoBrush 0 0 (w - 1) (h - 1);
   DrawLine ap (cx - aim_length g) cy (cx + aim_length g) cy;
   DrawLine ap cx (cy - aim_length g) cx (cy + aim_length g)] ++
  omap (fun j => point_cmd g cx cy <$> drawn_offsets !! j) idx.

(** What a repaint draws: the red border, the two crosshair lines, then
    one ellipse per visible point in index order. *)
Definition frame_spec (w h : Z) (g : Globals) : list DrawCmd :=
  frame_of_indices w h g (visible_indices (point_visibility g)).

(** The globals after a repaint: the point colour object has received the
    point opacity as its alpha when at least one point was drawn. *)
Definition globals_after_paint (g : Globals) : Globals :=
  if decide (visible_indices (point_visibility g) = [])
  then g
  else set_point_color (setAlpha (point_color g) (point_opacity g)) g.

(** ** Lemmas *)

(** The painter after the statements of lines 58-75. *)
Definition border_and_crosshair (w h : Z) (g : Globals) (p : QPainter) : QPainter :=
  drawLine (w `div` 2) (h `div` 2 - aim_length g) (w `div` 2) (h `div` 2 + aim_length g)
    (drawLine (w `div` 2 - aim_length g) (h `div` 2) (w `div` 2 + aim_length g) (h `div` 2)
      (setPen (SolidPen (aim_color g) (aim_thickness g))
        (drawRect 0 0 (w - 1) (h - 1) (setBrush NoBrush (setPen border_pen p))))).

(** The colour every ellipse of a repaint is filled with. *)
Definition point_fill (g : Globals) : QColor := setAlpha (point_color g) (point_opacity g).

Lemma setAlpha_idem c a : setAlpha (setAlpha c a) a = setAlpha c a.
Proof. by destruct c. Qed.

Lemma point_fill_after (g : Globals) :
  point_fill (set_point_color (point_fill g) g) = point_fill g.
Proof. apply setAlpha_idem. Qed.

Section PaintLemmas.
Context `{Libm}.

(** One iteration: a hidden point leaves everything; a visible one
    writes the fill colour into the global and draws its ellipse. *)
Lemma paint_point_run (cx cy : Z) (j : nat) (a : Z) (p : QPainter) (g : Globals) (b : bool) (x y : Z) :
  point_visibility g !! j = Some b -> clock_point cx cy a = Ok (x, y) ->
  paint_point cx cy (Z.of_nat j, a) (p, g) =
    if b then (@Ok unit tt, (drawEllipse (x - point_size g) (y - point_size g)
                         (point_size g * 2) (point_size g * 2)
                         (setPen NoPen (setBrush (SolidBrush (point_fill g)) p)),
                       set_point_color (point_fill g) g))
    else (Ok tt, (p, g)).
Proof.
  intros Hv Hc. unfold paint_point; simp_py.
  rewrite py_getitem_nat, Hv. simp_py. destruct b; simp_py; [|done].
  by rewrite Hc.
Qed.

(** The loop over [(index, angle)] pairs whose points are computable:
    the ellipses of the visible indices are appended in order, and the
    point colour is overwritten once some point is drawn. *)
Lemma paint_loop_run cx cy (l : list (nat * Z)) (p : QPainter) (g : Globals) :
  Forall (fun '(j, a) => is_Some (point_visibility g !! j) /\
            exists d, drawn_offsets !! j = Some d /\
                      clock_point cx cy a = Ok (cx + fst d, cy - snd d)) l ->
  exists p', py_for (map (fun '(j, a) => (Z.of_nat j, a)) l) (paint_point cx cy) (p, g) =
    (Ok tt, (p', if decide (filter (fun j => point_visibility g !! j = Some true) (map fst l) = [])
                 then g else set_point_color (point_fill g) g)) /\
    drawn p' = drawn p ++ omap (fun j => point_cmd g cx cy <$> drawn_offsets !! j)
                 (filter (fun j => point_visibility g !! j = Some true) (map fst l)).
Proof.
  revert p g. induction l as [|[j a] l IH]; intros p g Hl.
  { exists p. simpl. rewrite app_nil_r. split; reflexivity. }
  apply Forall_cons_1 in Hl as [([b Hb] & d & Hd & Hc) Hl].
  cbn [map py_for fst]. unfold py_bind at 1. rewrite (paint_point_run _ _ _ _ _ _ b _ _ Hb Hc).
  rewrite filter_cons. destruct b.
  - set (g1 := set_point_color (point_fill g) g).
    destruct (IH (drawEllipse (cx + fst d - point_size g) (cy - snd d - point_size g)
                 (point_size g * 2) (point_size g * 2)
                 (setPen NoPen (setBrush (SolidBrush (point_fill g)) p))) g1) as (p' & Hrun & Hdr).
    { exact Hl. }
    assert (Hcmd : point_cmd g1 = point_cmd g)
      by (unfold point_cmd, g1, point_fill; simpl; by rewrite setAlpha_idem).
    exists p'. rewrite (decide_True _ _ Hb). rewrite Hrun. split.
    + do 2 f_equal. repeat case_decide; try discriminate; [done|].
      unfold g1. by rewrite point_fill_after.
    + rewrite Hdr, Hcmd. simpl. rewrite Hd. simpl. rewrite <- app_assoc. reflexivity.
  - destruct (IH p g Hl) as (p' & Hrun & Hdr). exists p'.
    assert (Hnv : point_visibility g !! j <> Some true) by congruence.
    rewrite (decide_False _ _ Hnv). rewrite Hrun. split; [done|]. exact Hdr.
Qed.

(** The statements before the loop. *)
Lemma paintEvent_prefix w h (p : QPainter) (g : Globals) :
  paintEvent w h (p, g) =
  py_for (py_enumerate angles) (paint_point (w `div` 2) (h `div` 2))
    (border_and_crosshair w h g p, g).
Proof. reflexivity. Qed.
End PaintLemmas.

Lemma py_enumerate_angles :
  py_enumerate angles = map (fun '(j, a) => (Z.of_nat j, a)) (zip (seq 0 12) angles).
Proof. reflexivity. Qed.

(** Every clock point is computable with the correctly rounded library. *)
Lemma clock_point_at (cx cy : Z) (i : nat) (a : Z) :
  angles !! i = Some a ->
  exists d, drawn_offsets !! i = Some d /\ @clock_point crlibm cx cy a = Ok (cx + fst d, cy - snd d).
Proof.
  intros Ha. destruct (clock_offset_at i a Ha) as (d & Hd & Hc).
  exists d. split; [done|]. unfold clock_point. rewrite Hc. by destruct d.
Qed.

Lemma paint_loop_hyp (cx cy : Z) (g : Globals) :
  length (point_visibility g) = 12%nat ->
  Forall (fun '(j, a) => is_Some (point_visibility g !! j) /\
            exists d, drawn_offsets !! j = Some d /\
                      @clock_point crlibm cx cy a = Ok (cx + fst d, cy - snd d))
         (zip (seq 0 12) angles).
Proof.
  intros Hl. repeat apply Forall_cons_2; try apply Forall_nil_2;
    (split; [apply lookup_lt_is_Some_2; lia | by apply clock_point_at]).
Qed.


(** ** The alias and the copy *)

(** Two settings that differ at most in the point colour and give the
    same point fill. *)
Definition agree_but_color (g1 g2 : Globals) : Prop :=
  set_point_color (point_fill g1) g1 = set_point_color (point_fill g2) g2.

Section AliasLemmas.
Context `{Libm}.

(** The relation the two loops keep: the same painter, settings that
    agree but for the point colour, and the copy's settings unchanged. *)
Definition alias_rel (g0 : Globals) (s1 s2 : PState) : Prop :=
  fst s1 = fst s2 /\ agree_but_color (snd s1) (snd s2) /\ snd s2 = g0.

Lemma paint_point_sim (cx cy : Z) (g0 : Globals) (ia : Z * Z) (s1 s2 : PState) :
  alias_rel g0 s1 s2 ->
  fst (paint_point cx cy ia s1) = fst (paint_point_copy cx cy ia s2) /\
  alias_rel g0 (snd (paint_point cx cy ia s1)) (snd (paint_point_copy cx cy ia s2)).
Proof.
  destruct s1 as [p g1], s2 as [p2 g2]. intros (Hp & Hag & Hg0). simpl in Hp, Hg0. subst p2.
  assert (Hv : point_visibility g1 = point_visibility g2) by exact (f_equal point_visibility Hag).
  assert (Hs : point_size g1 = point_size g2) by exact (f_equal point_size Hag).
  assert (Hf : point_fill g1 = point_fill g2) by exact (f_equal point_color Hag).
  destruct ia as [i a]. unfold paint_point, paint_point_copy; simp_py. rewrite Hv.
  destruct (py_getitem (point_visibility g2) i) as [[|]|e]; simp_py; [|done|done].
  destruct (clock_point cx cy a) as [[x y]|e]; simp_py; [|done].
  change (setAlpha (point_color g1) (point_opacity g1)) with (point_fill g1).
  change (setAlpha (point_color g2) (point_opacity g2)) with (point_fill g2).
  split; [done|]. unfold alias_rel; simpl. split; [|split; [|exact Hg0]].
  - by rewrite Hs, Hf.
  - unfold agree_but_color. rewrite point_fill_after. exact Hag.
Qed.
Lemma paintEvent_copy_prefix w h (p : QPainter) (g : Globals) :
  paintEvent_copy w h (p, g) =
  py_for (py_enumerate angles) (paint_point_copy (w `div` 2) (h `div` 2))
    (border_and_crosshair w h g p, g).
Proof. reflexivity. Qed.

(** The whole repaint: both loops start from the same state after the
    border and the crosshair and keep [alias_rel]. *)
Lemma render_alias_rel (o : QtOverlay) (g : Globals) :
  fst (render o g) = fst (render_copy o g) /\
  alias_rel g (QPainter_new, snd (render o g)) (QPainter_new, snd (render_copy o g)).
Proof.
  unfold render, render_copy. rewrite paintEvent_prefix, paintEvent_copy_prefix.
  set (s0 := (border_and_crosshair (ov_width o) (ov_height o) g QPainter_new, g)).
  destruct (py_for_sim (alias_rel g) _ _ (paint_point_sim (ov_width o `div` 2) (ov_height o `div` 2) g)
              (py_enumerate angles) s0 s0) as [Hres (Hp & Hag & Hg)].
  { split; [done|]. split; [done|done]. }
  destruct (py_for _ (paint_point _ _) s0) as [r1 [p1 g1]],
           (py_for _ (paint_point_copy _ _) s0) as [r2 [p2 g2]].
  simpl in *. subst r2 p2. split; [by destruct r1|]. split; [done|]. split; done.
Qed.
End AliasLemmas.

(** ** Theorems *)

Lemma render_eq (o : QtOverlay) (g : Globals) :
  length (point_visibility g) = 12%nat ->
  @render crlibm o g = (Ok (frame_spec (ov_width o) (ov_height o) g), globals_after_paint g).
Proof.
  intros Hl. unfold render. rewrite paintEvent_prefix, py_enumerate_angles.
  edestruct (paint_loop_run (ov_width o `div` 2) (ov_height o `div` 2) _
              (border_and_crosshair (ov_width o) (ov_height o) g QPainter_new) g
              (paint_loop_hyp _ _ g Hl)) as (p' & Hrun & Hdr).
  rewrite Hrun, Hdr. reflexivity.
Qed.

Lemma globals_after_paint_wf (g : Globals) :
  wf_globals g -> wf_globals (globals_after_paint g).
Proof. intros Hwf. unfold globals_after_paint. case_decide; [done|]. solve_wf. Qed.

(** Every command of the frame of well-formed settings is well typed. *)
Lemma frame_spec_ok (w h : Z) (g : Globals) :
  wf_globals g -> Forall drawcmd_ok (frame_spec w h g).
Proof.
  intros (_ & _ & Ht & Hs & Ho & _ & Hva & Hca & Hvp & Hcp).
  unfold frame_spec, frame_of_indices. apply Forall_app. split.
  - repeat apply Forall_cons_2; try apply Forall_nil_2; simpl; repeat split; auto; lia.
  - apply Forall_forall. intros cmd Hin%list_elem_of_In.
    apply list_elem_of_omap in Hin as (j & _ & Hj).
    destruct (drawn_offsets !! j) as [d|]; simplify_eq/=.
    repeat split; rewrite ?isValid_setAlpha; auto with dhon lia.
Qed.

(** Or-ing a constant below [2^31] leaves bits 31 and above alone. *)
Lemma click_through_high_bits (ex : Z) :
  Z.shiftr (make_window_click_through ex) 31 = Z.shiftr ex 31.
Proof.
  unfold make_window_click_through. apply Z.bits_inj'. intros n Hn.
  rewrite !Z.shiftr_spec, Z.lor_spec by lia.
  rewrite (Z.bits_above_log2 (Z.lor WS_EX_LAYERED WS_EX_TRANSPARENT));
    [apply orb_false_r | vm_compute; discriminate | change (Z.log2 524320 < n + 31); simpl; lia].
Qed.

(** The point colour a repaint writes is one it would draw with again. *)
Lemma point_cmd_after (g : Globals) : point_cmd (set_point_color (point_fill g) g) = point_cmd g.
Proof. unfold point_cmd, point_fill. simpl. by rewrite setAlpha_idem. Qed.

Lemma frame_spec_after_paint (w h : Z) (g : Globals) :
  frame_spec w h (globals_after_paint g) = frame_spec w h g.
Proof.
  unfold globals_after_paint. case_decide; [done|].
  change (setAlpha (point_color g) (point_opacity g)) with (point_fill g).
  unfold frame_spec, frame_of_indices. by rewrite point_cmd_after.
Qed.

Lemma globals_after_paint_idem (g : Globals) :
  globals_after_paint (globals_after_paint g) = globals_after_paint g.
Proof.
  unfold globals_after_paint at 2. case_decide as Hv; [done|].
  unfold globals_after_paint. simpl. rewrite !decide_False by done.
  change (setAlpha (setAlpha (point_color g) (point_opacity g)) (point_opacity g))
    with (point_fill (set_point_color (point_fill g) g)).
  by rewrite point_fill_after.
Qed.

(** Clearing flag [i] removes index [i] from the visible indices. *)
Lemma visible_indices_clear (vis : list bool) (i : nat) :
  visible_indices (<[i := false]> vis) = filter (fun j => j <> i) (visible_indices vis).
Proof.
  unfold visible_indices. rewrite list_filter_filter.
  apply list_filter_iff. intros j. destruct (decide (j = i)) as [->|Hne].
  - destruct (decide (i < length vis)%nat).
    + rewrite list_lookup_insert_eq by done. naive_solver.
    + rewrite list_insert_ge by lia. rewrite lookup_ge_None_2 by lia. naive_solver.
  - rewrite list_lookup_insert_ne by done. naive_solver.
Qed.

(** C1: a repaint of the overlay, for any settings with twelve
    visibility flags, raises no exception, draws exactly [frame_spec]
    (border, crosshair, the ellipses of the visible points in index
    order) and leaves the globals as [globals_after_paint] says. *)
Theorem paintEvent_refines (o : QtOverlay) (g : Globals) :
  length (point_visibility g) = 12%nat ->
  @render crlibm o g = (Ok (frame_spec (ov_width o) (ov_height o) g), globals_after_paint g).
Proof.
  apply render_eq.
Qed.

(** C12: the aliasing in the paint loop
    ([point_color_with_opacity = point_color], then [setAlpha] on it) is
    equivalent, for what is drawn, to the reference that paints with a
    copy: for every maths library and all settings, both repaints draw
    the same frame or raise the same exception.  The copy leaves the
    settings as they were; the alias changes only the point colour, to
    the fill it drew with. *)
Theorem paint_alias_equiv `{Libm} (o : QtOverlay) (g : Globals) :
  fst (render o g) = fst (render_copy o g) /\ snd (render_copy o g) = g /\
  agree_but_color (snd (render o g)) g.
Proof.
  destruct (render_alias_rel o g) as [Hres (_ & Hag & Hg)]. simpl in *.
  rewrite Hg in Hag. by split; [|split].
Qed.

(** C13: on well-formed settings a repaint succeeds and everything it
    hands to the painter is well typed for Qt: valid colours with 8-bit
    channels (the alpha Qt clamps included), pens of non-negative width,
    ellipses of positive size. *)
Theorem frame_well_typed (o : QtOverlay) (g : Globals) :
  wf_globals g -> exists fr, fst (@render crlibm o g) = Ok fr /\ Forall drawcmd_ok fr.
Proof.
  intros Hwf. pose proof Hwf as (Hl & _). rewrite render_eq by done.
  eexists; split; [reflexivity|]. by apply frame_spec_ok.
Qed.

(** C15: the style written back by [make_window_click_through] is a
    32-bit [LONG] whenever the one read is: or-ing in the two style bits
    never produces a value that [SetWindowLong] rejects. *)
Theorem click_through_int32 (ex : Z) :
  int32_range ex -> int32_range (make_window_click_through ex).
Proof.
  intros Hex. pose proof (click_through_high_bits ex) as Hh.
  rewrite !Z.shiftr_div_pow2 in Hh by lia.
  unfold int32_range in *. Z.div_mod_to_equations. lia.
Qed.

(** C14: the write through the alias is harmless for what is shown: on
    settings with twelve flags, a second repaint with nothing changed in
    between draws the same frame as the first and leaves the settings as
    the first left them. *)
Theorem repaint_stable (o : QtOverlay) (g : Globals) :
  length (point_visibility g) = 12%nat ->
  fst (@render crlibm o (snd (@render crlibm o g))) = fst (@render crlibm o g) /\
  snd (@render crlibm o (snd (@render crlibm o g))) = snd (@render crlibm o g).
Proof.
  intros Hl. rewrite (render_eq o g) by done. simpl.
  rewrite render_eq by (unfold globals_after_paint; by case_decide). simpl.
  by rewrite frame_spec_after_paint, globals_after_paint_idem.
Qed.

(** The pens and brushes of a frame: lines use the aim pen, ellipses have
    no outline and the point fill. *)
Lemma frame_spec_styles (w h : Z) (g : Globals) (cmd : DrawCmd) :
  cmd ∈ frame_spec w h g ->
  (forall p x1 y1 x2 y2, cmd = DrawLine p x1 y1 x2 y2 -> p = SolidPen (aim_color g) (aim_thickness g)) /\
  (forall p b x y ww hh, cmd = DrawEllipse p b x y ww hh -> p = NoPen /\ b = SolidBrush (point_fill g)).
Proof.
  unfold frame_spec, frame_of_indices. rewrite elem_of_app, list_elem_of_omap.
  intros [Hin | (j & _ & Hj)].
  - repeat rewrite elem_of_cons in Hin. rewrite elem_of_nil in Hin.
    split; intros *; intros ->; naive_solver.
  - destruct (drawn_offsets !! j) as [d|]; simplify_eq/=.
    split; intros *; intros Heq; unfold point_cmd in Heq; by simplify_eq.
Qed.

(** C27: switching point [i] off with its check box removes exactly
    the ellipse of point [i] from the next repaint: the frame is the one
    of the previous settings with index [i] taken out of the visible
    indices, everything else (colours, sizes, the other points) equal. *)
Theorem toggle_off_removes_point (o w w' : QtOverlay) (i : Z) (g g' : Globals) :
  wf_globals g -> 0 <= i < 12 ->
  toggle_point_visibility i false (g, w) = (Ok tt, (g', w')) ->
  fst (@render crlibm o g) = Ok (frame_of_indices (ov_width o) (ov_height o) g
                                   (visible_indices (point_visibility g))) /\
  fst (@render crlibm o g') = Ok (frame_of_indices (ov_width o) (ov_height o) g
                                    (filter (fun j => j <> Z.to_nat i) (visible_indices (point_visibility g)))).
Proof.
  intros Hwf Hi Ht. pose proof Hwf as (Hl & _).
  rewrite toggle_run in Ht by lia. injection Ht as <- <-.
  split; [by rewrite render_eq|].
  rewrite render_eq by (simpl; by rewrite length_insert).
  unfold frame_spec. cbn [fst point_visibility set_point_visibility].
  by rewrite visible_indices_clear.
Qed.

(** C28: a value [v] of the point-opacity slider becomes the alpha
    of every ellipse of the next repaint, and a value of the aim-opacity
    slider the alpha of both crosshair lines; so 0 draws them fully
    transparent and 255 fully opaque, the colour channels unchanged. *)
Theorem opacity_reaches_frame (o w : QtOverlay) (g : Globals) (v : Z) :
  wf_globals g -> 0 <= v <= 255 ->
  (forall g1 w1 fr g2, change_point_opacity v (g, w) = (Ok tt, (g1, w1)) ->
     @render crlibm o g1 = (Ok fr, g2) ->
     forall cmd p b x y ww hh, cmd ∈ fr -> cmd = DrawEllipse p b x y ww hh ->
       b = SolidBrush (setAlpha (point_color g) v) /\ alpha (setAlpha (point_color g) v) = v) /\
  (forall g1 w1 fr g2, change_aim_opacity v (g, w) = (Ok tt, (g1, w1)) ->
     @render crlibm o g1 = (Ok fr, g2) ->
     forall cmd p x1 y1 x2 y2, cmd ∈ fr -> cmd = DrawLine p x1 y1 x2 y2 ->
       p = SolidPen (setAlpha (aim_color g) v) (aim_thickness g) /\
       alpha (setAlpha (aim_color g) v) = v).
Proof.
  intros Hwf Hv. pose proof Hwf as (Hl & _ & _ & _ & _ & _ & Hav & _ & Hpv & _).
  split; intros g1 w1 fr g2 Hh Hr cmd *; intros Hin ->;
    injection Hh as <- <-; rewrite render_eq in Hr by done; injection Hr as <- <-;
    apply frame_spec_styles in Hin as [Hline Hell].
  - destruct (Hell _ _ _ _ _ _ eq_refl) as [_ ->].
    split; [done|]. rewrite alpha_setAlpha by done. by apply clamp8_id.
  - rewrite (Hline _ _ _ _ _ eq_refl).
    split; [done|]. rewrite alpha_setAlpha by done. by apply clamp8_id.
Qed.

Lemma click_through_set (ex0 : Z) :
  Z.testbit (make_window_click_through ex0) 19 = true /\
  Z.testbit (make_window_click_through ex0) 5 = true /\
  (forall n, Z.testbit ex0 n = true -> Z.testbit (make_window_click_through ex0) n = true).
Proof.
  unfold make_window_click_through.
  split; [|split]; [rewrite Z.lor_spec; apply orb_true_r..|].
  intros n Hn. by rewrite Z.lor_spec, Hn.
Qed.

(** C37: the constructor sets [WS_EX_LAYERED] (bit 19) and
    [WS_EX_TRANSPARENT] (bit 5) of the window's extended style and keeps
    every bit that was already set. *)
Theorem click_through_bits (x y w h ex0 : Z) :
  Z.testbit (ex_style (PyQtOverlayWithAim_init x y w h ex0)) 19 = true /\
  Z.testbit (ex_style (PyQtOverlayWithAim_init x y w h ex0)) 5 = true /\
  (forall n, Z.testbit ex0 n = true -> Z.testbit (ex_style (PyQtOverlayWithAim_init x y w h ex0)) n = true).
Proof.
  apply click_through_set.
Qed.

(** ** Witnesses *)

(** The overlay of the rectangle (100, 100, 400, 300). *)
Definition demo_overlay : QtOverlay := ov_show (PyQtOverlayWithAim_init 100 100 300 200 0).

Lemma paintEvent_refines_witness :
  @render crlibm demo_overlay init_globals =
    (Ok (frame_spec (ov_width demo_overlay) (ov_height demo_overlay) init_globals),
     globals_after_paint init_globals).
Proof. apply paintEvent_refines. reflexivity. Defined.

Lemma toggle_off_removes_point_witness :
  fst (@render crlibm demo_overlay init_globals) =
    Ok (frame_of_indices 300 200 init_globals (visible_indices (point_visibility init_globals))) /\
  fst (@render crlibm demo_overlay
         (set_point_visibility (<[3%nat := false]> (point_visibility init_globals)) init_globals)) =
    Ok (frame_of_indices 300 200 init_globals
          (filter (fun j => j <> Z.to_nat 3) (visible_indices (point_visibility init_globals)))).
Proof.
  apply (toggle_off_removes_point demo_overlay demo_overlay (update demo_overlay) 3);
    [repeat split; simpl; lia | lia | reflexivity].
Defined.

Lemma opacity_reaches_frame_witness :
  (forall g1 w1 fr g2, change_point_opacity 0 (init_globals, demo_overlay) = (Ok tt, (g1, w1)) ->
     @render crlibm demo_overlay g1 = (Ok fr, g2) ->
     forall cmd p b x y ww hh, cmd ∈ fr -> cmd = DrawEllipse p b x y ww hh ->
       b = SolidBrush (setAlpha (point_color init_globals) 0) /\
       alpha (setAlpha (point_color init_globals) 0) = 0) /\
  (forall g1 w1 fr g2, change_aim_opacity 0 (init_globals, demo_overlay) = (Ok tt, (g1, w1)) ->
     @render crlibm demo_overlay g1 = (Ok fr, g2) ->
     forall cmd p x1 y1 x2 y2, cmd ∈ fr -> cmd = DrawLine p x1 y1 x2 y2 ->
       p = SolidPen (setAlpha (aim_color init_globals) 0) (aim_thickness init_globals) /\
       alpha (setAlpha (aim_color init_globals) 0) = 0).
Proof. apply opacity_reaches_frame; [repeat split; simpl; lia | lia]. Defined.

Lemma frame_well_typed_witness :
  exists fr, fst (@render crlibm demo_overlay init_globals) = Ok fr /\ Forall drawcmd_ok fr.
Proof. apply frame_well_typed. apply init_globals_wf. Defined.

Lemma click_through_int32_witness :
  int32_range (- 2 ^ 31) /\ int32_range (make_window_click_through (- 2 ^ 31)).
Proof. split; [unfold int32_range; lia | apply click_through_int32; unfold int32_range; lia]. Defined.

Lemma repaint_stable_witness :
  length (point_visibility init_globals) = 12%nat /\
  fst (@render crlibm demo_overlay (snd (@render crlibm demo_overlay init_globals))) =
    fst (@render crlibm demo_overlay init_globals) /\
  snd (@render crlibm demo_overlay (snd (@render crlibm demo_overlay init_globals))) =
    snd (@render crlibm demo_overlay init_globals).
Proof. split; [reflexivity | apply repaint_stable; reflexivity]. Defined.
