(* ===== verification/Picker.v ===== *)
(** * The hover picker (src/dhonvtool.py, lines 24-29 and 287-335)

    [draw_window_border] creates a topmost Tk window [overlay] with a
    canvas, then polls: [update_hover] reads the pointer, asks
    [WindowFromPoint] for the window under it and, when that window
    differs from the one tracked in [hover_hwnd], moves the Tk window onto
    the new window's rectangle and draws a blue outline; it re-arms a
    50 ms timer while [update_running] holds.  [on_click] clears
    [update_running], stores the tracked window's rectangle in the global
    [selected_rect] and destroys the Tk window.

    The window manager is the interface [WindowManager] ([WindowFromPoint]
    and [GetWindowRect] for the other windows of a desktop that does not
    change during the selection).  The picker's own Tk window is topmost
    and not transparent to [WindowFromPoint]: once placed it is the window
    under any pointer inside it; [tracker_hwnd] is its handle. *)

From Stdlib Require Import ZArith Lia String.
From stdpp Require Import base list decidable strings.
From S2P Require Import Prelude QtModel Settings TkGeometry.

Open Scope Z_scope.
Local Open Scope py_scope.

(** ** The window manager *)

Class WindowManager := {
  (** [win32gui.WindowFromPoint((x, y))]: 0 when there is no window. *)
  WindowFromPoint : Z * Z -> Z;
  (** [win32gui.GetWindowRect(hwnd)]; [None] when the call raises. *)
  GetWindowRect : Z -> option Rect;
  (** Windows never reports a rectangle with a negative size. *)
  GetWindowRect_wf : forall h r, GetWindowRect h = Some r -> left r <= right r /\ top r <= bottom r
}.

(** Windows' point-in-rectangle test: left and top inclusive. *)
Definition in_rect (r : Rect) (pt : Z * Z) : bool :=
  (left r <=? fst pt) && (fst pt <? right r) && (top r <=? snd pt) && (snd pt <? bottom r).

(** ** The picker's state *)

(** An item of the Tk canvas: [create_rectangle(x1, y1, x2, y2,
    outline=..., width=...)]. *)
Inductive CanvasItem : Type :=
| CanvasRect (x1 y1 x2 y2 : Z) (outline : string) (width : Z).

#[export] Instance CanvasItem_eq_dec : EqDecision CanvasItem.
Proof. solve_decision. Defined.

Record Picker : Type := mkPicker {
  hover_hwnd : option Z;        (** [None] before the first poll *)
  update_running : bool;
  tk_exists : bool;             (** [overlay.winfo_exists()] *)
  tk_geometry : option Rect;    (** the last [overlay.geometry(...)] *)
  canvas_items : list CanvasItem;
  after_pending : bool;         (** an [overlay.after(50, ...)] is armed *)
  draw_count : nat              (** ghost: calls of [create_rectangle] *)
}.

Definition set_hover (h : option Z) (p : Picker) : Picker :=
  mkPicker h (update_running p) (tk_exists p) (tk_geometry p) (canvas_items p) (after_pending p) (draw_count p).
Definition set_running (b : bool) (p : Picker) : Picker :=
  mkPicker (hover_hwnd p) b (tk_exists p) (tk_geometry p) (canvas_items p) (after_pending p) (draw_count p).
Definition set_exists (b : bool) (p : Picker) : Picker :=
  mkPicker (hover_hwnd p) (update_running p) b (tk_geometry p) (canvas_items p) (after_pending p) (draw_count p).
Definition set_geometry (r : Rect) (p : Picker) : Picker :=
  mkPicker (hover_hwnd p) (update_running p) (tk_exists p) (Some r) (canvas_items p) (after_pending p) (draw_count p).
Definition set_canvas (l : list CanvasItem) (p : Picker) : Picker :=
  mkPicker (hover_hwnd p) (update_running p) (tk_exists p) (tk_geometry p) l (after_pending p) (draw_count p).
Definition count_draw (p : Picker) : Picker :=
  mkPicker (hover_hwnd p) (update_running p) (tk_exists p) (tk_geometry p) (canvas_items p)
    (after_pending p) (S (draw_count p)).
Definition set_after (b : bool) (p : Picker) : Picker :=
  mkPicker (hover_hwnd p) (update_running p) (tk_exists p) (tk_geometry p) (canvas_items p) b (draw_count p).

(** The outline drawn for a window rectangle (line 315). *)
Definition highlight (r : Rect) : CanvasItem :=
  CanvasRect 0 0 (right r - left r) (bottom r - top r) "blue" 3.

Section PickerOps.
Context `{WindowManager}.
Variable tracker_hwnd : Z.

(** The window under the pointer, the picker's own window included. *)
Definition window_under (p : Picker) (pt : Z * Z) : Z :=
  match tk_geometry p with
  | Some r => if tk_exists p && in_rect r pt then tracker_hwnd else WindowFromPoint pt
  | None => WindowFromPoint pt
  end.

(** [get_window_rect(hwnd)], lines 24-29: the exception of
    [GetWindowRect] is printed and turned into [None]. *)
Definition get_window_rect (p : Picker) (hwnd : Z) : option Rect :=
  if Z.eqb hwnd tracker_hwnd then (if tk_exists p then tk_geometry p else None)
  else GetWindowRect hwnd.

(** [overlay.geometry(f"{right - left}x{bottom - top}+{left}+{top}")],
    line 313: the string Python formats, as Tk applies it ([TclError] on
    a bad specifier). *)
Definition tk_set_geometry (r : Rect) : PyM Picker unit :=
  match tk_geometry_rect (geometry_string (right r - left r) (bottom r - top r) (left r) (top r)) with
  | Raise e => py_raise e
  | Ok (Some r') => py_modify (set_geometry r')
  | Ok None => py_ret tt
  end.

(** The body of [update_hover] inside its [try], lines 303-318, once
    [WindowFromPoint] has answered [hwnd]. *)
Definition update_hover_hwnd (hwnd : Z) : PyM Picker unit :=
  p <- py_get ;;
  (if decide (Some hwnd <> hover_hwnd p) then
     py_modify (set_hover (Some hwnd)) ;;
     p <- py_get ;;
     match get_window_rect p hwnd with
     | Some r =>
         tk_set_geometry r ;;
         py_modify (set_canvas []) ;;
         py_modify (fun p => count_draw (set_canvas [highlight r] p))
     | None => py_ret tt
     end
   else py_ret tt) ;;
  p <- py_get ;;
  if update_running p then py_modify (set_after true) else py_ret tt.

Definition update_hover_body (pt : Z * Z) : PyM Picker unit :=
  p <- py_get ;;
  if negb (update_running p) || negb (tk_exists p) then py_ret tt
  else update_hover_hwnd (window_under p pt).

(** [update_hover()], lines 300-320: any exception is printed and
    ends the polling (the re-arming is inside the [try]). *)
Definition update_hover (pt : Z * Z) : PyM Picker unit :=
  py_try (update_hover_body pt) (fun _ => py_ret tt).

(** The armed 50 ms timer fires: the callback is consumed and runs. *)
Definition timer_fire (pt : Z * Z) : PyM Picker unit :=
  py_modify (set_after false) ;; update_hover pt.

(** [draw_window_border()] up to [mainloop], lines 287-334: a fresh Tk
    window and canvas, then a first direct call of [update_hover]. *)
Definition picker_fresh : Picker := mkPicker None true true None [] false 0.

Definition draw_window_border_start (pt : Z * Z) : Picker :=
  snd (update_hover pt picker_fresh).

(** [if hover_hwnd:] on [None] or a handle. *)
Definition hwnd_truthy (h : option Z) : bool :=
  match h with Some x => negb (Z.eqb x 0) | None => false end.

(** [on_click(event)], lines 322-330 (the call of
    [create_red_border_with_buttons] on line 331 is in [App.v]). *)
Definition on_click : PyM (Picker * Globals) unit :=
  py_modify (fun '(p, g) => (set_running false p, g)) ;;
  s <- py_get ;;
  let '(p, g) := s in
  (match hover_hwnd p with
   | Some h =>
       if hwnd_truthy (Some h) then
         match get_window_rect p h with
         | Some r => py_put (p, set_selected_rect (Some r) g)
         | None => py_ret tt
         end
       else py_ret tt
   | None => py_ret tt
   end) ;;
  py_modify (fun '(p, g) => (set_exists false p, g)).
End PickerOps.

(** ** Polling as a sequence of ticks *)

Section Polling.
Context `{WindowManager}.
Variable tracker_hwnd : Z.

(** One tick whose pointer resolves to [hwnd]: the timer callback is
    consumed and [update_hover] runs with that answer. *)
Definition tick_hwnd (hwnd : Z) (p : Picker) : Picker :=
  snd (py_try (fun p => if negb (update_running p) || negb (tk_exists p) then (Ok tt, p)
                        else update_hover_hwnd tracker_hwnd hwnd p)
              (fun _ => py_ret tt) (set_after false p)).

(** The ticks of a trace of answers of [WindowFromPoint]. *)
Fixpoint poll_hwnds (l : list Z) (p : Picker) : Picker :=
  match l with
  | [] => p
  | h :: l' => poll_hwnds l' (tick_hwnd h p)
  end.

(** The abstract count: a redraw for each answer that differs from the
    previous one (initially the tracked handle) and has a rectangle. *)
Fixpoint transitions (prev : option Z) (l : list Z) : nat :=
  match l with
  | [] => 0%nat
  | h :: l' =>
      ((if decide (Some h <> prev) then match GetWindowRect h with Some _ => 1 | None => 0 end else 0)
       + transitions (Some h) l')%nat
  end.

(** Which pickers a selection session goes through. *)
Inductive picker_reach : Picker -> Prop :=
| reach_start pt : picker_reach (draw_window_border_start tracker_hwnd pt)
| reach_tick p pt : picker_reach p -> after_pending p = true ->
    picker_reach (snd (timer_fire tracker_hwnd pt p)).

(** The highlight invariant: the canvas shows the Tk window's geometry,
    and a tracked window that has a rectangle is the one highlighted. *)
Definition highlight_inv (p : Picker) : Prop :=
  update_running p = true /\ tk_exists p = true /\
  (forall r, tk_geometry p = Some r -> canvas_items p = [highlight r] /\
                                       left r <= right r /\ top r <= bottom r) /\
  (tk_geometry p = None -> canvas_items p = []) /\
  (forall h r, hover_hwnd p = Some h -> get_window_rect tracker_hwnd p h = Some r ->
               tk_geometry p = Some r).
End Polling.

(** ** Lemmas *)

(** Re-arming the timer at the end of [update_hover]. *)
Definition rearm (p : Picker) : Picker := if update_running p then set_after true p else p.

Section PickerLemmas.
Context `{WindowManager}.
Variable tracker_hwnd : Z.

(** The Tk window lands on the rectangle whose size and corner were
    formatted into the string; a negative size is a [TclError]. *)
Lemma tk_set_geometry_eq (r : Rect) :
  tk_set_geometry r =
    if (right r - left r <? 0) || (bottom r - top r <? 0) then py_raise TclError
    else py_modify (set_geometry r).
Proof.
  unfold tk_set_geometry. rewrite tk_geometry_rect_string.
  destruct (_ || _); [reflexivity|]. destruct r as [l t rr b]. simpl. repeat f_equal; lia.
Qed.

Lemma update_hover_hwnd_same (p : Picker) (h : Z) :
  hover_hwnd p = Some h -> update_hover_hwnd tracker_hwnd h p = (Ok tt, rearm p).
Proof.
  intros Hh. unfold update_hover_hwnd; simp_py.
  case_decide as Hn; [by rewrite Hh in Hn|]. simp_py. unfold rearm. by destruct (update_running p).
Qed.

Lemma update_hover_hwnd_new (p : Picker) (h : Z) (r : Rect) :
  hover_hwnd p <> Some h ->
  get_window_rect tracker_hwnd (set_hover (Some h) p) h = Some r ->
  left r <= right r -> top r <= bottom r ->
  update_hover_hwnd tracker_hwnd h p =
    (Ok tt, rearm (count_draw (set_canvas [highlight r] (set_geometry r (set_hover (Some h) p))))).
Proof.
  intros Hh Hr Hlr Htb. unfold update_hover_hwnd; simp_py.
  case_decide as Hn; [|congruence]. simp_py. rewrite Hr, tk_set_geometry_eq.
  destruct (Z.ltb_spec (right r - left r) 0); [lia|].
  destruct (Z.ltb_spec (bottom r - top r) 0); [lia|]. simp_py.
  unfold rearm. simpl. by destruct (update_running p).
Qed.

Lemma update_hover_hwnd_norect (p : Picker) (h : Z) :
  hover_hwnd p <> Some h ->
  get_window_rect tracker_hwnd (set_hover (Some h) p) h = None ->
  update_hover_hwnd tracker_hwnd h p = (Ok tt, rearm (set_hover (Some h) p)).
Proof.
  intros Hh Hr. unfold update_hover_hwnd; simp_py.
  case_decide as Hn; [|congruence]. simp_py. rewrite Hr. simp_py.
  unfold rearm. simpl. by destruct (update_running p).
Qed.

(** A tick of a live picker is [update_hover_hwnd] of the answer. *)
Lemma tick_hwnd_live (p : Picker) (h : Z) :
  update_running p = true -> tk_exists p = true ->
  tick_hwnd tracker_hwnd h p = snd (py_try (update_hover_hwnd tracker_hwnd h) (fun _ => py_ret tt)
                                       (set_after false p)).
Proof. intros Hr He. unfold tick_hwnd, py_try. simpl. by rewrite Hr, He. Qed.

Lemma get_window_rect_other (p : Picker) (h : Z) :
  h <> tracker_hwnd -> get_window_rect tracker_hwnd p h = GetWindowRect h.
Proof. intros Hne. unfold get_window_rect. by rewrite (proj2 (Z.eqb_neq _ _) Hne). Qed.
End PickerLemmas.

Section TraceLemmas.
Context `{WindowManager}.
Variable tracker_hwnd : Z.

(** A tick on an answer other than the picker's own window: the answer
    becomes the tracked handle and one outline is drawn exactly when it
    is new and has a rectangle. *)
Lemma tick_hwnd_effect (p : Picker) (h : Z) :
  update_running p = true -> tk_exists p = true -> h <> tracker_hwnd ->
  hover_hwnd (tick_hwnd tracker_hwnd h p) = Some h /\
  update_running (tick_hwnd tracker_hwnd h p) = true /\
  tk_exists (tick_hwnd tracker_hwnd h p) = true /\
  draw_count (tick_hwnd tracker_hwnd h p) =
    (draw_count p + if decide (Some h <> hover_hwnd p)
                    then match GetWindowRect h with Some _ => 1 | None => 0 end else 0)%nat.
Proof.
  intros Hr He Ht. rewrite tick_hwnd_live by done. unfold py_try.
  destruct (decide (Some h <> hover_hwnd p)) as [Hn|Hn].
  - assert (Hn' : hover_hwnd (set_after false p) <> Some h) by (simpl; congruence).
    destruct (GetWindowRect h) as [r|] eqn:Hg.
    + destruct (GetWindowRect_wf h r Hg) as [Hlr Htb].
      rewrite (update_hover_hwnd_new _ _ _ r Hn') by (by rewrite ?get_window_rect_other).
      unfold rearm. simpl. rewrite Hr. simpl. rewrite Hr, He. repeat split; lia.
    + rewrite update_hover_hwnd_norect by (by rewrite ?get_window_rect_other).
      unfold rearm. simpl. rewrite Hr. simpl. rewrite Hr, He. repeat split; lia.
  - assert (Hh : hover_hwnd p = Some h)
      by (destruct (decide (hover_hwnd p = Some h)); [done|exfalso; apply Hn; congruence]).
    rewrite update_hover_hwnd_same by (simpl; done). unfold rearm. simpl. rewrite Hr. simpl.
    rewrite Hr, He, Hh. repeat split; lia.
Qed.
End TraceLemmas.

Section InvariantLemmas.
Context `{WindowManager}.
Variable tracker_hwnd : Z.
(** The picker's handle is not one of the desktop's other windows. *)
Hypothesis tracker_fresh : forall pt, WindowFromPoint pt <> tracker_hwnd.

Lemma highlight_inv_set_after (p : Picker) (b : bool) :
  highlight_inv tracker_hwnd p -> highlight_inv tracker_hwnd (set_after b p).
Proof. done. Qed.

Lemma highlight_inv_rearm (p : Picker) :
  highlight_inv tracker_hwnd p -> highlight_inv tracker_hwnd (rearm p).
Proof. unfold rearm. by destruct (update_running p). Qed.

(** [update_hover_hwnd] keeps the invariant when the picker's own handle
    is only answered for a pointer inside the placed Tk window. *)
Lemma rearm_after (q : Picker) : update_running q = true -> after_pending (rearm q) = true.
Proof. unfold rearm. intros ->. reflexivity. Qed.

Lemma update_hover_hwnd_inv (p : Picker) (h : Z) :
  highlight_inv tracker_hwnd p -> (h = tracker_hwnd -> tk_geometry p <> None) ->
  exists p', update_hover_hwnd tracker_hwnd h p = (Ok tt, p') /\ highlight_inv tracker_hwnd p' /\
             after_pending p' = true.
Proof.
  intros Hi Ht. pose proof Hi as (Hr & He & Hg & Hn & Hh).
  destruct (decide (hover_hwnd p = Some h)) as [Hs|Hs].
  { rewrite update_hover_hwnd_same by done. eexists; split; [done|].
    split; [by apply highlight_inv_rearm|by apply rearm_after]. }
  destruct (get_window_rect tracker_hwnd (set_hover (Some h) p) h) as [r|] eqn:Hgr.
  - assert (Hwf : left r <= right r /\ top r <= bottom r).
    { unfold get_window_rect in Hgr. simpl in Hgr. case_match.
      - rewrite He in Hgr. by apply Hg.
      - by apply (GetWindowRect_wf h). }
    rewrite (update_hover_hwnd_new _ _ _ r) by (done || lia).
    eexists; split; [done|]. split; [|by apply rearm_after]. apply highlight_inv_rearm.
    repeat split; simpl; try done; intros; simpl in *; simplify_eq; try done; try lia.
    unfold get_window_rect in *. simpl in *. rewrite He in *. case_match; congruence.
  - rewrite update_hover_hwnd_norect by done.
    eexists; split; [done|]. split; [|by apply rearm_after]. apply highlight_inv_rearm.
    split; [done|]. split; [done|]. split; [exact Hg|]. split; [exact Hn|].
    intros h' r' [= <-]. unfold get_window_rect in *. simpl in *. congruence.
Qed.

(** On a picker in the invariant, the body of [update_hover] (lines
    303-318) runs to its end: nothing reaches the [except] of line 319. *)
Lemma update_hover_body_ok (p : Picker) (pt : Z * Z) :
  highlight_inv tracker_hwnd p ->
  exists p', update_hover_body tracker_hwnd pt p = (Ok tt, p') /\ highlight_inv tracker_hwnd p' /\
             after_pending p' = true.
Proof.
  intros Hi. pose proof Hi as (Hr & He & _).
  unfold update_hover_body, py_bind, py_get. rewrite Hr, He. simpl.
  apply update_hover_hwnd_inv; [done|].
  unfold window_under. intros Hw. destruct (tk_geometry p); [done|].
  by apply tracker_fresh in Hw.
Qed.

Lemma update_hover_inv (p : Picker) (pt : Z * Z) :
  highlight_inv tracker_hwnd p -> highlight_inv tracker_hwnd (snd (update_hover tracker_hwnd pt p)).
Proof.
  intros Hi. destruct (update_hover_body_ok p pt Hi) as (p' & Hb & Hi' & _).
  unfold update_hover, py_try. by rewrite Hb.
Qed.

(** A poll of a picker in the invariant re-arms the timer. *)
Lemma update_hover_polls (p : Picker) (pt : Z * Z) :
  highlight_inv tracker_hwnd p -> after_pending (snd (update_hover tracker_hwnd pt p)) = true.
Proof.
  intros Hi. destruct (update_hover_body_ok p pt Hi) as (p' & Hb & _ & Ha).
  unfold update_hover, py_try. by rewrite Hb.
Qed.

(** Every state of a selection session satisfies the invariant. *)
Lemma picker_reach_inv (p : Picker) :
  picker_reach tracker_hwnd p -> highlight_inv tracker_hwnd p.
Proof.
  induction 1 as [pt|p pt Hreach IH Ha].
  - apply update_hover_inv. by repeat split.
  - unfold timer_fire, py_bind, py_modify. apply update_hover_inv. by apply highlight_inv_set_after.
Qed.
(** The polling never stalls: every state of a selection session has
    its 50 ms timer armed. *)
Lemma picker_reach_after (p : Picker) :
  picker_reach tracker_hwnd p -> after_pending p = true.
Proof.
  destruct 1 as [pt|p pt Hreach Ha].
  - apply update_hover_polls. by repeat split.
  - unfold timer_fire, py_bind, py_modify. apply update_hover_polls.
    by apply highlight_inv_set_after, picker_reach_inv.
Qed.
End InvariantLemmas.

Section ClickLemmas.
Context `{WindowManager}.
Variable tracker_hwnd : Z.

(** The global after a click: the tracked window's rectangle when the
    handle is truthy and [GetWindowRect] answers, the old value
    otherwise. *)
Definition click_selection (p : Picker) (g : Globals) : Globals :=
  match hover_hwnd p with
  | Some h =>
      if hwnd_truthy (Some h) then
        match get_window_rect tracker_hwnd p h with
        | Some r => set_selected_rect (Some r) g
        | None => g
        end
      else g
  | None => g
  end.

Lemma on_click_run (p : Picker) (g : Globals) :
  on_click tracker_hwnd (p, g) =
    (Ok tt, (set_exists false (set_running false p), click_selection p g)).
Proof.
  unfold on_click, click_selection; simp_py.
  destruct (hover_hwnd p) as [h|]; simp_py; [|done].
  destruct (negb (h =? 0)); simp_py; [|done].
  change (get_window_rect tracker_hwnd (set_running false p) h) with (get_window_rect tracker_hwnd p h).
  by destruct (get_window_rect tracker_hwnd p h).
Qed.

Lemma update_hover_live (p : Picker) (pt : Z * Z) :
  update_running p = true -> tk_exists p = true ->
  update_hover tracker_hwnd pt p =
    py_try (update_hover_hwnd tracker_hwnd (window_under tracker_hwnd p pt)) (fun _ => py_ret tt) p.
Proof. intros Hr He. unfold update_hover, update_hover_body, py_try, py_bind, py_get. by rewrite Hr, He. Qed.

Lemma window_under_inside (p : Picker) (r : Rect) (pt : Z * Z) :
  tk_exists p = true -> tk_geometry p = Some r -> in_rect r pt = true ->
  window_under tracker_hwnd p pt = tracker_hwnd.
Proof. intros He Hg Hin. unfold window_under. by rewrite Hg, He, Hin. Qed.

Lemma timer_fire_inside_new (p : Picker) (r : Rect) (pt : Z * Z) :
  highlight_inv tracker_hwnd p -> tk_geometry p = Some r -> in_rect r pt = true ->
  hover_hwnd p <> Some tracker_hwnd ->
  snd (timer_fire tracker_hwnd pt p) =
    set_after true (count_draw (set_canvas [highlight r]
      (set_geometry r (set_hover (Some tracker_hwnd) (set_after false p))))).
Proof.
  intros (Hr & He & Hg & _) Hgeo Hin Hh. destruct (Hg r Hgeo) as (_ & Hlr & Htb).
  unfold timer_fire, py_bind at 1, py_modify at 1.
  rewrite update_hover_live, (window_under_inside _ r) by done. unfold py_try.
  rewrite (update_hover_hwnd_new _ _ _ r) by
    (done || unfold get_window_rect; simpl; by rewrite Z.eqb_refl, He, Hgeo).
  unfold rearm. simpl. by rewrite Hr.
Qed.

Lemma timer_fire_inside_same (p : Picker) (r : Rect) (pt : Z * Z) :
  update_running p = true -> tk_exists p = true -> tk_geometry p = Some r ->
  in_rect r pt = true -> hover_hwnd p = Some tracker_hwnd ->
  snd (timer_fire tracker_hwnd pt p) = set_after true (set_after false p).
Proof.
  intros Hr He Hgeo Hin Hh. unfold timer_fire, py_bind at 1, py_modify at 1.
  rewrite update_hover_live, (window_under_inside _ r) by done. unfold py_try.
  rewrite update_hover_hwnd_same by done. unfold rearm. simpl. by rewrite Hr.
Qed.

(** A tick whose pointer is over a window [A] other than the picker's,
    not yet tracked and with a rectangle: the picker moves onto it. *)
Lemma timer_fire_new (p : Picker) (A : Z) (r : Rect) (pt : Z * Z) :
  highlight_inv tracker_hwnd p -> window_under tracker_hwnd p pt = A ->
  hover_hwnd p <> Some A -> A <> tracker_hwnd -> GetWindowRect A = Some r ->
  snd (timer_fire tracker_hwnd pt p) =
    set_after true (count_draw (set_canvas [highlight r]
      (set_geometry r (set_hover (Some A) (set_after false p))))).
Proof.
  intros (Hr & He & _) Hw Hh HA Hg. destruct (GetWindowRect_wf A r Hg) as [Hlr Htb].
  unfold timer_fire, py_bind at 1, py_modify at 1. rewrite update_hover_live by done.
  change (window_under tracker_hwnd (set_after false p) pt) with (window_under tracker_hwnd p pt).
  rewrite Hw. unfold py_try.
  rewrite (update_hover_hwnd_new _ _ _ r) by (done || by rewrite get_window_rect_other).
  unfold rearm. simpl. by rewrite Hr.
Qed.
End ClickLemmas.

(** ** Liveness *)

Section Eventually.
Context `{WindowManager}.
Variable tracker_hwnd : Z.

(** [P] holds now or after some ticks of the 50 ms timer with the
    pointer resting at [pt]; a tick needs an armed timer. *)
Inductive eventually (pt : Z * Z) (P : Picker -> Prop) : Picker -> Prop :=
| eventually_now p : P p -> eventually pt P p
| eventually_tick p : after_pending p = true ->
    eventually pt P (snd (timer_fire tracker_hwnd pt p)) -> eventually pt P p.
End Eventually.

(** ** Theorems *)

Section PickerTheorems.
Context `{WindowManager}.
Variable tracker_hwnd : Z.

(** C26: over a sequence of answers of [WindowFromPoint] (other than
    the picker's own window), the picker draws one outline for each
    answer that differs from the previous one and has a rectangle, and
    none for a repeated answer. *)
Theorem poll_redraw_count (l : list Z) (p : Picker) :
  update_running p = true -> tk_exists p = true -> Forall (fun h => h <> tracker_hwnd) l ->
  draw_count (poll_hwnds tracker_hwnd l p) = (draw_count p + transitions (hover_hwnd p) l)%nat.
Proof.
  revert p. induction l as [|h l IH]; intros p Hr He Hl; simpl; [lia|].
  apply Forall_cons_1 in Hl as [Hh Hl].
  destruct (tick_hwnd_effect tracker_hwnd p h Hr He Hh) as (Hho & Hr' & He' & Hc).
  rewrite IH by done. rewrite Hc, Hho. lia.
Qed.

(** C30: after the click the polling stops: [update_running] is
    false, the Tk window is gone, and a timer callback still pending
    runs once without re-arming and without touching the picker. *)
Theorem polling_stops_after_click (p : Picker) (g : Globals) :
  let p1 := fst (snd (on_click tracker_hwnd (p, g))) in
  update_running p1 = false /\ tk_exists p1 = false /\
  forall pt, timer_fire tracker_hwnd pt p1 = (Ok tt, set_after false p1) /\
             after_pending (set_after false p1) = false.
Proof.
  rewrite on_click_run. simpl. by repeat split.
Qed.

(** C8: a click while the tracked handle is [None] or 0, or while
    [GetWindowRect] fails on it, leaves [selected_rect] as it was: on a
    second selection this is the rectangle of the first one. *)
Theorem click_without_window_keeps_selection (p : Picker) (g : Globals) :
  (hwnd_truthy (hover_hwnd p) = false \/
   exists h, hover_hwnd p = Some h /\ get_window_rect tracker_hwnd p h = None) ->
  snd (snd (on_click tracker_hwnd (p, g))) = g.
Proof.
  rewrite on_click_run. simpl. unfold click_selection.
  intros [Ht | (h & Hh & Hr)].
  - destruct (hover_hwnd p) as [h|]; [|done]. by rewrite Ht.
  - rewrite Hh, Hr. by destruct (hwnd_truthy (Some h)).
Qed.
End PickerTheorems.

Section SessionTheorems.
Context `{WindowManager}.
Variable tracker_hwnd : Z.
Hypothesis tracker_fresh : forall pt, WindowFromPoint pt <> tracker_hwnd.

(** C2: in every state of a selection session, a click on a
    tracked window that has a rectangle selects exactly the rectangle
    the picker is highlighting (its Tk window's geometry and outline). *)
Theorem click_selects_highlight (p : Picker) (g : Globals) (h : Z) (r : Rect) :
  picker_reach tracker_hwnd p -> hover_hwnd p = Some h -> h <> 0 ->
  get_window_rect tracker_hwnd p h = Some r ->
  snd (snd (on_click tracker_hwnd (p, g))) = set_selected_rect (Some r) g /\
  tk_geometry p = Some r /\ canvas_items p = [highlight r].
Proof.
  intros Hreach Hh Hz Hr.
  destruct (picker_reach_inv tracker_hwnd tracker_fresh p Hreach) as (_ & _ & Hg & _ & Hhi).
  pose proof (Hhi h r Hh Hr) as Hgeo.
  rewrite on_click_run. simpl. unfold click_selection. rewrite Hh, Hr.
  simpl. rewrite (proj2 (Z.eqb_neq h 0) Hz). simpl.
  split; [done|]. split; [done|]. apply (Hg r Hgeo).
Qed.

(** C32: once the picker's window covers the hovered window [A],
    a pointer inside it makes [WindowFromPoint] answer the picker's own
    window: the next tick tracks it and redraws the same outline, and
    later ticks with the pointer inside draw nothing. *)
Theorem tracker_captures_pointer (p : Picker) (A : Z) (r : Rect) (pt pt' : Z * Z) :
  highlight_inv tracker_hwnd p -> hover_hwnd p = Some A -> A <> tracker_hwnd ->
  tk_geometry p = Some r -> in_rect r pt = true -> in_rect r pt' = true ->
  let p1 := snd (timer_fire tracker_hwnd pt p) in
  let p2 := snd (timer_fire tracker_hwnd pt' p1) in
  hover_hwnd p1 = Some tracker_hwnd /\ tk_geometry p1 = Some r /\
  canvas_items p1 = [highlight r] /\ draw_count p1 = S (draw_count p) /\
  hover_hwnd p2 = Some tracker_hwnd /\ draw_count p2 = draw_count p1.
Proof.
  intros Hi Hh HA Hgeo Hin Hin'. pose proof Hi as (Hr & He & _).
  rewrite (timer_fire_inside_new _ _ r) by (done || congruence). simpl.
  rewrite (timer_fire_inside_same _ _ r) by done. by repeat split.
Qed.
(** C10: liveness of the hover highlight: in every state of a selection
    session, when the pointer rests over a window [A] with a rectangle
    and not over the picker's own window, the picker eventually (at the
    latest after the next tick, whose timer is always armed) tracks [A]
    and shows its outline on its rectangle. *)
Theorem hover_eventually_highlights (p : Picker) (pt : Z * Z) (r : Rect) :
  picker_reach tracker_hwnd p ->
  window_under tracker_hwnd p pt = WindowFromPoint pt ->
  GetWindowRect (WindowFromPoint pt) = Some r ->
  eventually tracker_hwnd pt
    (fun q => hover_hwnd q = Some (WindowFromPoint pt) /\ tk_geometry q = Some r /\
              canvas_items q = [highlight r]) p.
Proof.
  intros Hreach Hw Hgr. pose proof (tracker_fresh pt) as HA.
  pose proof (picker_reach_inv tracker_hwnd tracker_fresh p Hreach) as Hi.
  pose proof Hi as (Hr & He & Hg & Hn & Hhi).
  destruct (decide (hover_hwnd p = Some (WindowFromPoint pt))) as [Hh|Hh].
  - apply eventually_now. assert (Hgeo : tk_geometry p = Some r)
      by (apply (Hhi _ r Hh); by rewrite get_window_rect_other).
    split; [done|]. split; [done|]. by apply Hg.
  - apply eventually_tick; [exact (picker_reach_after tracker_hwnd tracker_fresh p Hreach)|].
    apply eventually_now. rewrite (timer_fire_new tracker_hwnd p _ r) by done. by repeat split.
Qed.
(** C19: the [except] of [update_hover] (lines 319-320) is never
    taken in a selection session: at every timer tick the body of lines
    303-318 runs to its end, [overlay.geometry] of line 313 included
    (the f-string of a window's rectangle always parses), and re-arms
    the timer, so polling never stops before the click. *)
Theorem update_hover_never_raises (p : Picker) (pt : Z * Z) :
  picker_reach tracker_hwnd p ->
  exists p', update_hover_body tracker_hwnd pt (set_after false p) = (Ok tt, p') /\
             highlight_inv tracker_hwnd p' /\ after_pending p' = true.
Proof.
  intros Hreach. apply update_hover_body_ok; [done|].
  by apply highlight_inv_set_after, (picker_reach_inv tracker_hwnd tracker_fresh).
Qed.
End SessionTheorems.

(** ** A concrete desktop

    Two windows, 10 at (100, 100, 400, 300) and 20 at (500, 100, 700,
    300); the picker's own window has handle 99. *)

Definition demo_rect10 : Rect := mkRect 100 100 400 300.
Definition demo_rect20 : Rect := mkRect 500 100 700 300.

Definition demo_window_from_point (pt : Z * Z) : Z :=
  if in_rect demo_rect10 pt then 10 else if in_rect demo_rect20 pt then 20 else 0.

Definition demo_get_window_rect (h : Z) : option Rect :=
  if Z.eqb h 10 then Some demo_rect10 else if Z.eqb h 20 then Some demo_rect20 else None.

Lemma demo_get_window_rect_wf (h : Z) (r : Rect) :
  demo_get_window_rect h = Some r -> left r <= right r /\ top r <= bottom r.
Proof. unfold demo_get_window_rect. intros Hr. repeat case_match; simplify_eq; simpl; lia. Qed.

#[export] Instance demo_wm : WindowManager := {|
  WindowFromPoint := demo_window_from_point;
  GetWindowRect := demo_get_window_rect;
  GetWindowRect_wf := demo_get_window_rect_wf
|}.

Lemma demo_tracker_fresh (pt : Z * Z) : WindowFromPoint pt <> 99.
Proof. simpl. unfold demo_window_from_point. repeat case_match; discriminate. Qed.

(** ** Witnesses *)

Lemma poll_redraw_count_witness :
  draw_count (poll_hwnds 99 [10; 10; 20; 20; 10] (picker_fresh)) = 3%nat.
Proof.
  rewrite (poll_redraw_count 99 [10; 10; 20; 20; 10] picker_fresh);
    [reflexivity | reflexivity | reflexivity | repeat constructor; discriminate].
Defined.

Lemma click_selects_highlight_witness :
  snd (snd (on_click 99 (draw_window_border_start 99 (150, 150), init_globals))) =
    set_selected_rect (Some demo_rect10) init_globals /\
  tk_geometry (draw_window_border_start 99 (150, 150)) = Some demo_rect10 /\
  canvas_items (draw_window_border_start 99 (150, 150)) = [highlight demo_rect10].
Proof.
  apply (click_selects_highlight 99 demo_tracker_fresh _ _ 10);
    [constructor | reflexivity | discriminate | reflexivity].
Defined.

Lemma click_without_window_keeps_selection_witness :
  snd (snd (on_click 99 (draw_window_border_start 99 (0, 0),
                         set_selected_rect (Some demo_rect20) init_globals))) =
    set_selected_rect (Some demo_rect20) init_globals.
Proof. apply click_without_window_keeps_selection. left. reflexivity. Defined.

Lemma tracker_captures_pointer_witness :
  let p := draw_window_border_start 99 (150, 150) in
  let p1 := snd (timer_fire 99 (150, 150) p) in
  let p2 := snd (timer_fire 99 (200, 200) p1) in
  hover_hwnd p1 = Some 99 /\ tk_geometry p1 = Some demo_rect10 /\
  canvas_items p1 = [highlight demo_rect10] /\ draw_count p1 = S (draw_count p) /\
  hover_hwnd p2 = Some 99 /\ draw_count p2 = draw_count p1.
Proof.
  apply (tracker_captures_pointer 99 _ 10 demo_rect10);
    [apply (picker_reach_inv 99 demo_tracker_fresh); constructor
    | reflexivity | discriminate | reflexivity | reflexivity | reflexivity].
Defined.

Lemma hover_eventually_highlights_witness :
  eventually 99 (550, 150)
    (fun q => hover_hwnd q = Some (WindowFromPoint (550, 150)) /\ tk_geometry q = Some demo_rect20 /\
              canvas_items q = [highlight demo_rect20])
    (draw_window_border_start 99 (150, 150)).
Proof.
  apply (hover_eventually_highlights 99 demo_tracker_fresh);
    [constructor | vm_compute; reflexivity | vm_compute; reflexivity].
Defined.

Lemma update_hover_never_raises_witness :
  picker_reach 99 (draw_window_border_start 99 (150, 150)) /\
  exists p', update_hover_body 99 (550, 150) (set_after false (draw_window_border_start 99 (150, 150)))
               = (Ok tt, p') /\ highlight_inv 99 p' /\ after_pending p' = true.
Proof.
  assert (Hreach : picker_reach 99 (draw_window_border_start 99 (150, 150))) by apply reach_start.
  split; [exact Hreach|].
  exact (update_hover_never_raises 99 demo_tracker_fresh _ (550, 150) Hreach).
Defined.
