(* ===== verification/App.v ===== *)
(** * The whole program (src/dhonvtool.py, lines 322-366)

    The program runs in phases: the hover picker ([draw_window_border]),
    then, after a click, the overlay with its control panel
    ([create_red_border_with_buttons]), back to the picker on "reselect"
    ([restart_selection]), and it ends when its last Tk main loop
    returns.  [App] is the program's state: the globals, the phase, and
    whether a [QApplication] object is alive (the one created on line 343
    stays referenced by the frame of [create_red_border_with_buttons],
    which never returns while the program runs: "reselect" calls
    [draw_window_border] from inside its main loop).  A later selection
    runs [QApplication([])] again while that object is alive: PyQt6's
    constructor does not check for an existing instance and release
    builds of Qt do not refuse it, so a second application object and
    a new overlay are made.  [app_step] is one event; [app_reach] the
    states a run goes through.

    A Python exception that escapes a Tk callback ([on_click]) is printed
    by Tk; since [on_click] has already destroyed the picker's window, its
    main loop returns and the program ends: the phase [Exited (Some e)].
    An exception in a Qt slot or [paintEvent] aborts the process under
    PyQt6: also [Exited (Some e)]. *)

From Stdlib Require Import ZArith Lia String.
From stdpp Require Import base list decidable strings.
From S2P Require Import Prelude QtModel Settings TkGeometry Dialogs ClockFace Overlay Picker.

Open Scope Z_scope.
Local Open Scope py_scope.

(** The Tk control panel, as the geometry Tk parsed from the string of
    line 349. *)
Definition Panel : Type := TkGeometry.

(** [f"200x100+{right + 10}+{top}"], line 349. *)
Definition panel_geometry (r : Rect) : string := geometry_string 200 100 (right r + 10) (top r).

Inductive Phase : Type :=
| Picking (p : Picker)
| Shown (ov : QtOverlay) (panel : Panel)
| Exited (error : option exn).

Record App : Type := mkApp {
  glob : Globals;
  phase : Phase;
  qapp_alive : bool;
  overlays_created : nat;           (** ghost: overlays built so far *)
  last_frame : option (list DrawCmd) (** what the overlay last painted *)
}.

(** The events of a run. *)
Inductive Event : Type :=
| ETick (pt : Z * Z)                (** the picker's 50 ms timer fires *)
| EClick                            (** a click on the picker's window *)
| EPaint                            (** Qt delivers the pending repaint *)
| ESetting (ev : SettingsEvent)     (** a settings control changes *)
| EReselect (pt : Z * Z)            (** the "reselect" button *)
| EClosePanel.                      (** the control panel is closed *)

Section Program.
Context `{WindowManager}.
Variable tracker_hwnd : Z.
(** The extended style Qt gives the overlay's native window. *)
Variable qt_ex_style : Z.

Definition set_phase (ph : Phase) (a : App) : App :=
  mkApp (glob a) ph (qapp_alive a) (overlays_created a) (last_frame a).

(** [create_red_border_with_buttons(rect)], lines 339-355. *)
Definition create_red_border_with_buttons (rect : option Rect) (a : App) : App :=
  match rect with
  | None => set_phase (Exited None) a
  | Some r =>
      (* app = QApplication([]), also while an earlier one is alive *)
      let red_border := ov_show (PyQtOverlayWithAim_init (left r) (top r)
                                  (right r - left r) (bottom r - top r) qt_ex_style) in
      (* control_window = tk.Tk(); control_window.geometry(...) *)
      match tk_parse_geometry (panel_geometry r) with
      | Some pn => mkApp (glob a) (Shown red_border pn) true (S (overlays_created a)) (last_frame a)
      | None => mkApp (glob a) (Exited (Some TclError)) true (S (overlays_created a)) (last_frame a)
      end
  end.

(** [main] (lines 365-366): [draw_window_border()] with the pointer at
    [pt]. *)
Definition app_init (pt : Z * Z) : App :=
  mkApp init_globals (Picking (draw_window_border_start tracker_hwnd pt)) false 0 None.

(** One event. [None]: the event cannot happen in this state. *)
Definition app_step (e : Event) (a : App) : option App :=
  match e, phase a with
  | ETick pt, Picking p =>
      if after_pending p then Some (set_phase (Picking (snd (timer_fire tracker_hwnd pt p))) a)
      else None
  | EClick, Picking p =>
      if tk_exists p then
        let '(p', g') := snd (on_click tracker_hwnd (p, glob a)) in
        Some (create_red_border_with_buttons (selected_rect g')
                (mkApp g' (Picking p') (qapp_alive a) (overlays_created a) (last_frame a)))
      else None
  | EPaint, Shown ov pn =>
      if paint_pending ov then
        let ov' := mkOverlay (ov_x ov) (ov_y ov) (ov_width ov) (ov_height ov)
                     (ex_style ov) (ov_visible ov) false in
        match @render crlibm ov (glob a) with
        | (Ok fr, g') => Some (mkApp g' (Shown ov' pn) (qapp_alive a) (overlays_created a) (Some fr))
        | (Raise ex, g') => Some (mkApp g' (Exited (Some ex)) (qapp_alive a) (overlays_created a) (last_frame a))
        end
      else None
  | ESetting ev, Shown ov pn =>
      match dispatch ev (glob a, ov) with
      | (Ok _, (g', ov')) => Some (mkApp g' (Shown ov' pn) (qapp_alive a) (overlays_created a) (last_frame a))
      | (Raise ex, (g', _)) => Some (mkApp g' (Exited (Some ex)) (qapp_alive a) (overlays_created a) (last_frame a))
      end
  | EReselect pt, Shown ov pn =>
      (* control_window.destroy(); red_border.close(): the overlay is
         hidden and gets no further paint; draw_window_border() *)
      Some (set_phase (Picking (draw_window_border_start tracker_hwnd pt)) a)
  | EClosePanel, Shown _ _ => Some (set_phase (Exited None) a)
  | _, _ => None
  end.

(** The events the dialogs can produce are those of their controls'
    ranges; a run is a sequence of enabled events from [app_init]. *)
Definition event_ok (e : Event) : Prop :=
  match e with ESetting ev => event_in_range ev | _ => True end.

Inductive app_reach : App -> Prop :=
| app_reach_init pt : app_reach (app_init pt)
| app_reach_step a e a' : app_reach a -> event_ok e -> app_step e a = Some a' -> app_reach a'.
End Program.

(** ** The invariant of a run *)

Section Invariant.
Context `{WindowManager}.
Variable tracker_hwnd : Z.
Variable qt_ex_style : Z.
Hypothesis tracker_fresh : forall pt, WindowFromPoint pt <> tracker_hwnd.

Definition app_inv (a : App) : Prop :=
  wf_globals (glob a) /\
  (qapp_alive a = true <-> overlays_created a <> 0%nat) /\
  (qapp_alive a = true <-> selected_rect (glob a) <> None) /\
  match phase a with
  | Picking p => picker_reach tracker_hwnd p
  | Shown ov _ => qapp_alive a = true /\ ov_visible ov = true /\
                  Z.testbit (ex_style ov) 19 = true /\ Z.testbit (ex_style ov) 5 = true
  | Exited _ => True
  end.

Lemma click_selection_wf (p : Picker) (g : Globals) :
  wf_globals g -> wf_globals (click_selection tracker_hwnd p g).
Proof. intros Hwf. unfold click_selection. repeat case_match; solve_wf. Qed.

Lemma click_selection_some (p : Picker) (g : Globals) :
  selected_rect g <> None -> selected_rect (click_selection tracker_hwnd p g) <> None.
Proof. unfold click_selection. repeat case_match; simpl; congruence. Qed.

Lemma app_inv_init (pt : Z * Z) : app_inv (app_init tracker_hwnd pt).
Proof.
  split; [apply init_globals_wf|]. simpl. split; [split; [discriminate|by intros []]|].
  split; [split; [discriminate|by intros []]|]. constructor.
Qed.

Lemma globals_after_paint_selected (g : Globals) :
  selected_rect (globals_after_paint g) = selected_rect g.
Proof. unfold globals_after_paint. by case_decide. Qed.

(** [create_red_border_with_buttons] on the globals' selection: the
    program ends, or an overlay is built with its style bits. *)
Lemma app_inv_create (b : App) :
  wf_globals (glob b) -> (qapp_alive b = true <-> overlays_created b <> 0%nat) ->
  (qapp_alive b = true -> selected_rect (glob b) <> None) ->
  app_inv (create_red_border_with_buttons qt_ex_style (selected_rect (glob b)) b).
Proof.
  intros Hwf Hq Hs. unfold create_red_border_with_buttons.
  destruct (selected_rect (glob b)) as [r|] eqn:Er.
  - destruct (click_through_set qt_ex_style) as (B19 & B5 & _).
    unfold panel_geometry. rewrite parse_geometry_ok by lia.
    split; [exact Hwf|]. cbn [qapp_alive overlays_created glob phase].
    split; [split; [lia|done]|]. split; [rewrite Er; split; [discriminate|done]|].
    cbn [ex_style ov_show PyQtOverlayWithAim_init ov_visible]. by repeat split.
  - split; [exact Hwf|]. split; [exact Hq|]. split; [|done].
    cbn [glob qapp_alive set_phase]. rewrite Er. split; [|by intros []].
    intros Hqa. by destruct (Hs Hqa).
Qed.

Lemma app_inv_step (a a' : App) (e : Event) :
  app_inv a -> event_ok e -> app_step tracker_hwnd qt_ex_style e a = Some a' -> app_inv a'.
Proof.
  intros (Hwf & Hq & Hs & Hph) He Hstep.
  destruct e as [pt| | |ev|pt|]; destruct (phase a) as [p|ov pn|err] eqn:Ep;
    simpl in Hstep; rewrite ?Ep in Hstep; try discriminate.
  - (* tick *)
    destruct (after_pending p) eqn:Ha; [|discriminate]. injection Hstep as <-.
    split; [exact Hwf|]. split; [exact Hq|]. split; [exact Hs|].
    simpl. by constructor.
  - (* click *)
    destruct (tk_exists p); [|discriminate]. rewrite on_click_run in Hstep. simpl in Hstep.
    injection Hstep as <-.
    match goal with |- app_inv (create_red_border_with_buttons _ _ ?b) => apply (app_inv_create b) end;
      cbn [glob qapp_alive overlays_created].
    + by apply click_selection_wf.
    + exact Hq.
    + intros Hqa. by apply click_selection_some, Hs.
  - (* paint *)
    destruct (paint_pending ov); [|discriminate].
    pose proof Hwf as (Hl & _).
    rewrite render_eq in Hstep by done. injection Hstep as <-.
    split; [by apply globals_after_paint_wf|]. split; [exact Hq|].
    split; [|exact Hph]. cbn [glob qapp_alive set_phase]. by rewrite globals_after_paint_selected.
  - (* settings *)
    simpl in He. destruct (dispatch_wf ev (glob a) ov Hwf He) as (g' & Hwf' & [Hd | [Hd ->]]);
      rewrite Hd in Hstep; injection Hstep as <-.
    + pose proof (dispatch_selected_rect _ _ _ _ _ _ Hd) as Hsel.
      split; [exact Hwf'|]. split; [exact Hq|].
      split; [cbn [glob qapp_alive set_phase]; by rewrite Hsel|]. cbn [phase].
      destruct Hph as (Hqa & Hv & B19 & B5). cbn [update QtOverlay_repaintable].
      rewrite Hv. by repeat split.
    + split; [exact Hwf|]. split; [exact Hq|]. split; [exact Hs|]. exact Hph.
  - (* reselect *)
    injection Hstep as <-.
    split; [exact Hwf|]. split; [exact Hq|]. split; [exact Hs|]. constructor.
  - (* close *)
    injection Hstep as <-.
    split; [exact Hwf|]. split; [exact Hq|]. split; [exact Hs|]. done.
Qed.
End Invariant.

Section RunTheorems.
Context `{WindowManager}.
Variable tracker_hwnd : Z.
Variable qt_ex_style : Z.
Hypothesis tracker_fresh : forall pt, WindowFromPoint pt <> tracker_hwnd.

Lemma app_reach_inv (a : App) :
  app_reach tracker_hwnd qt_ex_style a -> app_inv tracker_hwnd a.
Proof.
  induction 1 as [pt|a e a' _ IH Hok Hstep].
  - apply app_inv_init.
  - eapply app_inv_step; eauto.
Qed.

(** A click on a tracked window with a rectangle [r], in any selection:
    the overlay is built on [r] with its panel, [r] is selected, and one
    more application object and overlay exist. *)
Lemma click_on_window (a : App) (p : Picker) (h : Z) (r : Rect) :
  app_reach tracker_hwnd qt_ex_style a -> phase a = Picking p ->
  hover_hwnd p = Some h -> h <> 0 -> get_window_rect tracker_hwnd p h = Some r ->
  app_step tracker_hwnd qt_ex_style EClick a =
    Some (mkApp (set_selected_rect (Some r) (glob a))
                (Shown (ov_show (PyQtOverlayWithAim_init (left r) (top r)
                                   (right r - left r) (bottom r - top r) qt_ex_style))
                       (mkTkGeometry (Some (200, 100)) (Some (false, right r + 10, false, top r))))
                true (S (overlays_created a)) (last_frame a)) /\
  tk_geometry p = Some r.
Proof.
  intros Hr Hp Hh Hz Hgr. destruct (app_reach_inv a Hr) as (_ & _ & _ & Hph).
  rewrite Hp in Hph. destruct (picker_reach_inv tracker_hwnd tracker_fresh p Hph) as (_ & He & _ & _ & Hhi).
  split; [|by apply (Hhi h)].
  unfold app_step. rewrite Hp, He, on_click_run. simpl. unfold click_selection.
  rewrite Hh, Hgr. simpl. rewrite (proj2 (Z.eqb_neq h 0) Hz). simpl.
  unfold panel_geometry. by rewrite parse_geometry_ok by lia.
Qed.

(** C7: a selection after "reselect" ends like the first: a click on
    a tracked window with a rectangle [r] runs [QApplication([])] while
    the first application object is still alive, and, since PyQt6 does
    not refuse it, shows a new overlay on [r] with its panel 10 pixels
    to the right; one more overlay exists. *)
Theorem click_after_reselect_places_overlay (a : App) (p : Picker) (h : Z) (r : Rect) :
  app_reach tracker_hwnd qt_ex_style a -> phase a = Picking p -> qapp_alive a = true ->
  hover_hwnd p = Some h -> h <> 0 -> get_window_rect tracker_hwnd p h = Some r ->
  exists a', app_step tracker_hwnd qt_ex_style EClick a = Some a' /\
    phase a' = Shown (ov_show (PyQtOverlayWithAim_init (left r) (top r)
                                (right r - left r) (bottom r - top r) qt_ex_style))
                     (mkTkGeometry (Some (200, 100)) (Some (false, right r + 10, false, top r))) /\
    selected_rect (glob a') = Some r /\ qapp_alive a' = true /\
    overlays_created a' = S (overlays_created a).
Proof.
  intros Hr Hp Hq Hh Hz Hgr. destruct (click_on_window a p h r Hr Hp Hh Hz Hgr) as [-> _].
  by eexists.
Qed.

(** C4: in the first selection of a run, a click on a tracked
    window with a rectangle [r] shows the overlay exactly on [r] (the
    rectangle the picker highlights), with the control panel 10 pixels
    to the right of it, and stores [r] in [selected_rect]. *)
Theorem click_places_overlay (a : App) (p : Picker) (h : Z) (r : Rect) :
  app_reach tracker_hwnd qt_ex_style a -> phase a = Picking p -> qapp_alive a = false ->
  hover_hwnd p = Some h -> h <> 0 -> get_window_rect tracker_hwnd p h = Some r ->
  exists a', app_step tracker_hwnd qt_ex_style EClick a = Some a' /\
    phase a' = Shown (ov_show (PyQtOverlayWithAim_init (left r) (top r)
                                (right r - left r) (bottom r - top r) qt_ex_style))
                     (mkTkGeometry (Some (200, 100)) (Some (false, right r + 10, false, top r))) /\
    selected_rect (glob a') = Some r /\ tk_geometry p = Some r /\ overlays_created a' = 1%nat.
Proof.
  intros Hr Hp Hq Hh Hz Hgr. destruct (app_reach_inv a Hr) as (_ & Hqc & _ & _).
  assert (overlays_created a = 0%nat) by (destruct (Nat.eq_dec (overlays_created a) 0%nat) as [|Hne]; [done|]; apply Hqc in Hne; congruence).
  destruct (click_on_window a p h r Hr Hp Hh Hz Hgr) as [-> Hg].
  eexists; split; [reflexivity|]. simpl. repeat split; [done|lia].
Qed.

(** C31: in the first selection of a run, a click while no window is
    tracked (no handle, or handle 0) ends the program normally: no
    overlay is built and no exception is raised. *)
Theorem first_click_without_window_exits (a : App) (p : Picker) :
  app_reach tracker_hwnd qt_ex_style a -> phase a = Picking p -> qapp_alive a = false ->
  hwnd_truthy (hover_hwnd p) = false ->
  exists a', app_step tracker_hwnd qt_ex_style EClick a = Some a' /\
    phase a' = Exited None /\ overlays_created a' = 0%nat.
Proof.
  intros Hr Hp Hq Ht. destruct (app_reach_inv a Hr) as (_ & Hqc & Hs & Hph).
  rewrite Hp in Hph. destruct (picker_reach_inv tracker_hwnd tracker_fresh p Hph) as (_ & He & _).
  assert (Hsel : selected_rect (glob a) = None).
  { destruct (selected_rect (glob a)) eqn:E; [|done]. rewrite Hq in Hs. exfalso.
    assert (false = true) by (apply Hs; congruence). discriminate. }
  assert (overlays_created a = 0%nat) by (destruct (Nat.eq_dec (overlays_created a) 0%nat) as [|Hne]; [done|]; apply Hqc in Hne; congruence).
  unfold app_step. rewrite Hp, He, on_click_run. simpl. unfold click_selection.
  destruct (hover_hwnd p) as [h|]; [rewrite Ht|]; simpl; rewrite Hsel; by eexists.
Qed.

(** C29: while the overlay is shown, a settings change that alters
    the store is followed by a repaint, and that repaint draws the frame
    of the new settings. *)
Theorem setting_change_repainted (a a1 : App) (ov : QtOverlay) (pn : Panel) (ev : SettingsEvent) :
  app_reach tracker_hwnd qt_ex_style a -> phase a = Shown ov pn -> event_in_range ev ->
  app_step tracker_hwnd qt_ex_style (ESetting ev) a = Some a1 -> glob a1 <> glob a ->
  exists a2, app_step tracker_hwnd qt_ex_style EPaint a1 = Some a2 /\
    last_frame a2 = Some (frame_spec (ov_width ov) (ov_height ov) (glob a1)).
Proof.
  intros Hr Hp Hev Hstep Hne. destruct (app_reach_inv a Hr) as (Hwf & _ & _ & Hph).
  rewrite Hp in Hph. destruct Hph as (_ & Hv & _).
  unfold app_step in Hstep. rewrite Hp in Hstep.
  destruct (dispatch_wf ev (glob a) ov Hwf Hev) as (g' & Hwf' & [Hd | [Hd ->]]);
    rewrite Hd in Hstep; injection Hstep as <-; [|done].
  unfold app_step. cbn [phase update QtOverlay_repaintable]. rewrite Hv. simpl.
  pose proof Hwf' as (Hl & _). rewrite render_eq by done. by eexists.
Qed.
End RunTheorems.

(** ** The program with its settings dialogs

    [open_settings] runs [settings.exec()] inside the Tk button's
    callback: while a dialog is open, Tk's main loop is blocked there, so
    the picker and the control panel get no events; Qt's loop inside
    [exec()] keeps delivering the overlay's repaints and the dialogs'
    input.  The settings reach the handlers only through the dialogs. *)

Inductive SysEvent : Type :=
| SysApp (e : Event)             (** the picker, the Tk panel or a repaint *)
| SysDialog (inp : DialogInput). (** an input to the settings dialogs *)

(** Which events of the program can happen: settings only come from
    the dialogs, and while a dialog is open only Qt's repaints run. *)
Definition sys_app_enabled (e : Event) (st : list Dialog) : bool :=
  match e, st with
  | ESetting _, _ => false
  | EPaint, _ | _, [] => true
  | _, _ :: _ => false
  end.

Section System.
Context `{WindowManager}.
Variable tracker_hwnd : Z.
Variable qt_ex_style : Z.

Definition sys_step (e : SysEvent) (s : App * list Dialog) : option (App * list Dialog) :=
  let '(a, st) := s in
  match e with
  | SysApp e =>
      if sys_app_enabled e st
      then option_map (fun a' => (a', st)) (app_step tracker_hwnd qt_ex_style e a)
      else None
  | SysDialog inp =>
      match phase a with
      | Shown ov pn =>
          match dialog_step inp st (glob a, ov) with
          | Some (Ok _, (g', ov'), st') =>
              Some (mkApp g' (Shown ov' pn) (qapp_alive a) (overlays_created a) (last_frame a), st')
          | Some (Raise ex, (g', _), _) =>
              Some (mkApp g' (Exited (Some ex)) (qapp_alive a) (overlays_created a) (last_frame a), [])
          | None => None
          end
      | _ => None
      end
  end.

Definition sys_event_ok (e : SysEvent) : Prop :=
  match e with SysDialog inp => input_ok inp | SysApp _ => True end.

Inductive sys_reach : App * list Dialog -> Prop :=
| sys_reach_init pt : sys_reach (app_init tracker_hwnd pt, [])
| sys_reach_step s e s' : sys_reach s -> sys_event_ok e -> sys_step e s = Some s' -> sys_reach s'.

(** The dialogs are open only while the overlay is shown, and then in
    sync with the settings. *)
Definition sys_inv (s : App * list Dialog) : Prop :=
  app_reach tracker_hwnd qt_ex_style (fst s) /\
  match phase (fst s) with
  | Shown _ _ => stack_inv (glob (fst s)) (snd s)
  | Picking _ => snd s = []
  | Exited _ => True
  end.
End System.

Section SystemLemmas.
Context `{WindowManager}.
Variable tracker_hwnd : Z.
Variable qt_ex_style : Z.

(** A repaint writes only the point colour, which no dialog shows. *)
Lemma stack_inv_after_paint (g : Globals) (st : list Dialog) :
  stack_inv g st -> stack_inv (globals_after_paint g) st.
Proof.
  intros [Hwf Hst]. split; [by apply globals_after_paint_wf|].
  unfold globals_after_paint. by case_decide.
Qed.

(** A repaint happens only while the overlay is shown, keeps it shown,
    and leaves the globals as [globals_after_paint] says. *)
Lemma app_step_paint (a a' : App) :
  wf_globals (glob a) -> app_step tracker_hwnd qt_ex_style EPaint a = Some a' ->
  exists ov pn ov', phase a = Shown ov pn /\ phase a' = Shown ov' pn /\
                    glob a' = globals_after_paint (glob a).
Proof.
  intros (Hl & _) Hstep. unfold app_step in Hstep.
  destruct (phase a) as [|ov pn|] eqn:Ep; try discriminate.
  destruct (paint_pending ov); [|discriminate].
  rewrite render_eq in Hstep by done. injection Hstep as <-.
  by do 3 eexists.
Qed.

Lemma sys_inv_step (s s' : App * list Dialog) (e : SysEvent) :
  sys_inv tracker_hwnd qt_ex_style s -> sys_event_ok e ->
  sys_step tracker_hwnd qt_ex_style e s = Some s' -> sys_inv tracker_hwnd qt_ex_style s'.
Proof.
  destruct s as [a st]. intros [Hr Hph] He Hstep. cbn [fst snd] in *.
  pose proof (app_reach_inv tracker_hwnd qt_ex_style a Hr) as (Hwf & _).
  destruct e as [e|inp]; simpl in Hstep.
  - destruct (sys_app_enabled e st) eqn:En; [|discriminate].
    destruct (app_step tracker_hwnd qt_ex_style e a) as [a'|] eqn:Ea; [|discriminate].
    injection Hstep as <-.
    assert (Hr' : app_reach tracker_hwnd qt_ex_style a')
      by (apply (app_reach_step _ _ a e a' Hr); [destruct e; done|exact Ea]).
    split; [exact Hr'|]. cbn [fst snd].
    destruct st as [|d st].
    + pose proof (app_reach_inv tracker_hwnd qt_ex_style a' Hr') as (Hwf' & _).
      by destruct (phase a').
    + destruct e; try discriminate.
      destruct (app_step_paint a a' Hwf Ea) as (ov & pn & ov' & Ep & Ep' & Eg).
      rewrite Ep in Hph. rewrite Ep', Eg. by apply stack_inv_after_paint.
  - destruct (phase a) as [|ov pn|] eqn:Ep; try discriminate.
    destruct (dialog_step inp st (glob a, ov)) as [[[r [g' ov']] st']|] eqn:Ed; [|discriminate].
    destruct (dialog_step_ok inp st (glob a) ov r (g', ov') st' Hph He Ed) as (-> & Hinv' & Heff).
    injection Hstep as <-. split; [|exact Hinv'].
    destruct Heff as [E|(ev & Hev & Hd)].
    + injection E as -> ->. destruct a; simpl in Ep |- *. by rewrite <- Ep.
    + apply (app_reach_step _ _ a (ESetting ev)); [exact Hr|exact Hev|].
      unfold app_step. by rewrite Ep, Hd.
Qed.

Lemma sys_reach_inv (s : App * list Dialog) :
  sys_reach tracker_hwnd qt_ex_style s -> sys_inv tracker_hwnd qt_ex_style s.
Proof.
  induction 1 as [pt|s e s' _ IH Hok Hstep].
  - split; [apply app_reach_init|done].
  - by apply (sys_inv_step s s' e).
Qed.

(** C3: the program with its settings dialogs refines the machine
    [app_step] in which settings changes are abstract in-range events:
    every state it reaches is reachable there (so the theorems of the
    run hold for it), and while the overlay is shown the open dialogs
    show the current settings. *)
Theorem system_refines_app (s : App * list Dialog) :
  sys_reach tracker_hwnd qt_ex_style s ->
  app_reach tracker_hwnd qt_ex_style (fst s) /\
  (forall ov pn, phase (fst s) = Shown ov pn -> Forall (dialog_synced (glob (fst s))) (snd s)).
Proof.
  intros Hs. destruct (sys_reach_inv s Hs) as [Hr Hph]. split; [exact Hr|].
  intros ov pn Ep. rewrite Ep in Hph. by apply stack_inv_synced.
Qed.
End SystemLemmas.

(** ** A run on the concrete desktop of [Picker.v]

    The pointer rests on window 10, rectangle (100, 100, 400, 300): the
    first click shows the overlay, a repaint follows, "reselect" starts a
    new selection, and its click shows a second overlay. *)

Definition demo_run (a : App) (e : Event) : App :=
  match app_step 99 0 e a with Some a' => a' | None => a end.

Definition demo_a0 : App := app_init 99 (150, 150).
Definition demo_a1 : App := demo_run demo_a0 EClick.
Definition demo_a2 : App := demo_run demo_a1 EPaint.
Definition demo_a3 : App := demo_run demo_a2 (EReselect (150, 150)).

Lemma demo_reach_a3 : app_reach 99 0 demo_a3.
Proof.
  apply (app_reach_step _ _ demo_a2 (EReselect (150, 150))); [|exact I|vm_compute; reflexivity].
  apply (app_reach_step _ _ demo_a1 EPaint); [|exact I|vm_compute; reflexivity].
  apply (app_reach_step _ _ demo_a0 EClick); [constructor|exact I|vm_compute; reflexivity].
Qed.

(** ** Witnesses *)

Lemma click_after_reselect_places_overlay_witness :
  exists a', app_step 99 0 EClick demo_a3 = Some a' /\
    phase a' = Shown (ov_show (PyQtOverlayWithAim_init (left demo_rect10) (top demo_rect10)
                                (right demo_rect10 - left demo_rect10)
                                (bottom demo_rect10 - top demo_rect10) 0))
                     (mkTkGeometry (Some (200, 100))
                                   (Some (false, right demo_rect10 + 10, false, top demo_rect10))) /\
    selected_rect (glob a') = Some demo_rect10 /\ qapp_alive a' = true /\
    overlays_created a' = S (overlays_created demo_a3).
Proof.
  apply (click_after_reselect_places_overlay 99 0 demo_tracker_fresh demo_a3
           (draw_window_border_start 99 (150, 150)) 10);
    [exact demo_reach_a3 | vm_compute; reflexivity | vm_compute; reflexivity | vm_compute; reflexivity
    | discriminate | vm_compute; reflexivity].
Defined.

Lemma click_places_overlay_witness :
  exists a', app_step 99 0 EClick demo_a0 = Some a' /\
    phase a' = Shown (ov_show (PyQtOverlayWithAim_init (left demo_rect10) (top demo_rect10)
                                (right demo_rect10 - left demo_rect10)
                                (bottom demo_rect10 - top demo_rect10) 0))
                     (mkTkGeometry (Some (200, 100))
                                   (Some (false, right demo_rect10 + 10, false, top demo_rect10))) /\
    selected_rect (glob a') = Some demo_rect10 /\
    tk_geometry (draw_window_border_start 99 (150, 150)) = Some demo_rect10 /\
    overlays_created a' = 1%nat.
Proof.
  apply (click_places_overlay 99 0 demo_tracker_fresh demo_a0 _ 10);
    [constructor | vm_compute; reflexivity | vm_compute; reflexivity | vm_compute; reflexivity
    | discriminate | vm_compute; reflexivity].
Defined.

Lemma first_click_without_window_exits_witness :
  exists a', app_step 99 0 EClick (app_init 99 (0, 0)) = Some a' /\
    phase a' = Exited None /\ overlays_created a' = 0%nat.
Proof.
  apply (first_click_without_window_exits 99 0 demo_tracker_fresh _
           (draw_window_border_start 99 (0, 0)));
    [constructor | vm_compute; reflexivity | vm_compute; reflexivity | vm_compute; reflexivity].
Defined.

Lemma setting_change_repainted_witness :
  exists a2, app_step 99 0 EPaint (demo_run demo_a1 (ESetting (EvAimLength 50))) = Some a2 /\
    last_frame a2 = Some (frame_spec 300 200 (glob (demo_run demo_a1 (ESetting (EvAimLength 50))))).
Proof.
  apply (setting_change_repainted 99 0 demo_a1 _
           (ov_show (PyQtOverlayWithAim_init 100 100 300 200 0)) (mkTkGeometry (Some (200, 100)) (Some (false, 410, false, 100)))
           (EvAimLength 50));
    [apply (app_reach_step _ _ demo_a0 EClick); [constructor|exact I|vm_compute; reflexivity]
    | vm_compute; reflexivity | simpl; lia | vm_compute; reflexivity | vm_compute; discriminate].
Defined.

(** The demo run with the settings dialog opened after the first click. *)
Lemma demo_sys_reach : sys_reach 99 0 (demo_a1, [MainDialog]).
Proof.
  apply (sys_reach_step 99 0 (demo_a1, []) (SysDialog OpenSettings)); [|exact I|vm_compute; reflexivity].
  apply (sys_reach_step 99 0 (demo_a0, []) (SysApp EClick)); [apply sys_reach_init|exact I|].
  vm_compute. reflexivity.
Qed.

Lemma system_refines_app_witness :
  app_reach 99 0 demo_a1 /\
  (forall ov pn, phase demo_a1 = Shown ov pn -> Forall (dialog_synced (glob demo_a1)) [MainDialog]).
Proof. apply (system_refines_app 99 0 (demo_a1, [MainDialog])). apply demo_sys_reach. Defined.
