(* ===== verification/MainLoops.v ===== *)
(** * Nested main loops (src/dhonvtool.py, lines 322-366)

    The program never returns from a Tk main loop before starting the
    next one: [on_click] (a callback of the picker's [overlay.mainloop()],
    line 335) calls [create_red_border_with_buttons] on line 331, which
    runs [control_window.mainloop()] (line 355); "reselect" calls
    [restart_selection] from inside that loop, and it calls
    [draw_window_border()] (line 361), which runs a new picker's main
    loop.  The Python frames suspended in these calls stay on the stack,
    and every "reselect" adds four of them: [restart_selection], the
    panel's loop, [on_click] and the previous picker's loop.

    tkinter's [mainloop] returns once no Tk main window is left
    ([Tk_GetNumMainWindows() > 0] is its loop test, counted over every
    [tk.Tk()] of the thread); the frame below it then returns too, since
    each of these calls is the last statement of its function.

    [Proc] refines the program with its dialogs ([sys_step] of [App.v])
    by the frames of the Python stack that the Tk loops keep and the
    number of live Tk main windows.  A Python exception escaping a Qt
    slot or [paintEvent] aborts the process (PyQt6's default), which
    ends every frame at once.

    [crb_path] keeps the case [App.v] folds into "exited": a [TclError]
    from [control_window.geometry(...)] leaves a live Tk window, so the
    picker's loop would go on; no run reaches it, since the panel's
    geometry string always parses (C4). *)

From Stdlib Require Import ZArith Lia String.
From stdpp Require Import base list decidable.
From S2P Require Import Prelude QtModel Settings TkGeometry Dialogs Overlay Picker App.


(** ** Frames and Tk main windows *)

(** A frame of the Python stack suspended in a call that blocks. *)
Inductive Frame : Type :=
| FModule       (** the top level, in [draw_window_border()] (line 366) *)
| FPickerLoop   (** [draw_window_border], in [overlay.mainloop()] (line 335) *)
| FOnClick      (** [on_click], in [create_red_border_with_buttons(selected_rect)] (line 331) *)
| FPanelLoop    (** [create_red_border_with_buttons], in [control_window.mainloop()] (line 355) *)
| FRestart.     (** [restart_selection], in [draw_window_border()] (line 361) *)

#[export] Instance Frame_eq_dec : EqDecision Frame.
Proof. solve_decision. Defined.

Definition is_loop (f : Frame) : bool :=
  match f with FPickerLoop | FPanelLoop => true | _ => false end.

(** A callback has returned into the innermost frame (the head of the
    list): a main loop goes on while a Tk main window is alive; any other
    frame made its call as its last statement and returns in turn.  The
    empty stack is the end of the process. *)
Fixpoint unwind (w : nat) (fs : list Frame) : list Frame :=
  match fs with
  | [] => []
  | f :: fs' => if is_loop f && negb (Nat.eqb w 0) then fs else unwind w fs'
  end.

(** How [create_red_border_with_buttons(rect)] (lines 339-355) leaves:
    [if rect:] is false and it returns; [control_window.geometry(...)]
    raises, after [n] Tk main windows were made; or it enters
    [control_window.mainloop()] ([QApplication([])] does not raise, also
    when an earlier application object is alive). *)
Inductive CrbPath : Type :=
| CrbReturn
| CrbRaise (e : exn) (tk_created : nat)
| CrbLoop.

Definition crb_path (rect : option Rect) : CrbPath :=
  match rect with
  | None => CrbReturn
  | Some r =>
      match tk_parse_geometry (panel_geometry r) with
      | Some _ => CrbLoop
      | None => CrbRaise TclError 1
      end
  end.

(** The process: the program with its dialogs, the suspended frames
    (innermost first) and the number of live Tk main windows. *)
Record Proc : Type := mkProc {
  sys : App * list Dialog;
  frames : list Frame;
  tk_windows : nat
}.

(** The frames and windows after an event that took the program from
    [a] to [a']. *)
Definition loops_after (e : SysEvent) (a a' : App) (fs : list Frame) (w : nat) : list Frame * nat :=
  match e with
  | SysApp EClick =>
      (* overlay.destroy() (line 330), then line 331 *)
      match crb_path (selected_rect (glob a')) with
      | CrbLoop => (FPanelLoop :: FOnClick :: fs, (w - 1 + 1)%nat)
      | CrbReturn => (unwind (w - 1)%nat fs, (w - 1)%nat)
      | CrbRaise _ n => (unwind (w - 1 + n)%nat fs, (w - 1 + n)%nat)
      end
  | SysApp (EReselect _) =>
      (* control_window.destroy(); red_border.close(); draw_window_border():
         overlay = tk.Tk(), ..., overlay.mainloop() *)
      (FPickerLoop :: FRestart :: fs, (w - 1 + 1)%nat)
  | SysApp EClosePanel =>
      (* the window manager's close button destroys control_window *)
      (unwind (w - 1)%nat fs, (w - 1)%nat)
  | _ =>
      (* a timer, a repaint or a dialog's input returns into the running
         loop; an exception out of a Qt slot aborts the process *)
      match phase a' with Exited _ => ([], 0%nat) | _ => (fs, w) end
  end.

Section Loops.
Context `{WindowManager}.
Variable tracker_hwnd : Z.
Variable qt_ex_style : Z.

(** The program started from the top level (line 366): one Tk window,
    the picker's loop above the module's frame. *)
Definition proc_init (pt : Z * Z) : Proc :=
  mkProc (app_init tracker_hwnd pt, []) [FPickerLoop; FModule] 1%nat.

Definition proc_step (e : SysEvent) (s : Proc) : option Proc :=
  match sys_step tracker_hwnd qt_ex_style e (sys s) with
  | Some s' =>
      let '(fs, w) := loops_after e (fst (sys s)) (fst s') (frames s) (tk_windows s) in
      Some (mkProc s' fs w)
  | None => None
  end.

Inductive proc_reach : Proc -> Prop :=
| proc_reach_init pt : proc_reach (proc_init pt)
| proc_reach_step s e s' : proc_reach s -> sys_event_ok e -> proc_step e s = Some s' -> proc_reach s'.
End Loops.

(** The frames one "reselect" leaves below the new picker's loop:
    [restart_selection], the panel's loop, [on_click] and the previous
    picker's loop. *)
Definition nest (k : nat) : list Frame :=
  concat (replicate k [FRestart; FPanelLoop; FOnClick; FPickerLoop]).

(** The frames of each phase, after [k] overlays were built: the
    picker's loop above [k] nested selections; the panel's loop nested
    in [on_click] inside the picker's loop of the current selection;
    nothing once the program has ended. *)
Definition loops_shape (a : App) (fs : list Frame) (w : nat) : Prop :=
  match phase a with
  | Picking _ => w = 1%nat /\ fs = FPickerLoop :: nest (overlays_created a) ++ [FModule]
  | Shown _ _ =>
      w = 1%nat /\ fs = FPanelLoop :: FOnClick :: FPickerLoop :: nest (pred (overlays_created a)) ++ [FModule]
  | Exited _ => w = 0%nat /\ fs = []
  end.

Definition count_loops (fs : list Frame) : nat := length (List.filter is_loop fs).

(** ** Lemmas *)

(** With no Tk window left, every frame returns. *)
Lemma unwind_none (fs : list Frame) : unwind 0 fs = [].
Proof. induction fs as [|f fs IH]; [done|]. simpl. by rewrite andb_false_r. Qed.

(** [create_red_border_with_buttons] leaves the globals as they are. *)
Lemma create_glob `{WindowManager} (qt_ex_style : Z) (rect : option Rect) (b : App) :
  glob (create_red_border_with_buttons qt_ex_style rect b) = glob b.
Proof. unfold create_red_border_with_buttons. by repeat case_match. Qed.

(** The path [create_red_border_with_buttons] takes, against the phase
    it leaves the program in. *)
Lemma crb_path_phase `{WindowManager} (qt_ex_style : Z) (rect : option Rect) (b : App) :
  match crb_path rect with
  | CrbLoop => exists ov pn, phase (create_red_border_with_buttons qt_ex_style rect b) = Shown ov pn /\
               overlays_created (create_red_border_with_buttons qt_ex_style rect b) = S (overlays_created b)
  | CrbReturn => exists err, phase (create_red_border_with_buttons qt_ex_style rect b) = Exited err
  | CrbRaise _ _ => False
  end.
Proof.
  unfold crb_path, create_red_border_with_buttons. destruct rect as [r|]; [|by eexists].
  unfold panel_geometry. rewrite parse_geometry_ok by lia. by do 2 eexists.
Qed.

Lemma count_loops_app (l1 l2 : list Frame) : count_loops (l1 ++ l2) = (count_loops l1 + count_loops l2)%nat.
Proof. unfold count_loops. by rewrite List.filter_app, length_app. Qed.

(** Each nested selection holds two main loops. *)
Lemma count_loops_nest (k : nat) : count_loops (nest k) = (2 * k)%nat.
Proof.
  induction k as [|k IH]; [done|]. unfold nest in *. simpl replicate. rewrite concat_cons, count_loops_app, IH.
  simpl. lia.
Qed.

Section LoopLemmas.
Context `{WindowManager}.
Variable tracker_hwnd : Z.
Variable qt_ex_style : Z.

Lemma proc_step_inv (s s' : Proc) (e : SysEvent) :
  proc_step tracker_hwnd qt_ex_style e s = Some s' ->
  exists x, sys_step tracker_hwnd qt_ex_style e (sys s) = Some x /\
    s' = mkProc x (fst (loops_after e (fst (sys s)) (fst x) (frames s) (tk_windows s)))
                  (snd (loops_after e (fst (sys s)) (fst x) (frames s) (tk_windows s))).
Proof.
  unfold proc_step. destruct (sys_step _ _ e (sys s)) as [x|]; [|discriminate].
  destruct (loops_after _ _ _ _ _) as [fs w] eqn:El. intros [= <-]. exists x. by rewrite El.
Qed.

Lemma loops_shape_step (s s' : Proc) (e : SysEvent) :
  sys_reach tracker_hwnd qt_ex_style (sys s) ->
  loops_shape (fst (sys s)) (frames s) (tk_windows s) ->
  proc_step tracker_hwnd qt_ex_style e s = Some s' ->
  loops_shape (fst (sys s')) (frames s') (tk_windows s').
Proof.
  intros Hr Hsh (x & Es & ->)%proc_step_inv.
  destruct s as [[a st] fs w], x as [a' st']. cbn [sys fst snd frames tk_windows] in *.
  destruct (sys_reach_inv tracker_hwnd qt_ex_style _ Hr) as [Har _]. cbn [fst] in Har.
  destruct (app_reach_inv tracker_hwnd qt_ex_style a Har) as (_ & Hqc & _ & Hph).
  unfold loops_shape in Hsh |- *.
  destruct e as [e|inp]; simpl in Es.
  - destruct (sys_app_enabled e st) eqn:En; [|discriminate].
    destruct (app_step _ _ e a) as [a''|] eqn:Ea; [|discriminate]. injection Es as <- <-.
    destruct e; unfold app_step in Ea; destruct (phase a) as [p|ov pn|err] eqn:Ep; try discriminate;
      destruct Hsh as [-> ->].
    + (* tick *)
      destruct (after_pending p); [|discriminate]. injection Ea as <-. done.
    + (* click *)
      destruct (tk_exists p); [|discriminate]. rewrite on_click_run in Ea. simpl in Ea. injection Ea as <-.
      simpl loops_after. rewrite create_glob. cbn [glob].
      pose proof (crb_path_phase qt_ex_style (selected_rect (click_selection tracker_hwnd p (glob a)))
                    (mkApp (click_selection tracker_hwnd p (glob a)) (Picking (set_exists false (set_running false p)))
                       (qapp_alive a) (overlays_created a) (last_frame a))) as Hc.
      destruct (crb_path _) as [|ex n|].
      * destruct Hc as [err ->]. simpl. by rewrite unwind_none.
      * done.
      * destruct Hc as (ov & pn & -> & ->). done.
    + (* paint *)
      destruct (paint_pending ov); [|discriminate].
      destruct (render _ _) as [[fr|ex] g']; injection Ea as <-; done.
    + (* reselect *)
      injection Ea as <-. simpl. destruct Hph as [Hq _]. apply Hqc in Hq.
      by destruct (overlays_created a).
    + (* close *)
      injection Ea as <-. cbn [phase set_phase loops_after fst snd]. split; [done|apply unwind_none].
  - (* dialog input *)
    destruct (phase a) as [p|ov pn|err] eqn:Ep; try discriminate. destruct Hsh as [-> ->].
    destruct (dialog_step inp st (glob a, ov)) as [[[[] [g' ov']] st'']|]; try discriminate;
      injection Es as <- <-; done.
Qed.

Lemma proc_reach_inv (s : Proc) :
  proc_reach tracker_hwnd qt_ex_style s ->
  sys_reach tracker_hwnd qt_ex_style (sys s) /\ loops_shape (fst (sys s)) (frames s) (tk_windows s).
Proof.
  induction 1 as [pt|s e s' _ [Hr Hsh] He Hstep].
  - split; [apply sys_reach_init|done].
  - split; [|by apply (loops_shape_step s s' e)].
    destruct (proc_step_inv s s' e Hstep) as (x & Es & ->).
    by apply (sys_reach_step _ _ (sys s) e x).
Qed.

(** C21: the Python stack of the program: every state of the process
    is a state of the program with its dialogs ([sys_step]), and its
    suspended frames follow the phase: in the first selection the
    picker's [mainloop] above the top level; while the overlay is shown
    the panel's [mainloop] nested in [on_click], itself inside the
    picker's loop (the two loops run at once, not one after the other);
    each "reselect" nests the new picker's loop in the panel's, so after
    [k] overlays [k] selections stay suspended below the running one;
    once the program has ended no frame and no Tk window is left. *)
Theorem loops_refine_system (s : Proc) :
  proc_reach tracker_hwnd qt_ex_style s ->
  sys_reach tracker_hwnd qt_ex_style (sys s) /\ loops_shape (fst (sys s)) (frames s) (tk_windows s).
Proof. exact (proc_reach_inv s). Qed.

End LoopLemmas.

(** ** A run on the concrete desktop of [Picker.v]

    The run of [App.v]: the pointer rests on window 10, a click shows the
    overlay, "reselect" starts a second selection. *)

Definition demo_proc_run (s : Proc) (e : SysEvent) : Proc :=
  match proc_step 99 0 e s with Some s' => s' | None => s end.

Definition demo_p0 : Proc := proc_init 99 (150, 150).
Definition demo_p1 : Proc := demo_proc_run demo_p0 (SysApp EClick).
Definition demo_p2 : Proc := demo_proc_run demo_p1 (SysApp (EReselect (150, 150))).

Lemma demo_proc_reach_p2 : proc_reach 99 0 demo_p2.
Proof.
  apply (proc_reach_step _ _ demo_p1 (SysApp (EReselect (150, 150)))); [|exact I|vm_compute; reflexivity].
  apply (proc_reach_step _ _ demo_p0 (SysApp EClick)); [constructor|exact I|vm_compute; reflexivity].
Qed.

Lemma loops_refine_system_witness :
  proc_reach 99 0 demo_p2 /\ sys_reach 99 0 (sys demo_p2) /\
  loops_shape (fst (sys demo_p2)) (frames demo_p2) (tk_windows demo_p2).
Proof.
  split; [exact demo_proc_reach_p2|]. exact (loops_refine_system 99 0 demo_p2 demo_proc_reach_p2).
Defined.

(** The selection after [k] rounds of "click, reselect" with the pointer
    resting on window 10: the globals and the picker are those after
    the first round, and [k] overlays were built. *)
Definition cycle_state (k : nat) : Proc :=
  mkProc (mkApp (glob (fst (sys demo_p2))) (Picking (draw_window_border_start 99 (150, 150))) true k None, [])
         (FPickerLoop :: nest k ++ [FModule]) 1.

Lemma cycle_state_1 : demo_p2 = cycle_state 1.
Proof. vm_compute. reflexivity. Qed.

(** One more round: the click builds an overlay, "reselect" nests a new
    picker loop. *)
Lemma cycle_round (k : nat) :
  proc_step 99 0 (SysApp EClick) (cycle_state (S k)) =
    Some (demo_proc_run (cycle_state (S k)) (SysApp EClick)) /\
  proc_step 99 0 (SysApp (EReselect (150, 150))) (demo_proc_run (cycle_state (S k)) (SysApp EClick)) =
    Some (cycle_state (S (S k))).
Proof. split; vm_compute; reflexivity. Qed.

Lemma cycle_reach (k : nat) : proc_reach 99 0 (cycle_state (S k)).
Proof.
  induction k as [|k IH]; [rewrite <- cycle_state_1; exact demo_proc_reach_p2|].
  destruct (cycle_round k) as [E1 E2].
  exact (proc_reach_step 99 0 _ (SysApp (EReselect (150, 150))) _
           (proc_reach_step 99 0 _ (SysApp EClick) _ IH I E1) I E2).
Qed.

(** C22: the nesting of main loops is unbounded: on a desktop with one
    window under the pointer, clicking and reselecting [k] times leaves
    [2 k + 1] Tk main loops suspended in each other, so for every [n] a
    run reaches a state with at least [n] of them; the Python stack
    grows with every "reselect" (the spec has the loops run one after
    the other). *)
Theorem main_loops_unbounded (n : nat) :
  exists s, proc_reach 99 0 s /\ (n <= count_loops (frames s))%nat.
Proof.
  exists (cycle_state (S n)). split; [apply cycle_reach|].
  unfold cycle_state, frames.
  replace (count_loops _) with (1 + count_loops (nest (S n) ++ [FModule]))%nat by reflexivity.
  rewrite count_loops_app, count_loops_nest. lia.
Qed.
