(* ===== verification/TopLevel.v ===== *)
(** * The module's top level (src/dhonvtool.py, lines 1-20, 24-366)

    Running [dhonvtool.py] executes its top-level statements in order.
    The imports (lines 2-8) bind module and class names, the assignments
    (lines 11-20) bind the settings globals, every [def] and the [class]
    statement bind a function or class object, and the guard of lines
    365-366 calls whatever [draw_window_border] is bound to at that
    moment.  [draw_window_border] is defined twice (lines 274 and 287):
    the second [def] rebinds the name, so the first function object is
    unreachable.

    The namespace is a [gmap string PyObj]; a statement is executed by
    [exec_stmt] in the [PyM] monad (an import of a module that is not
    installed raises [ModuleNotFoundError], a name that is bound nowhere
    raises [NameError]).  The bodies of the functions are modelled in
    the other files; here a function is its identity [FuncId], with the
    global names its body reads ([global_reads]) and rebinds
    ([global_writes]), which is what name resolution at call time
    depends on.  [main_start] turns the state the top level ends in into
    the initial state of [App.v]. *)

From Stdlib Require Import ZArith Lia String.
From stdpp Require Import base list gmap strings decidable.
From S2P Require Import Prelude QtModel Settings Picker App.

Open Scope Z_scope.
Local Open Scope py_scope.

(** ** Objects *)

(** The functions and methods the module defines, [draw_window_border]
    twice; [update_hover] and [on_click] are the closures nested in the
    second [draw_window_border]. *)
Inductive FuncId : Type :=
| F_get_window_rect
| F___init__ | F_make_window_click_through | F_paintEvent
| F_open_settings | F_open_aim_settings | F_open_point_settings | F_open_point_arrangement
| F_change_aim_length | F_change_aim_thickness | F_change_point_size
| F_change_aim_color | F_change_point_color | F_change_aim_opacity | F_change_point_opacity
| F_toggle_point_visibility
| F_draw_window_border_1 | F_draw_window_border_2 | F_update_hover | F_on_click
| F_create_red_border_with_buttons | F_restart_selection.

#[export] Instance FuncId_eq_dec : EqDecision FuncId.
Proof. solve_decision. Defined.

(** The values the module's globals hold. *)
Inductive PyObj : Type :=
| PyModule (name : string)                 (** [import name] *)
| PyImported (module name : string)        (** [from module import name] *)
| PyBuiltin (name : string)
| PyNone
| PyInt (z : Z)
| PyStr (s : string)
| PyColor (c : QColor)
| PyBoolList (l : list bool)
| PyRect (r : Rect)                        (** the tuple [GetWindowRect] returns *)
| PyFunction (f : FuncId)
| PyClass (name : string) (base : PyObj) (methods : list FuncId).

#[export] Instance PyObj_eq_dec : EqDecision PyObj.
Proof. solve_decision. Defined.

Abbreviation Namespace := (gmap string PyObj).

(** The builtins the module refers to: [print], [Exception], [super],
    [enumerate], [int] and [range]. *)
Definition builtins : list string := ["print"; "Exception"; "super"; "enumerate"; "int"; "range"].

(** A global name read at run time ([LOAD_GLOBAL]): the module
    namespace, then the builtins. *)
Definition lookup_name (ns : Namespace) (x : string) : res PyObj :=
  match ns !! x with
  | Some v => Ok v
  | None => if decide (x ∈ builtins) then Ok (PyBuiltin x) else Raise NameError
  end.

(** [QColor(r, g, b, a)]: Qt 6's constructor gives an invalid colour when
    a channel is outside 0..255. *)
Definition QColor_new (r g b a : Z) : QColor :=
  if decide (0 <= r <= 255 /\ 0 <= g <= 255 /\ 0 <= b <= 255 /\ 0 <= a <= 255)
  then QRgba r g b a else QInvalid.

(** ** Statements *)

(** The expressions of the top-level assignments. *)
Inductive Expr : Type :=
| ENone
| EInt (z : Z)
| ECall (f : string) (args : list Z)      (** [f(args)] *)
| ERepeat (b : bool) (n : nat).           (** [[b] * n] *)

Definition eval_expr (ns : Namespace) (e : Expr) : res PyObj :=
  match e with
  | ENone => Ok PyNone
  | EInt z => Ok (PyInt z)
  | ECall f args =>
      match lookup_name ns f with
      | Raise ex => Raise ex
      | Ok v =>
          if decide (v = PyImported "PyQt6.QtGui" "QColor") then
            match args with
            | [r; g; b; a] => Ok (PyColor (QColor_new r g b a))
            | _ => Raise TypeError
            end
          else Raise TypeError
      end
  | ERepeat b n => Ok (PyBoolList (py_repeat b n))
  end.

Inductive Stmt : Type :=
| SImport (module asname : string)            (** [import module as asname] *)
| SFromImport (module : string) (names : list string)
| SAssign (x : string) (e : Expr)
| SDef (name : string) (f : FuncId)
| SClass (name base : string) (methods : list FuncId)
| SIfMain (callee : string).                  (** [if __name__ == "__main__": callee()] *)

(** The module's state: its namespace and the calls the top level
    made, each with the namespace at the moment of the call (the call
    of line 366 enters [overlay.mainloop()], and the whole program runs
    inside it on that namespace; a statement after the guard would only
    run once the program has ended, and the file has none). *)
Record TopState : Type := mkTop {
  ns : Namespace;
  main_calls : list (PyObj * Namespace)
}.

Definition callable (v : PyObj) : bool :=
  match v with PyFunction _ | PyClass _ _ _ | PyBuiltin _ | PyImported _ _ => true | _ => false end.

Section Exec.
(** Which modules the interpreter can import. *)
Variable installed : string -> bool.

Definition import_module (m : string) : PyM TopState unit :=
  if installed m then py_ret tt else py_raise ModuleNotFoundError.

Definition bind_name (x : string) (v : PyObj) : PyM TopState unit :=
  py_modify (fun s => mkTop (<[x := v]> (ns s)) (main_calls s)).

Definition exec_stmt (st : Stmt) : PyM TopState unit :=
  match st with
  | SImport m x => import_module m ;; bind_name x (PyModule m)
  | SFromImport m xs => import_module m ;; py_for xs (fun x => bind_name x (PyImported m x))
  | SAssign x e => s <- py_get ;; v <- py_lift (eval_expr (ns s) e) ;; bind_name x v
  | SDef x f => bind_name x (PyFunction f)
  | SClass x b ms => s <- py_get ;; bv <- py_lift (lookup_name (ns s) b) ;; bind_name x (PyClass x bv ms)
  | SIfMain f =>
      s <- py_get ;;
      if decide (ns s !! "__name__" = Some (PyStr "__main__")) then
        v <- py_lift (lookup_name (ns s) f) ;;
        if callable v then py_modify (fun s => mkTop (ns s) (main_calls s ++ [(v, ns s)]))
        else py_raise TypeError
      else py_ret tt
  end.
End Exec.

(** ** The module *)

(** Lines 2-8. *)
Definition module_imports : list Stmt := [
  SImport "tkinter" "tk";
  SFromImport "PyQt6.QtWidgets" ["QApplication"; "QMainWindow"; "QDialog"; "QVBoxLayout";
    "QPushButton"; "QColorDialog"; "QSlider"; "QLabel"; "QCheckBox"];
  SFromImport "PyQt6.QtGui" ["QPainter"; "QColor"; "QPen"];
  SFromImport "PyQt6.QtCore" ["Qt"];
  SImport "win32gui" "win32gui";
  SImport "win32con" "win32con";
  SImport "math" "math"].

(** The module an import statement loads, and the names a statement
    binds. *)
Definition stmt_module (st : Stmt) : option string :=
  match st with SImport m _ | SFromImport m _ => Some m | _ => None end.

Definition stmt_binds (st : Stmt) : list string :=
  match st with
  | SImport _ x | SAssign x _ | SDef x _ | SClass x _ _ => [x]
  | SFromImport _ xs => xs
  | SIfMain _ => []
  end.

Definition imported_modules : list string := omap stmt_module module_imports.

(** Lines 11-20. *)
Definition module_globals : list Stmt := [
  SAssign "selected_rect" ENone;
  SAssign "overlay" ENone;
  SAssign "aim_color" (ECall "QColor" [0; 0; 255; 255]);
  SAssign "point_color" (ECall "QColor" [0; 255; 0; 255]);
  SAssign "point_opacity" (EInt 255);
  SAssign "aim_opacity" (EInt 255);
  SAssign "point_visibility" (ERepeat true 12);
  SAssign "point_size" (EInt 5);
  SAssign "aim_length" (EInt 20);
  SAssign "aim_thickness" (EInt 2)].

(** The [def] and [class] statements of lines 24-358, in order. *)
Definition module_defs : list Stmt := [
  SDef "get_window_rect" F_get_window_rect;
  SClass "PyQtOverlayWithAim" "QMainWindow" [F___init__; F_make_window_click_through; F_paintEvent];
  SDef "open_settings" F_open_settings;
  SDef "open_aim_settings" F_open_aim_settings;
  SDef "open_point_settings" F_open_point_settings;
  SDef "open_point_arrangement" F_open_point_arrangement;
  SDef "change_aim_length" F_change_aim_length;
  SDef "change_aim_thickness" F_change_aim_thickness;
  SDef "change_point_size" F_change_point_size;
  SDef "change_aim_color" F_change_aim_color;
  SDef "change_point_color" F_change_point_color;
  SDef "change_aim_opacity" F_change_aim_opacity;
  SDef "change_point_opacity" F_change_point_opacity;
  SDef "toggle_point_visibility" F_toggle_point_visibility;
  SDef "draw_window_border" F_draw_window_border_1;
  SDef "draw_window_border" F_draw_window_border_2;
  SDef "create_red_border_with_buttons" F_create_red_border_with_buttons;
  SDef "restart_selection" F_restart_selection].

(** Lines 365-366. *)
Definition module_main : Stmt := SIfMain "draw_window_border".

Definition module_body : list Stmt := module_imports ++ module_globals ++ module_defs ++ [module_main].

(** The interpreter runs the file with [__name__] set. *)
Definition run_module (installed : string -> bool) (name : string) : res unit * TopState :=
  py_for module_body (exec_stmt installed) (mkTop {[ "__name__" := PyStr name ]} []).

(** ** What the functions do with the namespace *)

(** The global and builtin names each body reads when it runs (a
    [lambda] counts for the function that creates it; [overlay] in the
    closures of [draw_window_border] is the global, which that function
    declares [global]). *)
Definition global_reads (f : FuncId) : list string :=
  match f with
  | F_get_window_rect => ["win32gui"; "print"; "Exception"]
  | F___init__ => ["super"; "Qt"]
  | F_make_window_click_through => ["win32gui"; "win32con"]
  | F_paintEvent => ["QPainter"; "QPen"; "QColor"; "Qt"; "aim_color"; "aim_thickness"; "aim_length";
                     "enumerate"; "point_visibility"; "math"; "int"; "point_color"; "point_opacity";
                     "point_size"]
  | F_open_settings => ["QDialog"; "QVBoxLayout"; "QPushButton"; "open_aim_settings";
                        "open_point_settings"; "open_point_arrangement"]
  | F_open_aim_settings => ["QDialog"; "QVBoxLayout"; "QPushButton"; "change_aim_color"; "QSlider"; "Qt";
                            "aim_length"; "change_aim_length"; "QLabel"; "aim_thickness";
                            "change_aim_thickness"; "aim_opacity"; "change_aim_opacity"]
  | F_open_point_settings => ["QDialog"; "QVBoxLayout"; "QPushButton"; "change_point_color"; "QSlider"; "Qt";
                              "point_size"; "change_point_size"; "QLabel"; "point_opacity";
                              "change_point_opacity"]
  | F_open_point_arrangement => ["QDialog"; "QVBoxLayout"; "QLabel"; "range"; "QCheckBox";
                                 "point_visibility"; "toggle_point_visibility"]
  | F_change_aim_length | F_change_aim_thickness | F_change_point_size | F_change_point_opacity => []
  | F_change_aim_color => ["QColorDialog"; "aim_color"]
  | F_change_point_color => ["QColorDialog"; "point_color"]
  | F_change_aim_opacity => ["aim_color"]
  | F_toggle_point_visibility => ["point_visibility"]
  | F_draw_window_border_1 | F_draw_window_border_2 => ["tk"; "overlay"]
  | F_update_hover => ["overlay"; "win32gui"; "get_window_rect"; "print"; "Exception"]
  | F_on_click => ["get_window_rect"; "overlay"; "create_red_border_with_buttons"; "selected_rect"]
  | F_create_red_border_with_buttons => ["QApplication"; "PyQtOverlayWithAim"; "tk"; "restart_selection";
                                         "open_settings"]
  | F_restart_selection => ["draw_window_border"]
  end.

(** The global names each body rebinds ([global x] followed by
    [x = ...]; [point_visibility[index] = state] mutates the list and
    rebinds nothing, and [change_aim_opacity] and
    [create_red_border_with_buttons] declare a global they never
    assign). *)
Definition global_writes (f : FuncId) : list string :=
  match f with
  | F_draw_window_border_1 | F_draw_window_border_2 => ["overlay"]
  | F_on_click => ["selected_rect"]
  | F_change_aim_length => ["aim_length"]
  | F_change_aim_thickness => ["aim_thickness"]
  | F_change_point_size => ["point_size"]
  | F_change_aim_color => ["aim_color"]
  | F_change_point_color => ["point_color"]
  | F_change_point_opacity => ["point_opacity"]
  | _ => []
  end.

Definition all_funcs : list FuncId :=
  [F_get_window_rect; F___init__; F_make_window_click_through; F_paintEvent;
   F_open_settings; F_open_aim_settings; F_open_point_settings; F_open_point_arrangement;
   F_change_aim_length; F_change_aim_thickness; F_change_point_size;
   F_change_aim_color; F_change_point_color; F_change_aim_opacity; F_change_point_opacity;
   F_toggle_point_visibility; F_draw_window_border_1; F_draw_window_border_2; F_update_hover;
   F_on_click; F_create_red_border_with_buttons; F_restart_selection].

(** ** The two definitions of [draw_window_border] *)

(** What a call of [draw_window_border] leaves: the picker, and whether
    the call is inside [overlay.mainloop()] or has returned. *)
Inductive BorderCall : Type :=
| InMainLoop (p : Picker)
| Returned (p : Picker).

(** The first definition, lines 274-285: the same Tk window, canvas and
    locals as the second, then it returns; no first [update_hover()],
    no click binding, no main loop. *)
Definition draw_window_border_first : BorderCall :=
  Returned (mkPicker None true true None [] false 0).

Section Start.
Context `{WindowManager}.
Variable tracker_hwnd : Z.

(** The second definition, lines 287-335: [overlay.bind(...)], a first
    [update_hover()], then [overlay.mainloop()]. *)
Definition draw_window_border_second (pt : Z * Z) : BorderCall :=
  InMainLoop (draw_window_border_start tracker_hwnd pt).

Definition call_border (v : PyObj) (pt : Z * Z) : option BorderCall :=
  match v with
  | PyFunction F_draw_window_border_1 => Some draw_window_border_first
  | PyFunction F_draw_window_border_2 => Some (draw_window_border_second pt)
  | _ => None
  end.

(** The settings globals, read back from the namespace. *)
Definition globals_of_ns (m : Namespace) : option Globals :=
  match m !! "selected_rect", m !! "aim_color", m !! "point_color", m !! "point_opacity",
        m !! "aim_opacity", m !! "point_visibility", m !! "point_size", m !! "aim_length",
        m !! "aim_thickness" with
  | Some sr, Some (PyColor ac), Some (PyColor pc), Some (PyInt po), Some (PyInt ao),
    Some (PyBoolList vis), Some (PyInt ps), Some (PyInt al), Some (PyInt ath) =>
      match sr with
      | PyNone => Some (mkGlobals None ac pc po ao vis ps al ath)
      | PyRect r => Some (mkGlobals (Some r) ac pc po ao vis ps al ath)
      | _ => None
      end
  | _, _, _, _, _, _, _, _, _ => None
  end.

(** The program [App.v] runs once the top level has made its call: in
    the picker's main loop, or ended when the call returned (the script
    ends and the interpreter exits). *)
Definition main_start (pt : Z * Z) (s : TopState) : option App :=
  match main_calls s with
  | [(v, m)] =>
      match globals_of_ns m, call_border v pt with
      | Some g, Some (InMainLoop p) => Some (mkApp g (Picking p) false 0 None)
      | Some g, Some (Returned _) => Some (mkApp g (Exited None) false 0 None)
      | _, _ => None
      end
  | [] => option_map (fun g => mkApp g (Exited None) false 0 None) (globals_of_ns (ns s))
  | _ => None
  end.
End Start.

(** Every function object a value holds (a class holds its methods). *)
Fixpoint funcs_of (v : PyObj) : list FuncId :=
  match v with
  | PyFunction f => [f]
  | PyClass _ b ms => ms ++ funcs_of b
  | _ => []
  end.

(** ** Runs *)

(** The namespaces a run goes through: the one at the moment of the
    top level's call, then any rebinding a function body makes (the
    functions never delete a global). *)
Section Runs.
Variable installed : string -> bool.
Inductive ns_reach : Namespace -> Prop :=
| ns_reach_call s v m : run_module installed "__main__" = (Ok tt, s) -> In (v, m) (main_calls s) -> ns_reach m
| ns_reach_write m f x v : ns_reach m -> x ∈ global_writes f -> ns_reach (<[x := v]> m).
End Runs.

(** The state the top level leaves when every import succeeds. *)
Definition loaded_main : TopState := snd (run_module (fun _ => true) "__main__").

(** ** Lemmas *)

Lemma exec_stmt_ext (i1 i2 : string -> bool) (st : Stmt) :
  (forall m, stmt_module st = Some m -> i1 m = i2 m) -> exec_stmt i1 st = exec_stmt i2 st.
Proof. intros H. destruct st; simpl in *; try reflexivity; unfold import_module; by rewrite (H _ eq_refl). Qed.

Lemma body_modules_imported :
  forallb (fun st => match stmt_module st with
                     | Some m => bool_decide (m ∈ imported_modules) | None => true end) module_body = true.
Proof. vm_compute. reflexivity. Qed.

(** Only the imports depend on the installed modules. *)
Lemma run_module_installed (installed : string -> bool) (name : string) :
  (forall m, m ∈ imported_modules -> installed m = true) ->
  run_module installed name = run_module (fun _ => true) name.
Proof.
  intros Hinst. unfold run_module.
  rewrite (py_for_ext _ (exec_stmt installed) (exec_stmt (fun _ => true))); [reflexivity|].
  intros st Hst. apply exec_stmt_ext. intros m Hm. apply Hinst.
  pose proof (proj1 (forallb_forall _ _) body_modules_imported st Hst) as Hb.
  cbv beta in Hb. rewrite Hm in Hb. by apply bool_decide_eq_true in Hb.
Qed.

Lemma run_module_main : run_module (fun _ => true) "__main__" = (Ok tt, loaded_main).
Proof. vm_compute. reflexivity. Qed.

Lemma run_module_loaded (installed : string -> bool) (s : TopState) :
  (forall m, m ∈ imported_modules -> installed m = true) ->
  run_module installed "__main__" = (Ok tt, s) -> s = loaded_main.
Proof. intros Hinst. rewrite run_module_installed, run_module_main by done. congruence. Qed.

Lemma loaded_main_globals : globals_of_ns (ns loaded_main) = Some init_globals.
Proof. vm_compute. reflexivity. Qed.

Lemma loaded_main_calls : main_calls loaded_main = [(PyFunction F_draw_window_border_2, ns loaded_main)].
Proof. vm_compute. reflexivity. Qed.

Lemma lookup_name_insert (m : Namespace) (x y : string) (v : PyObj) :
  lookup_name (<[x := v]> m) y = if decide (x = y) then Ok v else lookup_name m y.
Proof. unfold lookup_name. rewrite lookup_insert. by case_decide. Qed.

Lemma all_funcs_complete (f : FuncId) : In f all_funcs.
Proof. destruct f; simpl; tauto. Qed.

(** The names a function rebinds are settings globals or [overlay],
    never a function's name. *)
Lemma global_writes_not_border (f : FuncId) : "draw_window_border" ∉ global_writes f.
Proof. destruct f; compute_done. Qed.

(** Every name a function reads is bound once the top level has run. *)
Definition resolves (m : Namespace) (x : string) : bool :=
  match lookup_name m x with Ok _ => true | Raise _ => false end.

Lemma loaded_reads_resolve :
  forallb (fun f => forallb (resolves (ns loaded_main)) (global_reads f)) all_funcs = true.
Proof. vm_compute. reflexivity. Qed.

Lemma resolves_insert (m : Namespace) (x y : string) (v : PyObj) :
  resolves m y = true -> resolves (<[x := v]> m) y = true.
Proof. unfold resolves. rewrite lookup_name_insert. by case_decide. Qed.

Lemma loaded_first_unreachable :
  forallb (fun '(_, v) => negb (bool_decide (F_draw_window_border_1 ∈ funcs_of v)))
          (map_to_list (ns loaded_main)) = true.
Proof. vm_compute. reflexivity. Qed.

Section Imports.
Variable installed : string -> bool.

(** An import of an installed module returns normally. *)
Lemma exec_import_ok (st : Stmt) (m : string) (s : TopState) :
  stmt_module st = Some m -> installed m = true -> fst (exec_stmt installed st s) = Ok tt.
Proof.
  intros Hm Hi. destruct st; simpl in Hm; try discriminate; injection Hm as <-;
    unfold exec_stmt, import_module; rewrite Hi; [reflexivity|].
  apply py_for_ok. reflexivity.
Qed.

(** An import makes no call and leaves every name it does not bind. *)
Lemma exec_import_frame (st : Stmt) (m y : string) (s : TopState) :
  stmt_module st = Some m -> y ∉ stmt_binds st ->
  main_calls (snd (exec_stmt installed st s)) = main_calls s /\
  ns (snd (exec_stmt installed st s)) !! y = ns s !! y.
Proof.
  intros Hm Hy. destruct st; simpl in Hm; try discriminate; injection Hm as <-;
    unfold exec_stmt, import_module; (destruct (installed module) eqn:Hi; [|done]); simpl in Hy.
  - simpl. rewrite lookup_insert_ne by set_solver. done.
  - apply (py_for_inv (fun t => main_calls t = main_calls s /\ ns t !! y = ns s !! y)); [|done].
    intros x t Hx [Hc Hl]. simpl. rewrite lookup_insert_ne; [done|].
    intros <-. apply Hy. by apply list_elem_of_In.
Qed.

(** A run of imports with a missing module raises [ModuleNotFoundError]. *)
Lemma imports_raise (l : list Stmt) (m : string) (s : TopState) :
  Forall (fun st => is_Some (stmt_module st)) l -> m ∈ omap stmt_module l -> installed m = false ->
  fst (py_for l (exec_stmt installed) s) = Raise ModuleNotFoundError.
Proof.
  intros Hl Hm Hi. revert s. induction l as [|st l IH]; intros s; [by apply elem_of_nil in Hm|].
  inversion_clear Hl as [|? ? [m' Hm'] Hl']. simpl. unfold py_bind.
  destruct (installed m') eqn:Hi'.
  - pose proof (exec_import_ok st m' s Hm' Hi') as Hok.
    destruct (exec_stmt installed st s) as [r s'] eqn:E. simpl in Hok. subst r.
    apply IH; [exact Hl'|]. simpl in Hm. rewrite Hm' in Hm.
    apply elem_of_cons in Hm as [->|Hm]; [congruence|done].
  - destruct st; simpl in Hm'; try discriminate; injection Hm' as <-;
      unfold exec_stmt, py_bind, import_module; by rewrite Hi'.
Qed.
End Imports.

(** ** Theorems *)

Section TopTheorems.
Variable installed : string -> bool.
Hypothesis installed_all : forall m, m ∈ imported_modules -> installed m = true.

(** The top level makes one call, on the namespace it has then. *)
Lemma call_namespace (s : TopState) (v : PyObj) (m : Namespace) :
  run_module installed "__main__" = (Ok tt, s) -> In (v, m) (main_calls s) -> m = ns loaded_main.
Proof.
  intros Hrun Hin. apply run_module_loaded in Hrun as ->; [|done].
  rewrite loaded_main_calls in Hin. by destruct Hin as [[= _ <-]|[]].
Qed.

(** C16: Running the file as the main program with its imports
    available leaves exactly the initial state of the program model:
    the settings globals hold the values of lines 11-20, and the guard
    of lines 365-366 has called the second [draw_window_border], whose
    picker is in its main loop, i.e. [app_init]. *)
Theorem module_main_refines_app_init `{WindowManager} (tracker_hwnd : Z) (pt : Z * Z) :
  exists s, run_module installed "__main__" = (Ok tt, s) /\
            main_start tracker_hwnd pt s = Some (app_init tracker_hwnd pt).
Proof.
  exists loaded_main. rewrite run_module_installed, run_module_main by done. split; [done|].
  unfold main_start. rewrite loaded_main_calls. cbv iota beta. by rewrite loaded_main_globals.
Qed.

(** C18: The second [def draw_window_border] (line 287) rebinds the
    name: once the top level has run no global holds the first
    function object (lines 274-285 are dead), and in every namespace a
    run goes through, the calls of lines 361 and 366 resolve to the
    second definition, since no function rebinds that name. *)
Theorem draw_window_border_rebound (s : TopState) (m : Namespace) :
  run_module installed "__main__" = (Ok tt, s) ->
  (forall x v, ns s !! x = Some v -> F_draw_window_border_1 ∉ funcs_of v) /\
  (ns_reach installed m -> lookup_name m "draw_window_border" = Ok (PyFunction F_draw_window_border_2)).
Proof.
  intros Hrun. apply run_module_loaded in Hrun as ->; [|done]. split.
  - intros x v Hx. apply elem_of_map_to_list in Hx.
    pose proof (proj1 (forallb_forall _ _) loaded_first_unreachable _ (proj1 (list_elem_of_In _ _) Hx)) as Hb.
    simpl in Hb. by apply negb_true_iff, bool_decide_eq_false in Hb.
  - induction 1 as [s v m Hrun Hin|m f x v _ IH Hx].
    + rewrite (call_namespace s v m Hrun Hin). vm_compute. reflexivity.
    + rewrite lookup_name_insert. case_decide as Hxb; [|done].
      subst x. by apply global_writes_not_border in Hx.
Qed.

(** C17: No [NameError] at run time: in every namespace a run goes
    through, from the one at the moment of the call on line 366 on,
    every global or builtin name any function body reads is bound (the
    imports, assignments and definitions all precede the guard, and
    function bodies only rebind names). *)
Theorem module_names_resolve :
  (exists s, run_module installed "__main__" = (Ok tt, s) /\ main_calls s <> []) /\
  (forall (m : Namespace) (f : FuncId) (x : string),
     ns_reach installed m -> x ∈ global_reads f -> exists v, lookup_name m x = Ok v).
Proof.
  split.
  { exists loaded_main. rewrite run_module_installed, run_module_main by done.
    split; [done|]. by rewrite loaded_main_calls. }
  intros m f x Hreach Hx. enough (resolves m x = true) as Hr.
  { unfold resolves in Hr. destruct (lookup_name m x) as [v|]; [by exists v|discriminate]. }
  induction Hreach as [s v m Hrun Hin|m g y v _ IH _].
  - rewrite (call_namespace s v m Hrun Hin).
    pose proof (proj1 (forallb_forall _ _) loaded_reads_resolve f (all_funcs_complete f)) as Hf.
    exact (proj1 (forallb_forall _ _) Hf x (proj1 (list_elem_of_In _ _) Hx)).
  - by apply resolves_insert.
Qed.
End TopTheorems.

(** C20: Without one of the imported modules (pywin32 outside Windows,
    say), the run stops at its import with [ModuleNotFoundError], before
    any settings global is bound and without calling
    [draw_window_border]. *)
Theorem module_missing_import (installed : string -> bool) (m : string) :
  m ∈ imported_modules -> installed m = false ->
  exists s, run_module installed "__main__" = (Raise ModuleNotFoundError, s) /\
            main_calls s = [] /\ globals_of_ns (ns s) = None.
Proof.
  intros Hm Hi. unfold run_module, module_body. rewrite py_for_app. unfold py_bind at 1.
  pose proof (imports_raise installed module_imports m (mkTop {[ "__name__" := PyStr "__main__" ]} []) ltac:(repeat econstructor) Hm Hi)
    as Hr.
  pose proof (py_for_inv (fun t => main_calls t = [] /\ ns t !! "selected_rect" = None)
    module_imports (exec_stmt installed) (mkTop {[ "__name__" := PyStr "__main__" ]} [])) as Hf.
  destruct (py_for module_imports _ _) as [r s]. simpl in Hr, Hf. subst r.
  exists s. destruct Hf as [Hc Hs]; [|done|].
  - intros st t Hst [Hc Hs]. destruct (stmt_module st) as [m'|] eqn:Hm'.
    + destruct (exec_import_frame installed st m' "selected_rect" t Hm') as [Hc' Hs'].
      { revert Hst. clear. intros Hst. repeat destruct Hst as [<-|Hst]; try compute_done; contradiction. }
      split; congruence.
    + revert Hst Hm'. clear. intros Hst. by repeat destruct Hst as [<-|Hst].
  - repeat split; [done|]. unfold globals_of_ns. by rewrite Hs.
Qed.

(** ** Witnesses *)

(** An interpreter without pywin32. *)
Definition no_pywin32 (m : string) : bool := negb (String.eqb m "win32gui").

Lemma module_main_refines_app_init_witness :
  (forall m, m ∈ imported_modules -> (fun _ : string => true) m = true) /\
  exists s, run_module (fun _ => true) "__main__" = (Ok tt, s) /\
            main_start 99 (150, 150) s = Some (app_init 99 (150, 150)).
Proof.
  split; [intros m _; reflexivity|].
  exact (module_main_refines_app_init (fun _ => true) (fun m _ => eq_refl) 99 (150, 150)).
Defined.

Lemma draw_window_border_rebound_witness :
  run_module (fun _ => true) "__main__" = (Ok tt, loaded_main) /\
  ns_reach (fun _ => true) (<[ "selected_rect" := PyRect demo_rect10 ]> (ns loaded_main)) /\
  lookup_name (<[ "selected_rect" := PyRect demo_rect10 ]> (ns loaded_main)) "draw_window_border"
    = Ok (PyFunction F_draw_window_border_2).
Proof.
  assert (Hrun : run_module (fun _ => true) "__main__" = (Ok tt, loaded_main)) by (vm_compute; reflexivity).
  assert (Hreach : ns_reach (fun _ => true) (<[ "selected_rect" := PyRect demo_rect10 ]> (ns loaded_main))).
  { apply (ns_reach_write _ _ F_on_click); [apply (ns_reach_call _ loaded_main (PyFunction F_draw_window_border_2));
       [vm_compute; reflexivity|vm_compute; left; reflexivity]|vm_compute; left]. }
  split; [exact Hrun|]. split; [exact Hreach|].
  exact (proj2 (draw_window_border_rebound (fun _ => true) (fun m _ => eq_refl) loaded_main _ Hrun) Hreach).
Defined.

Lemma module_names_resolve_witness :
  ns_reach (fun _ => true) (ns loaded_main) /\ "math" ∈ global_reads F_paintEvent /\
  exists v, lookup_name (ns loaded_main) "math" = Ok v.
Proof.
  assert (Hreach : ns_reach (fun _ => true) (ns loaded_main)).
  { apply (ns_reach_call _ loaded_main (PyFunction F_draw_window_border_2));
      [vm_compute; reflexivity|vm_compute; left; reflexivity]. }
  assert (Hx : "math" ∈ global_reads F_paintEvent) by compute_done.
  split; [exact Hreach|]. split; [exact Hx|].
  exact (proj2 (module_names_resolve (fun _ => true) (fun m _ => eq_refl)) _ F_paintEvent "math" Hreach Hx).
Defined.

Lemma module_missing_import_witness :
  "win32gui" ∈ imported_modules /\ no_pywin32 "win32gui" = false /\
  exists s, run_module no_pywin32 "__main__" = (Raise ModuleNotFoundError, s) /\
            main_calls s = [] /\ globals_of_ns (ns s) = None.
Proof.
  assert (Hm : "win32gui" ∈ imported_modules) by compute_done.
  assert (Hi : no_pywin32 "win32gui" = false) by reflexivity.
  split; [exact Hm|]. split; [exact Hi|]. exact (module_missing_import no_pywin32 "win32gui" Hm Hi).
Defined.
